(** * Label Studio → COCO keypoint converter (LS-full2Coco-KPT.py)

    A shallow embedding of [LSConverter]: the taxonomy builder
    ([__init__]), the per-task association of boxes and keypoint sets,
    the orphan resolver, the geometry checks and the output assembly
    ([convert_to_coco] and its static helpers).

    Modelling conventions.
    - JSON numbers are rationals ([Q]); Python's [*] and [/] on them are
      [Qmult] and [Qdiv], and comparisons are the boolean order on [Q].
      Rounding of binary floating point is not modelled.
    - A JSON object with a fixed set of possibly missing keys is a record
      of [option] fields; [d[k]] on a missing key raises [KeyError],
      [d.get(k)] returns [None].
    - A Python [dict] that is iterated is an insertion-ordered association
      list ([dict_set] keeps the position of a key that already exists).
    - An uncaught exception aborts the run: every function that can raise
      returns a [Res].  [warnings.warn] and [logger.warning] append a
      [diag] to the run's log.  The log records the calls in order; which
      of them are shown is up to Python, whose default filter shows a
      [warnings.warn] text repeated from the same line once. *)

From Stdlib Require Import List String Bool Arith ZArith QArith Lia.
From Stdlib Require DecimalString DecimalZ.
Import ListNotations.

Local Open Scope string_scope.
Local Open Scope list_scope.
Local Open Scope Q_scope.

(** ** Exceptions and the error monad *)

Inductive exn : Type :=
| KeyError (key : string)
| IndexError
| TypeError
| Breakpoint.          (* [breakpoint()]: the run stops in the debugger *)

Inductive Res (A : Type) : Type :=
| Ok (a : A)
| Raise (e : exn).

Arguments Ok {A} a.
Arguments Raise {A} e.

Definition bind {A B : Type} (m : Res A) (k : A -> Res B) : Res B :=
  match m with
  | Ok a => k a
  | Raise e => Raise e
  end.

Notation "x <- m ;; k" := (bind m (fun x => k))
  (at level 61, m at next level, right associativity).
Notation "' p <- m ;; k" := (bind m (fun x => let p := x in k))
  (at level 61, p pattern, m at next level, right associativity).

(** [d[key]] on an optional field. *)
Definition getitem {A : Type} (key : string) (field : option A) : Res A :=
  match field with
  | Some a => Ok a
  | None => Raise (KeyError key)
  end.

(** A [for] loop whose body may raise. *)
Fixpoint for_each {S A : Type} (body : S -> A -> Res S) (l : list A) (s : S)
  : Res S :=
  match l with
  | [] => Ok s
  | a :: r => s' <- body s a ;; for_each body r s'
  end.

(** ** Insertion-ordered dictionaries *)

Section Dict.
Context {K V : Type} (key_eqb : K -> K -> bool).

Definition dict : Type := list (K * V).

Fixpoint dict_get (d : dict) (k : K) : option V :=
  match d with
  | [] => None
  | (k', v) :: r => if key_eqb k' k then Some v else dict_get r k
  end.

(** [d[k] = v]: an existing key keeps its position, a new key goes last. *)
Fixpoint dict_set (d : dict) (k : K) (v : V) : dict :=
  match d with
  | [] => [(k, v)]
  | (k', v') :: r =>
      if key_eqb k' k then (k', v) :: r else (k', v') :: dict_set r k v
  end.

Definition dict_keys (d : dict) : list K := map fst d.
End Dict.

Arguments dict : clear implicits.

(** ** Numbers: truthiness and comparisons *)

(** [bool(w)] for a dimension that is [None] or a number. *)
Definition truthy (w : option Q) : bool :=
  match w with
  | Some q => negb (Qeq_bool q 0)
  | None => false
  end.

Definition Qlt_bool (a b : Q) : bool := negb (Qle_bool b a).

(** [x_min <= x <= x_max and y_min <= y <= y_max] *)
Definition in_range (x_min y_min x_max y_max : Q) (p : Q * Q) : bool :=
  Qle_bool x_min (fst p) && Qle_bool (fst p) x_max &&
  Qle_bool y_min (snd p) && Qle_bool (snd p) y_max.

(** ** Input documents *)

(** A [<Label value=... background=... hotkey=.../>] element of the
    configuration; [label.get(attr)] is [None] for a missing attribute. *)
Record ConfigLabel : Type := mkConfigLabel {
  cl_value : option string;
  cl_background : option string;
  cl_hotkey : option string
}.

(** The [value] object of a label record. *)
Record Value : Type := mkValue {
  v_x : option Q;
  v_y : option Q;
  v_width : option Q;
  v_height : option Q;
  v_points : option (list (Q * Q));
  v_original_width : option Q;
  v_original_height : option Q;
  v_rectanglelabels : option (list string);
  v_polygonlabels : option (list string)
}.

(** One entry of an annotation's [result] list. *)
Record Label : Type := mkLabel {
  l_id : string;
  l_type : string;
  l_parentID : option string;
  l_original_width : option Q;
  l_original_height : option Q;
  l_value : option Value
}.

Record Annotation : Type := mkAnnotation {
  completed_by : Z;
  result : list Label
}.

(** A task; [t_drafts] is only tested for emptiness. *)
Record Task : Type := mkTask {
  t_id : Z;
  t_image : string;
  t_drafts : list string;
  t_annotations : list Annotation
}.

(** ** Intermediate and output records *)

Record Category : Type := mkCategory {
  cat_id : nat;
  cat_name : option string;
  cat_color : option string;
  cat_hotkey : option string;
  cat_label_type : string
}.

(** The converter object built by [__init__]. *)
Record LSConverter : Type := mkConverter {
  rect_categories : list Category;
  poly_categories : list Category;
  rect_name_to_id : dict (option string) nat;
  poly_name_to_id : dict (option string) nat
}.

(** An entry of [annotations_dict]. *)
Record Assoc : Type := mkAssoc {
  a_image_id : nat;
  a_bbox : option Label;
  a_keypoints : list Label;
  a_has_draft : bool
}.

(** An entry of [orphan_keypoints_list]. *)
Record Orphan : Type := mkOrphan {
  o_image_id : nat;
  o_label : Label;
  o_width : option Q;
  o_height : option Q
}.

Record Image : Type := mkImage {
  img_id : nat;
  img_width : Q;
  img_height : Q;
  img_file_name : string;
  img_label_studio_image_id : Z
}.

Definition BBox : Type := (Q * Q * Q * Q)%type.

Record CocoAnn : Type := mkCocoAnn {
  ann_id : nat;
  ann_image_id : nat;
  ann_category_id : nat;
  ann_bbox : BBox;
  ann_area : Q;
  ann_keypoints : list Q;
  ann_num_keypoints : nat;
  ann_iscrowd : nat;
  ann_bbox_label : list string;
  ann_author_id : Z
}.

(** Diagnostics, one constructor per warning site. *)
Inductive diag : Type :=
| DimsNotFound (image_name : string)
| NoAnnotations (item_idx : nat) (task : Z)
| RectHasPoints (author task : Z) (has_draft : bool)
| PolyHasX (author task : Z) (has_draft : bool)
| UnknownType
| NotFourKeypoints (num : nat) (author task : Z) (label_id : string)
    (has_draft : bool)
| KptOutOfRange (author task : Z) (label_id : string) (has_draft : bool)
| FrontOrder (author task : Z) (label_id : string) (has_draft : bool)
| BackOrder (author task : Z) (label_id : string) (has_draft : bool)
| Unmatched (task : Z) (label_id : string) (author : Z)
    (abs_points : list (Q * Q)) (has_draft : bool).

(** ** [LSConverter.__init__] *)

Definition opt_string_eqb (a b : option string) : bool :=
  match a, b with
  | Some x, Some y => String.eqb x y
  | None, None => true
  | _, _ => false
  end.

(** [for idx, label in enumerate(labels, start)]: one taxonomy. *)
Fixpoint build_taxonomy (label_type : string) (keep_hotkey : bool)
  (labels : list ConfigLabel) (idx : nat)
  (cats : list Category) (ids : dict (option string) nat)
  : list Category * dict (option string) nat :=
  match labels with
  | [] => (cats, ids)
  | label :: rest =>
      build_taxonomy label_type keep_hotkey rest (S idx)
        (cats ++ [mkCategory idx (cl_value label) (cl_background label)
                    (if keep_hotkey then cl_hotkey label else None)
                    label_type])
        (dict_set opt_string_eqb ids (cl_value label) idx)
  end.

(** [rect_labels] and [poly_labels] are the results of the two
    [root.findall] queries. *)
Definition init (rect_labels poly_labels : list ConfigLabel) : LSConverter :=
  let '(rc, rm) := build_taxonomy "rectangle" false rect_labels 1 [] [] in
  let '(pc, pm) := build_taxonomy "polygon" true poly_labels 1 [] [] in
  mkConverter rc pc rm pm.

(** ** Static helpers *)

(** The dimensions a converter works with: the caller's, or the label's
    own top-level ones when either of the caller's is falsy. *)
Definition effective_dims (ann : Label) (width height : option Q)
  : Res (Q * Q) :=
  if negb (truthy width) || negb (truthy height) then
    w <- getitem "original_width" (l_original_width ann) ;;
    h <- getitem "original_height" (l_original_height ann) ;;
    Ok (w, h)
  else
    match width, height with
    | Some w, Some h => Ok (w, h)
    | _, _ => Raise TypeError     (* not reached: both are truthy *)
    end.

Definition _convert_bbox (bbox_ann : Label) (width height : option Q)
  : Res BBox :=
  '(width, height) <- effective_dims bbox_ann width height ;;
  value <- getitem "value" (l_value bbox_ann) ;;
  match v_x value, v_y value, v_width value, v_height value with
  | Some x, Some y, Some w, Some h =>
      Ok (x * width / 100, y * height / 100,
          w * width / 100, h * height / 100)
  | _, _, _, _ => Raise Breakpoint
  end.

(** [coords.extend([x, y, 2])] for each point. *)
Fixpoint extend_coords (points : list (Q * Q)) (width height : Q) : list Q :=
  match points with
  | [] => []
  | point :: rest =>
      (fst point * width / 100) :: (snd point * height / 100) :: 2
        :: extend_coords rest width height
  end.

Definition _convert_single_keypoint (keypoint_ann : Label)
  (width height : option Q) : Res (list Q * nat) :=
  '(width, height) <- effective_dims keypoint_ann width height ;;
  value <- getitem "value" (l_value keypoint_ann) ;;
  points <- getitem "points" (v_points value) ;;
  Ok (extend_coords points width height, List.length points).

(** [sum((points[(i+1) % n][0] - points[i][0]) *
         (points[(i+1) % n][1] + points[i][1]) for i in range(n))],
    added from left to right starting from 0; the sum is exact here, the
    code's is in binary floating point. *)
Definition signed_area (points : list (Q * Q)) : Q :=
  let n := List.length points in
  let pt i := nth i points (0, 0) in
  fold_left Qplus
    (map (fun i => (fst (pt ((i + 1) mod n)%nat) - fst (pt i)) *
                   (snd (pt ((i + 1) mod n)%nat) + snd (pt i)))
         (seq 0 n))
    0.

Definition _check_polygon_order (points : list (Q * Q))
  (expected_clockwise : bool) : bool :=
  if (List.length points <? 3)%nat then false
  else Bool.eqb (Qlt_bool (signed_area points) 0) expected_clockwise.

(** ** [LSConverter.convert_to_coco] *)

(** The variables of the method that survive a loop iteration:
    [images_coco], [annotations_coco] and the log for the whole run,
    the other four for the task at hand. *)
Record State : Type := mkState {
  images_coco : list Image;
  annotations_coco : list CocoAnn;
  warnings : list diag;
  width : option Q;
  height : option Q;
  annotations_dict : dict string Assoc;
  orphan_keypoints_list : list Orphan
}.

Definition warn (d : diag) (s : State) : State :=
  mkState (images_coco s) (annotations_coco s) (warnings s ++ [d])
    (width s) (height s) (annotations_dict s) (orphan_keypoints_list s).

Definition set_dict (d : dict string Assoc) (s : State) : State :=
  mkState (images_coco s) (annotations_coco s) (warnings s)
    (width s) (height s) d (orphan_keypoints_list s).

Definition add_orphan (o : Orphan) (s : State) : State :=
  mkState (images_coco s) (annotations_coco s) (warnings s)
    (width s) (height s) (annotations_dict s)
    (orphan_keypoints_list s ++ [o]).

(** [width, height = ...] followed by [images_coco.append(...)]. *)
Definition set_dims (w h : Q) (im : Image) (s : State) : State :=
  mkState (images_coco s ++ [im]) (annotations_coco s) (warnings s)
    (Some w) (Some h) (annotations_dict s) (orphan_keypoints_list s).

(** The first lines of an iteration of the task loop. *)
Definition enter_item (s : State) : State :=
  mkState (images_coco s) (annotations_coco s) (warnings s)
    None None [] [].

(** What the post-processing loops of a task write to. *)
Definition Out : Type := (list CocoAnn * list diag)%type.

Definition out_warn (d : diag) (o : Out) : Out := (fst o, snd o ++ [d]).

(** [abs_points = [(keypoints[i], keypoints[i + 1])
                   for i in range(0, len(keypoints), 3)]] *)
Fixpoint points_of_coords (keypoints : list Q) : list (Q * Q) :=
  match keypoints with
  | x :: y :: _ :: rest => (x, y) :: points_of_coords rest
  | _ => []
  end.

(** [[(p[0] * width / 100, p[1] * height / 100) for p in points]] with the
    task's own [width] and [height]. *)
Fixpoint to_abs (w h : option Q) (points : list (Q * Q))
  : Res (list (Q * Q)) :=
  match points with
  | [] => Ok []
  | p :: rest =>
      match w, h with
      | Some w', Some h' =>
          r <- to_abs w h rest ;;
          Ok ((fst p * w' / 100, snd p * h' / 100) :: r)
      | _, _ => Raise TypeError
      end
  end.

(** [all(x_min <= x <= x_max and y_min <= y <= y_max
         for (x, y) in abs_points)] *)
Definition all_in_bbox (bbox : BBox) (abs_points : list (Q * Q)) : bool :=
  let '(x_min, y_min, w, h) := bbox in
  forallb (in_range x_min y_min (x_min + w) (y_min + h)) abs_points.

(** [keypoint_ann['value']['polygonlabels'][0]] *)
Definition first_polygonlabel (keypoint_ann : Label) : Res string :=
  value <- getitem "value" (l_value keypoint_ann) ;;
  names <- getitem "polygonlabels" (v_polygonlabels value) ;;
  match names with
  | name :: _ => Ok name
  | [] => Raise IndexError
  end.

(** [bbox_ann['value']['rectanglelabels']] *)
Definition rectanglelabels_of (bbox_ann : Label) : Res (list string) :=
  value <- getitem "value" (l_value bbox_ann) ;;
  getitem "rectanglelabels" (v_rectanglelabels value).

Section Item.
(** The converter and the per-task constants of the loop body. *)
Variable self : LSConverter.
Variable item_idx : nat.
Variable item : Task.
Variable image_id : nat.
Variable has_draft : bool.
Variable author_id : Z.

Definition label_studio_image_id : Z := t_id item.
Definition image_name : string := t_image item.

(** [self.poly_name_to_id[name]] *)
Definition category_of (name : string) : Res nat :=
  match dict_get opt_string_eqb (poly_name_to_id self) (Some name) with
  | Some id => Ok id
  | None => Raise (KeyError name)
  end.

(** The dimensions a label reports: in its [value], else at top level. *)
Definition reported_dims (label : Label) : option (Q * Q) :=
  let in_value :=
    match l_value label with
    | Some v =>
        match v_original_width v, v_original_height v with
        | Some w, Some h => Some (w, h)
        | _, _ => None
        end
    | None => None
    end in
  match in_value with
  | Some d => Some d
  | None =>
      match l_original_width label, l_original_height label with
      | Some w, Some h => Some (w, h)
      | _, _ => None
      end
  end.

(** Lines 117-166: the body of the label loop once dimensions are known. *)
Definition associate (s : State) (label : Label) : Res State :=
  match t_annotations item with
  | [] => Ok (warn (NoAnnotations item_idx (t_id item)) s)
  | _ :: _ =>
    if String.eqb (l_type label) "rectanglelabels" then
      let label_studio_id := l_id label in
      value <- getitem "value" (l_value label) ;;
      match v_points value with
      | Some _ =>
          Ok (warn (RectHasPoints author_id label_studio_image_id has_draft)
                s)
      | None =>
          match dict_get String.eqb (annotations_dict s) label_studio_id with
          | Some data =>
              Ok (set_dict
                    (dict_set String.eqb (annotations_dict s)
                       label_studio_id
                       (mkAssoc (a_image_id data) (Some label)
                          (a_keypoints data) has_draft)) s)
          | None =>
              Ok (set_dict
                    (dict_set String.eqb (annotations_dict s)
                       label_studio_id
                       (mkAssoc image_id (Some label) [] has_draft)) s)
          end
      end
    else if String.eqb (l_type label) "polygonlabels" then
      let parent_id := l_parentID label in
      value <- getitem "value" (l_value label) ;;
      match v_x value with
      | Some _ =>
          Ok (warn (PolyHasX author_id label_studio_image_id has_draft) s)
      | None =>
          match parent_id with
          | Some (String c p) =>
              let parent_id := String c p in
              match dict_get String.eqb (annotations_dict s) parent_id with
              | None =>
                  Ok (set_dict
                        (dict_set String.eqb (annotations_dict s) parent_id
                           (mkAssoc image_id None [label] has_draft)) s)
              | Some data =>
                  Ok (set_dict
                        (dict_set String.eqb (annotations_dict s) parent_id
                           (mkAssoc (a_image_id data) (a_bbox data)
                              (a_keypoints data ++ [label])
                              (a_has_draft data))) s)
              end
          | _ =>
              Ok (add_orphan
                    (mkOrphan image_id label (width s) (height s)) s)
          end
      end
    else Ok (warn UnknownType s)
  end.

(** One iteration of [for label in all_labels]. *)
Definition label_step (s : State) (label : Label) : Res State :=
  if negb (truthy (height s)) || negb (truthy (width s)) then
    match reported_dims label with
    | Some (w, h) =>
        associate
          (set_dims w h
             (mkImage image_id w h image_name label_studio_image_id) s)
          label
    | None => Ok (warn (DimsNotFound image_name) s)
    end
  else associate s label.

(** The record appended to [annotations_coco] on either path. *)
Definition new_annotation (o : Out) (category_id : nat) (bbox : BBox)
  (keypoints : list Q) (num_keypoints : nat) (bbox_label : list string)
  : CocoAnn :=
  let '(_, _, w, h) := bbox in
  mkCocoAnn (List.length (fst o)) image_id category_id bbox (w * h)
    keypoints num_keypoints 0%nat bbox_label author_id.

Definition out_append (a : CocoAnn) (o : Out) : Out :=
  (fst o ++ [a], snd o).

Section Post.
(** The task's dimensions and dictionary after the label loop. *)
Variable w h : option Q.
Variable d : dict string Assoc.

(** Lines 180-213: one keypoint set of an object that has a box. *)
Definition emit_keypoint (bbox_ann : Label) (bbox : BBox) (o : Out)
  (keypoint_ann : Label) : Res Out :=
  '(keypoints, num_keypoints) <- _convert_single_keypoint keypoint_ann w h ;;
  if negb (num_keypoints =? 4)%nat then
    Ok (out_warn (NotFourKeypoints num_keypoints author_id
                    label_studio_image_id (l_id keypoint_ann) has_draft) o)
  else
    let abs_points := points_of_coords keypoints in
    if negb (all_in_bbox bbox abs_points) then
      Ok (out_warn (KptOutOfRange author_id label_studio_image_id
                      (l_id keypoint_ann) has_draft) o)
    else
      polygonlabels <- first_polygonlabel keypoint_ann ;;
      category_id <- category_of polygonlabels ;;
      let o1 :=
        if (category_id =? 1)%nat then
          if negb (_check_polygon_order abs_points false) then
            out_warn (FrontOrder author_id label_studio_image_id
                        (l_id keypoint_ann) has_draft) o
          else o
        else if (category_id =? 3)%nat then
          if negb (_check_polygon_order abs_points true) then
            out_warn (BackOrder author_id label_studio_image_id
                        (l_id keypoint_ann) has_draft) o
          else o
        else o in
      bbox_label <- rectanglelabels_of bbox_ann ;;
      Ok (out_append
            (new_annotation o1 category_id bbox keypoints num_keypoints
               bbox_label) o1).

(** Lines 169-213: one entry of [annotations_dict]. *)
Definition emit_object (o : Out) (entry : string * Assoc) : Res Out :=
  match a_bbox (snd entry) with
  | None => Ok o
  | Some bbox_ann =>
      bbox <- _convert_bbox bbox_ann w h ;;
      for_each (emit_keypoint bbox_ann bbox) (a_keypoints (snd entry)) o
  end.

(** Lines 224-249: the scan of [annotations_dict] for one orphan;
    [Some o'] when a box matched ([matched = True; break]). *)
Fixpoint scan_boxes (keypoint_ann : Label) (abs_points : list (Q * Q))
  (entries : dict string Assoc) (o : Out) : Res (option Out) :=
  match entries with
  | [] => Ok None
  | (_, data) :: rest =>
      match a_bbox data with
      | None => scan_boxes keypoint_ann abs_points rest o
      | Some bbox_ann =>
          bbox <- _convert_bbox bbox_ann w h ;;
          if all_in_bbox bbox abs_points then
            polygonlabels <- first_polygonlabel keypoint_ann ;;
            category_id <- category_of polygonlabels ;;
            '(keypoints, num_keypoints) <-
              _convert_single_keypoint keypoint_ann w h ;;
            bbox_label <- rectanglelabels_of bbox_ann ;;
            Ok (Some (out_append
                        (new_annotation o category_id bbox keypoints
                           num_keypoints bbox_label) o))
          else scan_boxes keypoint_ann abs_points rest o
      end
  end.

(** Lines 216-252: one entry of [orphan_keypoints_list]. *)
Definition resolve_orphan (o : Out) (orphan_keypoints : Orphan)
  : Res Out :=
  let keypoint_ann := o_label orphan_keypoints in
  value <- getitem "value" (l_value keypoint_ann) ;;
  points <- match v_points value with
            | Some ps => Ok ps
            | None => Raise TypeError
            end ;;
  abs_points <- to_abs w h points ;;
  r <- scan_boxes keypoint_ann abs_points d o ;;
  match r with
  | Some o' => Ok o'
  | None =>
      Ok (out_warn (Unmatched label_studio_image_id (l_id keypoint_ann)
                      author_id abs_points has_draft) o)
  end.

(** Both post-processing loops of a task. *)
Definition post_process (orphans : list Orphan) (o : Out) : Res Out :=
  o1 <- for_each emit_object d o ;;
  for_each resolve_orphan orphans o1.
End Post.
End Item.

(** One iteration of [for item_idx, item in enumerate(ann_list)]. *)
Definition convert_item (self : LSConverter) (s : State) (item_idx : nat)
  (item : Task) : Res State :=
  let image_id := List.length (images_coco s) in
  let has_draft := negb (match t_drafts item with [] => true | _ => false end) in
  annotations_label_studio <-
    match t_annotations item with
    | a :: _ => Ok a
    | [] => Raise IndexError
    end ;;
  let author_id := completed_by annotations_label_studio in
  let all_labels := result annotations_label_studio in
  s1 <- for_each (label_step item_idx item image_id has_draft author_id)
          all_labels (enter_item s) ;;
  o <- post_process self item image_id has_draft author_id
         (width s1) (height s1) (annotations_dict s1)
         (orphan_keypoints_list s1) (annotations_coco s1, warnings s1) ;;
  Ok (mkState (images_coco s1) (fst o) (snd o) (width s1) (height s1)
        (annotations_dict s1) (orphan_keypoints_list s1)).

Fixpoint convert_items (self : LSConverter) (s : State) (item_idx : nat)
  (ann_list : list Task) : Res State :=
  match ann_list with
  | [] => Ok s
  | item :: rest =>
      s' <- convert_item self s item_idx item ;;
      convert_items self s' (S item_idx) rest
  end.

(** The whole run: the images, the annotations and the log that would be
    written out, or the exception that escaped. *)
Definition convert_to_coco (self : LSConverter) (ann_list : list Task)
  : Res (list Image * list CocoAnn * list diag) :=
  s <- convert_items self (mkState [] [] [] None None [] []) 0 ann_list ;;
  Ok (images_coco s, annotations_coco s, warnings s).

(** ** The other helpers of [LSConverter] *)

(** [_convert_keypoints]: the points of all the given labels, flattened;
    the second component is the number of labels.  [width] and [height]
    are used as given (no fallback): a [None] raises as soon as a point
    is scaled. *)
Fixpoint scale_into (coords : list Q) (points : list (Q * Q))
  (width height : option Q) : Res (list Q) :=
  match points with
  | [] => Ok coords
  | point :: rest =>
      match width, height with
      | Some w, Some h =>
          scale_into
            (coords ++ [fst point * w / 100; snd point * h / 100; 2])
            rest width height
      | _, _ => Raise TypeError
      end
  end.

Definition _convert_keypoints (keypoint_anns : list Label)
  (width height : option Q) : Res (list Q * nat) :=
  keypoints <-
    for_each
      (fun keypoints ann =>
         value <- getitem "value" (l_value ann) ;;
         points <- getitem "points" (v_points value) ;;
         scale_into keypoints points width height)
      keypoint_anns [] ;;
  Ok (keypoints, List.length keypoint_anns).

(** [_check_points_in_bbox]: the loop returns [False] at the first point
    out of the bounds. *)
Fixpoint _check_points_in_bbox (points : list (Q * Q)) (bbox : BBox)
  (width height : Q) : bool :=
  let '(x_min, y_min, w, h) := bbox in
  let x_max := x_min + w in
  let y_max := y_min + h in
  match points with
  | [] => true
  | point :: rest =>
      let x := fst point * width / 100 in
      let y := snd point * height / 100 in
      if negb (Qle_bool x_min x && Qle_bool x x_max &&
               Qle_bool y_min y && Qle_bool y y_max)
      then false
      else _check_points_in_bbox rest bbox width height
  end.

(** An entry of the [categories] list of the output document. *)
Record CocoCategory : Type := mkCocoCategory {
  cc_id : nat;
  cc_name : option string;
  cc_supercategory : string;
  cc_keypoints : list string;
  cc_skeleton : list (list nat)
}.

(** [[f"kpt{i}" for i in range(4)]] *)
Definition keypoint_names : list string :=
  map (fun i =>
         "kpt" ++ DecimalString.NilEmpty.string_of_uint (Nat.to_uint i))%string
      (seq 0 4).

(** [_get_coco_categories]: one entry per item of [poly_name_to_id]. *)
Definition _get_coco_categories (self : LSConverter) : list CocoCategory :=
  map (fun item =>
         mkCocoCategory (snd item) (fst item) "tm" keypoint_names
           [[0; 1]; [1; 2]; [2; 3]; [3; 0]]%nat)
      (poly_name_to_id self).


(** * The reverse direction (Coco2LabelStudio.py) *)

Module Coco2LabelStudio.

(** Exceptions of this script; [External] stands for whatever the image
    probe may raise. *)
Inductive error : Type :=
| KeyErr (key : string)
| IndexErr
| TypeErr
| ValueErr
| ZeroDivisionErr
| External.

Inductive Try (A : Type) : Type :=
| Got (a : A)
| Thrown (e : error).

Arguments Got {A} a.
Arguments Thrown {A} e.

Definition and_then {A B : Type} (m : Try A) (k : A -> Try B) : Try B :=
  match m with
  | Got a => k a
  | Thrown e => Thrown e
  end.

Notation "x <~ m ;; k" := (and_then m (fun x => k))
  (at level 61, m at next level, right associativity).

(** An entry of [coco_data['images']]: [width] and [height] may be
    missing ([None]) or null ([Some None]). *)
Record ImgInfo : Type := mkImgInfo {
  ii_id : Z;
  ii_file_name : string;
  ii_width : option (option Q);
  ii_height : option (option Q)
}.

(** An entry of [coco_data['annotations']]. *)
Record CocoInput : Type := mkCocoInput {
  ci_id : Z;
  ci_image_id : Z;
  ci_category_id : Z;
  ci_bbox : option BBox;
  ci_keypoints : option (list Q)
}.

(** An entry of a task's result list: the keys [LSConverter] reads, as a
    [Label], and the keys it does not read. *)
Record LSResult : Type := mkLSResult {
  r_label : Label;
  r_rotation : option Q;
  r_to_name : string;
  r_from_name : string;
  r_origin : string
}.

Record LSAnnotation : Type := mkLSAnnotation {
  la_result : list LSResult;
  la_completed_by : Z;
  la_was_cancelled : bool;
  la_ground_truth : bool;
  la_created_at : string;
  la_updated_at : string;
  la_last_created_at : string;
  la_last_updated_at : string
}.

Record LSTask : Type := mkLSTask {
  tk_image : string;
  tk_width : option Q;
  tk_height : option Q;
  tk_annotations : list LSAnnotation
}.

(** [img_info[key]] used as a number. *)
Definition dimension (key : string) (field : option (option Q))
  : Try (option Q) :=
  match field with
  | Some d => Got d
  | None => Thrown (KeyErr key)
  end.

(** [v / img_info[key] * 100] *)
Definition percent (v : Q) (key : string) (field : option (option Q))
  : Try Q :=
  d <~ dimension key field ;;
  match d with
  | None => Thrown TypeErr
  | Some q => if Qeq_bool q 0 then Thrown ZeroDivisionErr
              else Got (v / q * 100)
  end.

(** The chain of [if ann['category_id'] == ...]. *)
Definition categorylabels (category_id : Z) : list string :=
  if (category_id =? 1)%Z then ["4G"]
  else if (category_id =? 2)%Z then ["5G大裙边"]
  else if (category_id =? 3)%Z then ["5G小裙边"]
  else if (category_id =? 4)%Z then ["5G异形"]
  else if (category_id =? 5)%Z then ["Front"]
  else ["其他角点"].

(** [f"{prefix}{ann['id']}"] *)
Definition tagged_id (prefix : string) (id : Z) : string :=
  (prefix ++ DecimalString.NilEmpty.string_of_int (Z.to_int id))%string.

(** [task['annotations'][0]['result']], looked up before the argument of
    [append] is built. *)
Definition first_annotation (task : LSTask) : Try LSAnnotation :=
  match tk_annotations task with
  | a :: _ => Got a
  | [] => Thrown IndexErr
  end.

Definition append_result (task : LSTask) (r : LSResult) : LSTask :=
  match tk_annotations task with
  | a :: rest =>
      mkLSTask (tk_image task) (tk_width task) (tk_height task)
        (mkLSAnnotation (la_result a ++ [r]) (la_completed_by a)
           (la_was_cancelled a) (la_ground_truth a) (la_created_at a)
           (la_updated_at a) (la_last_created_at a) (la_last_updated_at a)
         :: rest)
  | [] => task
  end.

(** The number stored under ["original_width"]: the dimension was a
    number, or the division before it would have raised. *)
Definition as_number (d : option Q) : Try Q :=
  match d with
  | Some q => Got q
  | None => Thrown TypeErr
  end.

(** Lines 44-62: the rectangle label of an annotation that has a box. *)
Definition bbox_result (ann : CocoInput) (bbox : BBox) (img_info : ImgInfo)
  : Try LSResult :=
  let '(x, y, w, h) := bbox in
  x' <~ percent x "width" (ii_width img_info) ;;
  y' <~ percent y "height" (ii_height img_info) ;;
  w' <~ percent w "width" (ii_width img_info) ;;
  h' <~ percent h "height" (ii_height img_info) ;;
  ow <~ dimension "width" (ii_width img_info) ;;
  oh <~ dimension "height" (ii_height img_info) ;;
  Got (mkLSResult
         (mkLabel (tagged_id "bbox_" (ci_id ann)) "rectanglelabels" None
            None None
            (Some (mkValue (Some x') (Some y') (Some w') (Some h') None
                     ow oh
                     (Some (categorylabels (ci_category_id ann))) None)))
         (Some 0) "image" "rectLabel" "manual").

(** Lines 66-73: the visible points, in percent. *)
Fixpoint visible_points (keypoints : list Q) (img_info : ImgInfo)
  : Try (list (Q * Q)) :=
  match keypoints with
  | [] => Got []
  | x :: y :: v :: rest =>
      if Qlt_bool 0 v then
        x' <~ percent x "width" (ii_width img_info) ;;
        y' <~ percent y "height" (ii_height img_info) ;;
        points <~ visible_points rest img_info ;;
        Got ((x', y') :: points)
      else visible_points rest img_info
  | _ => Thrown ValueErr
  end.

(** Lines 75-88: the polygon label built from a non-empty point list. *)
Definition poly_result (ann : CocoInput) (points : list (Q * Q))
  (img_info : ImgInfo) : Try LSResult :=
  ow <~ dimension "width" (ii_width img_info) ;;
  oh <~ dimension "height" (ii_height img_info) ;;
  Got (mkLSResult
         (mkLabel (tagged_id "poly_" (ci_id ann)) "polygonlabels" None
            None None
            (Some (mkValue None None None None (Some points) ow oh None
                     (Some (categorylabels (ci_category_id ann))))))
         None "image" "polyLabel" "manual").

(** The body of [for ann in annotations]. *)
Definition process_annotation (img_info : ImgInfo) (task : LSTask)
  (ann : CocoInput) : Try LSTask :=
  task1 <~
    match ci_bbox ann with
    | Some bbox =>
        _ <~ first_annotation task ;;
        r <~ bbox_result ann bbox img_info ;;
        Got (append_result task r)
    | None => Got task
    end ;;
  match ci_keypoints ann with
  | Some keypoints =>
      points <~ visible_points keypoints img_info ;;
      match points with
      | [] => Got task1
      | _ :: _ =>
          _ <~ first_annotation task1 ;;
          r <~ poly_result ann points img_info ;;
          Got (append_result task1 r)
      end
  | None => Got task1
  end.

Fixpoint process_annotations (task : LSTask) (annotations : list CocoInput)
  (img_info : ImgInfo) : Try LSTask :=
  match annotations with
  | [] => Got task
  | ann :: rest =>
      task' <~ process_annotation img_info task ann ;;
      process_annotations task' rest img_info
  end.

Section Environment.
(** What the script takes from outside: [Path(p).name], [Path(a) / b],
    [datetime.now().isoformat()] at the n-th call, [Path(p).exists()] and
    the image probe, which returns a width and a height or raises. *)
Variable path_name : string -> string.
Variable path_join : string -> string -> string.
Variable now : nat -> string.
Variable path_exists : string -> bool.
Variable get_image_size : string -> Try (Q * Q).

(** [create_task_structure]; [tick] counts the clock readings so far. *)
Definition create_task_structure (tick : nat) (img_info : ImgInfo)
  (image_path : string) : Try LSTask :=
  w <~ dimension "width" (ii_width img_info) ;;
  h <~ dimension "height" (ii_height img_info) ;;
  Got (mkLSTask
         ("/data/local-files/?d=SVC_251118/" ++ path_name image_path)%string
         w h
         [mkLSAnnotation [] 1 false false (now tick) (now (tick + 1)%nat)
            (now (tick + 2)%nat) (now (tick + 3)%nat)]).

(** The body of the loop of [preprocess_image_sizes]. *)
Definition preprocess_image (image_dir : string) (img_info : ImgInfo)
  : Try ImgInfo :=
  let missing :=
    match ii_width img_info, ii_height img_info with
    | Some (Some _), Some (Some _) => false
    | _, _ => true
    end in
  if missing then
    let image_path := path_join image_dir (path_name (ii_file_name img_info)) in
    if path_exists image_path then
      img_size <~ get_image_size image_path ;;
      Got (mkImgInfo (ii_id img_info) (ii_file_name img_info)
             (Some (Some (fst img_size))) (Some (Some (fst img_size))))
    else Got img_info
  else Got img_info.

Fixpoint preprocess_image_sizes (images : dict Z ImgInfo)
  (image_dir : string) : Try (dict Z ImgInfo) :=
  match images with
  | [] => Got []
  | (img_id, img_info) :: rest =>
      img_info' <~ preprocess_image image_dir img_info ;;
      rest' <~ preprocess_image_sizes rest image_dir ;;
      Got ((img_id, img_info') :: rest')
  end.

(** [{img['id']: img for img in coco_data['images']}] *)
Definition images_by_id (images : list ImgInfo) : dict Z ImgInfo :=
  fold_left (fun d img => dict_set Z.eqb d (ii_id img) img) images [].

(** [img_annotations[ann['image_id']].append(ann)] for each annotation. *)
Definition group_annotations (annotations : list CocoInput)
  : dict Z (list CocoInput) :=
  fold_left
    (fun d ann =>
       dict_set Z.eqb d (ci_image_id ann)
         (match dict_get Z.eqb d (ci_image_id ann) with
          | Some anns => anns ++ [ann]
          | None => [ann]
          end))
    annotations [].

(** Lines 145-153 and 158-169: one task, from its image and annotations. *)
Definition build_task (tick : nat) (image_dir : string) (img_info : ImgInfo)
  (annotations : list CocoInput) : Try LSTask :=
  let image_path := path_join image_dir (path_name (ii_file_name img_info)) in
  task <~ create_task_structure tick img_info image_path ;;
  process_annotations task annotations img_info.

(** The loop over [img_annotations.items()]; the second component counts
    the warnings for image ids that have no image. *)
Fixpoint tasks_by_annotations (images : dict Z ImgInfo) (image_dir : string)
  (groups : dict Z (list CocoInput)) (tick : nat) (tasks : list LSTask)
  (missing : list Z) : Try (list LSTask * list Z) :=
  match groups with
  | [] => Got (tasks, missing)
  | (img_id, annotations) :: rest =>
      match dict_get Z.eqb images img_id with
      | None =>
          tasks_by_annotations images image_dir rest tick tasks
            (missing ++ [img_id])
      | Some img_info =>
          task <~ build_task tick image_dir img_info annotations ;;
          tasks_by_annotations images image_dir rest (tick + 4)%nat
            (tasks ++ [task]) missing
      end
  end.

(** The loop over [images.items()]. *)
Fixpoint tasks_by_images (entries : dict Z ImgInfo) (image_dir : string)
  (groups : dict Z (list CocoInput)) (tick : nat) (tasks : list LSTask)
  : Try (list LSTask) :=
  match entries with
  | [] => Got tasks
  | (img_id, img_info) :: rest =>
      let annotations :=
        match dict_get Z.eqb groups img_id with
        | Some anns => anns
        | None => []
        end in
      task <~ build_task tick image_dir img_info annotations ;;
      tasks_by_images rest image_dir groups (tick + 4)%nat (tasks ++ [task])
  end.

(** [coco_to_labelstudio] between the load and the dump: the tasks that
    are written out and the image ids warned about. *)
Definition coco_to_labelstudio (coco_images : list ImgInfo)
  (coco_annotations : list CocoInput) (image_dir : string)
  (traverse_by : string) : Try (list LSTask * list Z) :=
  let images := images_by_id coco_images in
  let img_annotations := group_annotations coco_annotations in
  images <~ preprocess_image_sizes images image_dir ;;
  if String.eqb traverse_by "annotations" then
    tasks_by_annotations images image_dir img_annotations 0 [] []
  else if String.eqb traverse_by "images" then
    tasks <~ tasks_by_images images image_dir img_annotations 0 [] ;;
    Got (tasks, [])
  else Thrown ValueErr.
End Environment.

(** ** Notions used in the statements about this script *)

(** The (x, y) of the keypoint triples whose visibility is positive. *)
Fixpoint visible_xy (keypoints : list Q) : list (Q * Q) :=
  match keypoints with
  | x :: y :: v :: rest =>
      if Qlt_bool 0 v then (x, y) :: visible_xy rest else visible_xy rest
  | _ => []
  end.

(** Whole triples only. *)
Fixpoint whole_triples (keypoints : list Q) : Prop :=
  match keypoints with
  | [] => True
  | _ :: _ :: _ :: rest => whole_triples rest
  | _ => False
  end.

(** The result list a task carries, and the ids in it. *)
Definition results_of (task : LSTask) : list LSResult :=
  match tk_annotations task with
  | a :: _ => la_result a
  | [] => []
  end.

Definition result_ids (task : LSTask) : list string :=
  map (fun r => l_id (r_label r)) (results_of task).

(** Two points, or two boxes, with equal rational coordinates. *)
Definition same_point (p q : Q * Q) : Prop :=
  fst p == fst q /\ snd p == snd q.

Definition same_bbox (a b : BBox) : Prop :=
  let '(x1, y1, w1, h1) := a in
  let '(x2, y2, w2, h2) := b in
  x1 == x2 /\ y1 == y2 /\ w1 == w2 /\ h1 == h2.

(** An image entry with both dimensions known. *)
Definition sized (id : Z) (file_name : string) (W H : Q) : ImgInfo :=
  mkImgInfo id file_name (Some (Some W)) (Some (Some H)).

(** Both dimensions of an image entry are numbers. *)
Definition has_size (img_info : ImgInfo) : Prop :=
  exists W H, ii_width img_info = Some (Some W) /\
              ii_height img_info = Some (Some H).

(** What [preprocess_image_sizes] makes of one image entry. *)
Definition preprocessed (path_name : string -> string)
  (path_join : string -> string -> string) (path_exists : string -> bool)
  (get_image_size : string -> Try (Q * Q)) (image_dir : string)
  (before after : ImgInfo) : Prop :=
  let image_path := path_join image_dir (path_name (ii_file_name before)) in
  (has_size before /\ after = before) \/
  (~ has_size before /\ path_exists image_path = false /\ after = before) \/
  (~ has_size before /\ path_exists image_path = true /\
   exists w h, get_image_size image_path = Got (w, h) /\
               after = sized (ii_id before) (ii_file_name before) w w).

(** A stand-in for the outside world, for running the script. *)
Definition sample_path_name (p : string) : string := p.
Definition sample_path_join (a b : string) : string :=
  (a ++ "/" ++ b)%string.
Definition sample_now (n : nat) : string := "2025-01-01T00:00:00".
Definition sample_path_exists (p : string) : bool := true.
Definition sample_get_image_size (p : string) : Try (Q * Q) :=
  Got (640, 480).

End Coco2LabelStudio.


(** * Notions used in the statements *)

(** The spec's formula, read off the point sequence itself: the term of
    one edge, summed over consecutive pairs, the last point being paired
    with the first. *)
Definition edge_term (p q : Q * Q) : Q := (fst q - fst p) * (snd q + snd p).

Fixpoint shoelace_from (first : Q * Q) (pts : list (Q * Q)) : Q :=
  match pts with
  | [] => 0
  | p :: rest =>
      match rest with
      | [] => edge_term p first
      | q :: _ => edge_term p q + shoelace_from first rest
      end
  end.

Definition shoelace (pts : list (Q * Q)) : Q :=
  match pts with
  | [] => 0
  | p :: _ => shoelace_from p pts
  end.

(** A point and its converted image, related both ways. *)
Definition converts_to (W H : Q) (p c : Q * Q) : Prop :=
  fst c == fst p * W / 100 /\ snd c == snd p * H / 100 /\
  fst c / W * 100 == fst p /\ snd c / H * 100 == snd p.

(** The category a configuration label becomes under index [idx]. *)
Definition category_at (label_type : string) (keep_hotkey : bool)
  (idx : nat) (label : ConfigLabel) : Category :=
  mkCategory idx (cl_value label) (cl_background label)
    (if keep_hotkey then cl_hotkey label else None) label_type.

(** [o'] is [o] with annotations added, each of which satisfies [P]. *)
Definition grows_by (P : CocoAnn -> Prop) (o o' : Out) : Prop :=
  exists new, fst o' = fst o ++ new /\ Forall P new.

(** The containment test, read on an output record. *)
Definition keypoints_in_bbox (a : CocoAnn) : bool :=
  all_in_bbox (ann_bbox a) (points_of_coords (ann_keypoints a)).

(** What the parent path may append for task [image_id]: records that
    passed the arity and the containment check. *)
Definition parent_ok (image_id : nat) (a : CocoAnn) : Prop :=
  ann_image_id a = image_id /\ ann_num_keypoints a = 4%nat /\
  keypoints_in_bbox a = true.

Definition of_task (image_id : nat) (a : CocoAnn) : Prop :=
  ann_image_id a = image_id.

(** Every annotation points at an image of the run. *)
Definition images_cover (s : State) : Prop :=
  forall a, In a (annotations_coco s) ->
    In (ann_image_id a) (map img_id (images_coco s)).

(** Invariant of the label loop of task [image_id], entered with images
    [imgs0] and annotations [anns0]: the annotations are untouched, images
    are only appended, and as soon as the task has dimensions, an object
    or an orphan, its image entry is there. *)
Definition label_inv (image_id : nat) (imgs0 : list Image)
  (anns0 : list CocoAnn) (s : State) : Prop :=
  annotations_coco s = anns0 /\
  (exists extra, images_coco s = imgs0 ++ extra) /\
  ((truthy (height s) = true /\ truthy (width s) = true) \/
   annotations_dict s <> [] \/ orphan_keypoints_list s <> [] ->
   In image_id (map img_id (images_coco s))).

Definition has_box (entry : string * Assoc) : bool :=
  match a_bbox (snd entry) with
  | Some _ => true
  | None => false
  end.

Definition is_placeholder (entry : string * Assoc) : bool :=
  negb (has_box entry).

(** A point within the inclusive bounds of a pixel-space box. *)
Definition inside (bbox : BBox) (p : Q * Q) : Prop :=
  let '(x_min, y_min, w, h) := bbox in
  x_min <= fst p /\ fst p <= x_min + w /\
  y_min <= snd p /\ snd p <= y_min + h.

(** A candidate whose bounds are computed but do not hold every point. *)
Definition rejects (w h : option Q) (abs_points : list (Q * Q))
  (entry : string * Assoc) : Prop :=
  forall b, a_bbox (snd entry) = Some b ->
    exists bb, _convert_bbox b w h = Ok bb /\
               ~ Forall (inside bb) abs_points.

(** No label of the export reports a zero dimension. *)
Definition nonzero_dims (label : Label) : Prop :=
  forall w h, reported_dims label = Some (w, h) -> ~ w == 0 /\ ~ h == 0.

Definition export_nonzero_dims (ann_list : list Task) : Prop :=
  forall item a label,
    In item ann_list -> In a (t_annotations item) -> In label (result a) ->
    nonzero_dims label.

(** After any number of labels of such a task: either nothing was
    resolved and nothing was collected, or both dimensions are non-zero. *)
Definition dims_settled (s : State) : Prop :=
  (annotations_dict s = [] /\ orphan_keypoints_list s = []) \/
  (truthy (width s) = true /\ truthy (height s) = true).

Definition all_contained (s : State) : Prop :=
  Forall (fun a => keypoints_in_bbox a = true) (annotations_coco s).





(** The log read as a set of diagnostics: [d] is in it afterwards and
    nothing else is new.  ([warnings.warn] is by default shown once for a
    text repeated from the same line, so the number of entries is not
    what a statement should rest on.) *)
Definition log_gains (d : diag) (before after : list diag) : Prop :=
  forall x, In x after <-> In x before \/ x = d.

(** A label that is passed over: nothing but the log changes, and the
    log gains [d]. *)
Definition skipped_with (d : diag) (s s' : State) : Prop :=
  images_coco s' = images_coco s /\
  annotations_coco s' = annotations_coco s /\
  width s' = width s /\ height s' = height s /\
  annotations_dict s' = annotations_dict s /\
  orphan_keypoints_list s' = orphan_keypoints_list s /\
  log_gains d (warnings s) (warnings s').

(** The third value of each keypoint triple. *)
Fixpoint visibilities (keypoints : list Q) : list Q :=
  match keypoints with
  | _ :: _ :: v :: rest => v :: visibilities rest
  | _ => []
  end.

(** The layout of an output annotation: three values per keypoint, each
    keypoint flagged as visible (2), the area of the box, no crowd. *)
Definition coco_shape (a : CocoAnn) : Prop :=
  List.length (ann_keypoints a) = (3 * ann_num_keypoints a)%nat /\
  visibilities (ann_keypoints a) = repeat (2 : Q) (ann_num_keypoints a) /\
  ann_area a = snd (fst (ann_bbox a)) * snd (ann_bbox a) /\
  ann_iscrowd a = 0%nat.

(** The category id of an annotation is that of an output category. *)
Definition category_known (self : LSConverter) (a : CocoAnn) : Prop :=
  exists c, In c (_get_coco_categories self) /\ cc_id c = ann_category_id a.

(** What either path of a task may append. *)
Definition emitted_ann (self : LSConverter) (image_id : nat) (author_id : Z)
  (a : CocoAnn) : Prop :=
  ann_image_id a = image_id /\ ann_author_id a = author_id /\
  coco_shape a /\ category_known self a.

(** [o'] is [o] with annotations added that satisfy [P] and are numbered
    on from the length of [o]. *)
Definition appends (P : CocoAnn -> Prop) (o o' : Out) : Prop :=
  exists new,
    fst o' = fst o ++ new /\ Forall P new /\
    map ann_id new = seq (List.length (fst o)) (List.length new).


(** State of the images during the label loop of task [image_id] entered
    with [imgs0], in an export without zero dimensions: nothing appended
    while a dimension is missing, one entry for the task afterwards. *)
Definition one_image (image_id : nat) (imgs0 : list Image) (s : State)
  : Prop :=
  (images_coco s = imgs0 /\
   (truthy (height s) = false \/ truthy (width s) = false)) \/
  (exists im, images_coco s = imgs0 ++ [im] /\ img_id im = image_id /\
              truthy (height s) = true /\ truthy (width s) = true).


(** A point given in percent, in pixels of a [W] x [H] canvas. *)
Definition to_pixels (W H : Q) (p : Q * Q) : Q * Q :=
  (fst p * W / 100, snd p * H / 100).


(** Every polygon label of the export names a parent. *)
Definition export_all_linked (ann_list : list Task) : Prop :=
  forall item a label,
    In item ann_list -> In a (t_annotations item) -> In label (result a) ->
    l_type label = "polygonlabels" ->
    exists c p, l_parentID label = Some (String c p).


(** ** Sample documents *)

Definition sample_self : LSConverter :=
  init [mkConfigLabel (Some "tm") (Some "red") None]
       [mkConfigLabel (Some "front") None None;
        mkConfigLabel (Some "side") None None;
        mkConfigLabel (Some "back") None None].

(** A box label and a polygon label that report 100 x 100 at top level. *)
Definition sample_box (id : string) (x y w h : Q) : Label :=
  mkLabel id "rectanglelabels" None (Some 100) (Some 100)
    (Some (mkValue (Some x) (Some y) (Some w) (Some h) None None None
             (Some ["tm"]) None)).

Definition sample_poly (id : string) (parent : option string)
  (name : string) (points : list (Q * Q)) : Label :=
  mkLabel id "polygonlabels" parent (Some 100) (Some 100)
    (Some (mkValue None None None None (Some points) None None None
             (Some [name]))).

Definition sample_task (labels : list Label) : Task :=
  mkTask 7 "a.jpg" [] [mkAnnotation 3 labels].

(** One box and one keypoint set linked to it. *)
Definition sample_linked_task : Task :=
  sample_task
    [sample_box "B1" 10 10 50 50;
     sample_poly "P1" (Some "B1") "side"
       [(20, 20); (20, 30); (30, 30); (30, 20)]].

(** Three points inside box B1, once as an orphan and once linked to B1. *)
Definition orphan_triangle_task : Task :=
  sample_task
    [sample_box "B1" 10 10 50 50;
     sample_poly "P1" None "side" [(20, 20); (20, 30); (30, 30)]].

Definition linked_triangle_task : Task :=
  sample_task
    [sample_box "B1" 10 10 50 50;
     sample_poly "P1" (Some "B1") "side" [(20, 20); (20, 30); (30, 30)]].

Definition no_annotations_task : Task := mkTask 8 "b.jpg" [] [].

Definition empty_result_task : Task := mkTask 9 "c.jpg" [] [mkAnnotation 3 []].

(** Every label reports 0 x 0 in its value and 100 x 100 at top level;
    box B1 is (0,0,50,50) in percent, the orphan lies around (90,90). *)
Definition zero_dims_task : Task :=
  sample_task
    [mkLabel "B1" "rectanglelabels" None (Some 100) (Some 100)
       (Some (mkValue (Some 0) (Some 0) (Some 50) (Some 50) None
                (Some 0) (Some 0) (Some ["tm"]) None));
     mkLabel "P1" "polygonlabels" None (Some 100) (Some 100)
       (Some (mkValue None None None None
                (Some [(90, 90); (95, 90); (95, 95); (90, 95)])
                (Some 0) (Some 0) None (Some ["side"])))].


(** A box and an orphan keypoint set inside it; an export of two tasks. *)
Definition sample_orphan_task : Task :=
  sample_task
    [sample_box "B2" 10 10 50 50;
     sample_poly "P2" None "back"
       [(20, 20); (20, 30); (30, 30); (30, 20)]].

Definition sample_export : list Task :=
  [sample_linked_task; sample_orphan_task].


(** * Properties *)

(** ** Winding order *)

Lemma fold_left_Qplus (l : list Q) (a : Q) :
  fold_left Qplus l a == a + fold_right Qplus 0 l.
Proof.
  revert a; induction l as [|x l IH]; intros a; simpl.
  - ring.
  - rewrite IH. ring.
Qed.

(** The index-based sum of the code over the indices of a suffix. *)
Lemma indexed_sum_suffix (pts pre suf : list (Q * Q)) (first : Q * Q) :
  pts = pre ++ suf -> nth 0 pts (0, 0) = first ->
  fold_right Qplus 0
    (map (fun i =>
            (fst (nth ((i + 1) mod List.length pts) pts (0, 0)) -
             fst (nth i pts (0, 0))) *
            (snd (nth ((i + 1) mod List.length pts) pts (0, 0)) +
             snd (nth i pts (0, 0))))
       (seq (List.length pre) (List.length suf)))
  == shoelace_from first suf.
Proof.
  revert pre; induction suf as [|p rest IH]; intros pre Hpts Hfirst.
  - simpl. reflexivity.
  - cbn [List.length seq map fold_right].
    assert (Hlen : List.length pts = (List.length pre + S (List.length rest))%nat).
    { rewrite Hpts, length_app. reflexivity. }
    assert (Hp : nth (List.length pre) pts (0, 0) = p).
    { rewrite Hpts, app_nth2, Nat.sub_diag by lia. reflexivity. }
    specialize (IH (pre ++ [p])).
    rewrite length_app in IH; cbn [List.length] in IH.
    replace (List.length pre + 1)%nat with (S (List.length pre)) in IH by lia.
    rewrite IH; [|rewrite <- app_assoc; exact Hpts|exact Hfirst].
    rewrite Hp. destruct rest as [|q rest'].
    + cbn [shoelace_from List.length] in *.
      replace ((List.length pre + 1) mod List.length pts)%nat with 0%nat.
      * rewrite Hfirst. unfold edge_term. ring.
      * rewrite Hlen. replace (List.length pre + 1)%nat with
          (1 * (List.length pre + 1))%nat at 1 by lia.
        now rewrite Nat.Div0.mod_mul.
    + cbn [shoelace_from].
      rewrite Nat.mod_small by (rewrite Hlen; cbn [List.length]; lia).
      assert (Hq : nth (List.length pre + 1) pts (0, 0) = q).
      { rewrite Hpts, app_nth2 by lia.
        replace (List.length pre + 1 - List.length pre)%nat with 1%nat by lia.
        reflexivity. }
      rewrite Hq. unfold edge_term. ring.
Qed.

(** The sum the code computes is the cyclic shoelace sum. *)
Lemma signed_area_shoelace (points : list (Q * Q)) :
  signed_area points == shoelace points.
Proof.
  unfold signed_area. rewrite fold_left_Qplus, Qplus_0_l.
  destruct points as [|p rest] eqn:E; [reflexivity|].
  rewrite <- E.
  assert (H := indexed_sum_suffix points [] points p eq_refl).
  cbn [List.length] in H. rewrite H by (rewrite E; reflexivity).
  rewrite E. reflexivity.
Qed.

Lemma Qlt_bool_iff (a b : Q) : Qlt_bool a b = true <-> a < b.
Proof.
  unfold Qlt_bool. rewrite negb_true_iff. split.
  - intros H. apply Qnot_le_lt. intros Hle.
    apply Qle_bool_iff in Hle. congruence.
  - intros H. destruct (Qle_bool b a) eqn:E; [|reflexivity].
    apply Qle_bool_iff in E. exfalso. exact (Qlt_not_le _ _ H E).
Qed.

(** C2, as stated, fails on both of its sample polygons: with clockwise
    expected, the first one is accepted and the second one is refused. *)
Lemma check_polygon_order_samples_swapped :
  _check_polygon_order [(0, 0); (1, 0); (1, 1); (0, 1)] true <> false /\
  _check_polygon_order [(0, 0); (0, 1); (1, 1); (1, 0)] true <> true.
Proof. split; vm_compute; discriminate. Qed.

(** C2 (amended): on fewer than three points the check answers false,
    whatever orientation is expected.  On a sequence of at least three
    points it compares the sign of the cyclic sum of
    (x[i+1]-x[i])*(y[i+1]+y[i]) with the expectation, a negative sum being
    clockwise and any other sum counter-clockwise; (0,0),(1,0),(1,1),(0,1)
    has sum -2 and passes when clockwise is expected,
    (0,0),(0,1),(1,1),(1,0) has sum 2 and does not. *)
Theorem check_polygon_order_sign (points : list (Q * Q))
  (expected_clockwise : bool) :
  signed_area points == shoelace points /\
  ((List.length points < 3)%nat ->
   _check_polygon_order points expected_clockwise = false) /\
  ((3 <= List.length points)%nat ->
   (_check_polygon_order points true = true <-> shoelace points < 0) /\
   (_check_polygon_order points false = true <-> 0 <= shoelace points)) /\
  shoelace [(0, 0); (1, 0); (1, 1); (0, 1)] == -2 # 1 /\
  _check_polygon_order [(0, 0); (1, 0); (1, 1); (0, 1)] true = true /\
  shoelace [(0, 0); (0, 1); (1, 1); (1, 0)] == 2 # 1 /\
  _check_polygon_order [(0, 0); (0, 1); (1, 1); (1, 0)] true = false.
Proof.
  split; [apply signed_area_shoelace|].
  split.
  { intros Hlen. unfold _check_polygon_order.
    apply Nat.ltb_lt in Hlen. now rewrite Hlen. }
  split; [|repeat split; vm_compute; reflexivity].
  intros Hlen.
  assert (Hlt : (List.length points <? 3)%nat = false)
    by (apply Nat.ltb_ge; exact Hlen).
  unfold _check_polygon_order. rewrite Hlt.
  repeat split.
  - intros H. apply eqb_prop in H. apply Qlt_bool_iff in H.
    now rewrite <- signed_area_shoelace.
  - intros H. rewrite <- signed_area_shoelace in H.
    apply Qlt_bool_iff in H. now rewrite H.
  - intros H. destruct (Qlt_bool (signed_area points) 0) eqn:E;
      [discriminate|].
    rewrite <- signed_area_shoelace. apply Qnot_lt_le. intros Hlt0.
    apply Qlt_bool_iff in Hlt0. congruence.
  - intros H. rewrite <- signed_area_shoelace in H.
    destruct (Qlt_bool (signed_area points) 0) eqn:E; [|reflexivity].
    apply Qlt_bool_iff in E. exfalso. exact (Qlt_not_le _ _ E H).
Qed.

Lemma check_polygon_order_sign_witness :
  ((List.length [(0, 0); (4, 3)] < 3)%nat /\
   _check_polygon_order [(0, 0); (4, 3)] true = false /\
   _check_polygon_order [(0, 0); (4, 3)] false = false) /\
  ((3 <= List.length [(0, 0); (4, 0); (4, 3)])%nat /\
   (_check_polygon_order [(0, 0); (4, 0); (4, 3)] true = true <->
    shoelace [(0, 0); (4, 0); (4, 3)] < 0)).
Proof.
  split.
  - split; [simpl; lia|]. split.
    + destruct (check_polygon_order_sign [(0, 0); (4, 3)] true)
        as (_ & Hshort & _).
      apply Hshort. simpl; lia.
    + destruct (check_polygon_order_sign [(0, 0); (4, 3)] false)
        as (_ & Hshort & _).
      apply Hshort. simpl; lia.
  - split; [simpl; lia|].
    destruct (check_polygon_order_sign [(0, 0); (4, 0); (4, 3)] true)
      as (_ & _ & Hlong & _).
    apply Hlong. simpl; lia.
Defined.

(** ** Percentage to pixel conversion *)

Lemma truthy_nonzero (q : Q) : ~ q == 0 -> truthy (Some q) = true.
Proof.
  intros H. unfold truthy. apply negb_true_iff.
  destruct (Qeq_bool q 0) eqn:E; [|reflexivity].
  apply Qeq_bool_iff in E. contradiction.
Qed.

Lemma effective_dims_given (ann : Label) (W H : Q) :
  ~ W == 0 -> ~ H == 0 -> effective_dims ann (Some W) (Some H) = Ok (W, H).
Proof.
  intros HW HH. unfold effective_dims.
  now rewrite (truthy_nonzero W HW), (truthy_nonzero H HH).
Qed.

Lemma percent_round_trip (p d : Q) : ~ d == 0 -> p * d / 100 / d * 100 == p.
Proof. intros Hd. field. exact Hd. Qed.

Lemma extend_coords_points (points : list (Q * Q)) (W H : Q) :
  ~ W == 0 -> ~ H == 0 ->
  Forall2 (converts_to W H) points
    (points_of_coords (extend_coords points W H)).
Proof.
  intros HW HH. induction points as [|p rest IH]; simpl.
  - constructor.
  - constructor; [|exact IH].
    unfold converts_to; simpl. repeat split; try reflexivity;
      now apply percent_round_trip.
Qed.

(** C7: with non-zero dimensions, a box's (x,y,w,h) and every keypoint's
    (x,y) are converted as p*d/100, each value with its own dimension, and
    dividing the result by the dimension and multiplying by 100 gives the
    percentage back (equality of rationals). *)
Theorem conversion_inverse_consistent (W H : Q) :
  ~ W == 0 -> ~ H == 0 ->
  (forall (bbox_ann : Label) (value : Value) (x y w h : Q),
      l_value bbox_ann = Some value ->
      v_x value = Some x -> v_y value = Some y ->
      v_width value = Some w -> v_height value = Some h ->
      _convert_bbox bbox_ann (Some W) (Some H) =
        Ok (x * W / 100, y * H / 100, w * W / 100, h * H / 100) /\
      x * W / 100 / W * 100 == x /\ y * H / 100 / H * 100 == y /\
      w * W / 100 / W * 100 == w /\ h * H / 100 / H * 100 == h) /\
  (forall (keypoint_ann : Label) (value : Value) (points : list (Q * Q)),
      l_value keypoint_ann = Some value ->
      v_points value = Some points ->
      exists coords,
        _convert_single_keypoint keypoint_ann (Some W) (Some H) =
          Ok (coords, List.length points) /\
        Forall2 (converts_to W H) points (points_of_coords coords)).
Proof.
  intros HW HH. split.
  - intros bbox_ann value x y w h Hv Hx Hy Hw Hh.
    unfold _convert_bbox. rewrite (effective_dims_given _ _ _ HW HH).
    cbn [bind]. rewrite Hv. cbn [getitem bind]. rewrite Hx, Hy, Hw, Hh.
    repeat split; try reflexivity; now apply percent_round_trip.
  - intros keypoint_ann value points Hv Hp.
    exists (extend_coords points W H). split.
    + unfold _convert_single_keypoint.
      rewrite (effective_dims_given _ _ _ HW HH).
      cbn [bind]. rewrite Hv. cbn [getitem bind]. rewrite Hp. reflexivity.
    + now apply extend_coords_points.
Qed.

Lemma conversion_inverse_consistent_witness :
  _convert_bbox
    (mkLabel "B1" "rectanglelabels" None None None
       (Some (mkValue (Some 10) (Some 20) (Some 30) (Some 40) None None None
                (Some ["tm"]) None)))
    (Some 640) (Some 480)
  = Ok (10 * 640 / 100, 20 * 480 / 100, 30 * 640 / 100, 40 * 480 / 100) /\
  10 * 640 / 100 / 640 * 100 == 10.
Proof.
  assert (HW : ~ 640 == 0) by (intros H; discriminate H).
  assert (HH : ~ 480 == 0) by (intros H; discriminate H).
  destruct (conversion_inverse_consistent 640 480 HW HH) as [Hbox _].
  destruct (Hbox
    (mkLabel "B1" "rectanglelabels" None None None
       (Some (mkValue (Some 10) (Some 20) (Some 30) (Some 40) None None None
                (Some ["tm"]) None)))
    (mkValue (Some 10) (Some 20) (Some 30) (Some 40) None None None
       (Some ["tm"]) None) 10 20 30 40
    eq_refl eq_refl eq_refl eq_refl eq_refl) as (Hc & Hx & _).
  split; [exact Hc|exact Hx].
Defined.

(** ** Dictionaries *)

Section DictFacts.
Context {K V : Type} (key_eqb : K -> K -> bool).
Hypothesis key_eqb_spec : forall a b, key_eqb a b = true <-> a = b.

Lemma key_eqb_refl (k : K) : key_eqb k k = true.
Proof. now apply key_eqb_spec. Qed.

Lemma key_eqb_other (k k1 k2 : K) :
  key_eqb k k1 = true -> k2 <> k1 -> key_eqb k k2 = false.
Proof.
  intros H1 Hne. destruct (key_eqb k k2) eqn:E; [|reflexivity].
  apply key_eqb_spec in H1, E. congruence.
Qed.

Lemma dict_get_set_same (d : dict K V) (k : K) (v : V) :
  dict_get key_eqb (dict_set key_eqb d k v) k = Some v.
Proof.
  induction d as [|[k' v'] r IH]; simpl.
  - now rewrite key_eqb_refl.
  - destruct (key_eqb k' k) eqn:E; simpl; rewrite E; [reflexivity|exact IH].
Qed.

Lemma dict_get_set_other (d : dict K V) (k k2 : K) (v : V) :
  k2 <> k ->
  dict_get key_eqb (dict_set key_eqb d k v) k2 = dict_get key_eqb d k2.
Proof.
  intros Hne. induction d as [|[k' v'] r IH]; simpl.
  - destruct (key_eqb k k2) eqn:E; [|reflexivity].
    apply key_eqb_spec in E. congruence.
  - destruct (key_eqb k' k) eqn:E; simpl.
    + now rewrite (key_eqb_other _ _ _ E Hne).
    + destruct (key_eqb k' k2); [reflexivity|exact IH].
Qed.

(** Writing to a key that is present keeps every key where it is. *)
Lemma dict_set_present_keys (d : dict K V) (k : K) (v v0 : V) :
  dict_get key_eqb d k = Some v0 ->
  dict_keys (dict_set key_eqb d k v) = dict_keys d.
Proof.
  unfold dict_keys. induction d as [|[k' v'] r IH]; simpl; [discriminate|].
  destruct (key_eqb k' k) eqn:E; simpl; intros H; [reflexivity|].
  now rewrite IH.
Qed.

(** Writing to a key that is absent appends the entry. *)
Lemma dict_set_absent (d : dict K V) (k : K) (v : V) :
  dict_get key_eqb d k = None ->
  dict_set key_eqb d k v = d ++ [(k, v)].
Proof.
  induction d as [|[k' v'] r IH]; simpl; [reflexivity|].
  destruct (key_eqb k' k) eqn:E; [discriminate|].
  intros H. now rewrite IH.
Qed.
End DictFacts.

Lemma opt_string_eqb_spec (a b : option string) :
  opt_string_eqb a b = true <-> a = b.
Proof.
  destruct a as [x|], b as [y|]; simpl; split; intros H;
    try discriminate; try reflexivity.
  - apply String.eqb_eq in H. now subst.
  - injection H as ->. apply String.eqb_refl.
Qed.

(** ** Label taxonomy builder *)

Lemma build_taxonomy_cats (ty : string) (kh : bool)
  (labels : list ConfigLabel) (idx : nat) (cats : list Category)
  (ids : dict (option string) nat) :
  fst (build_taxonomy ty kh labels idx cats ids) =
  cats ++ map (fun p => category_at ty kh (fst p) (snd p))
            (combine (seq idx (List.length labels)) labels).
Proof.
  revert idx cats ids. induction labels as [|l rest IH]; intros; simpl.
  - now rewrite app_nil_r.
  - rewrite IH, <- app_assoc. reflexivity.
Qed.

Lemma build_taxonomy_ids_app (ty : string) (kh : bool)
  (l1 l2 : list ConfigLabel) (idx : nat) (cats : list Category)
  (ids : dict (option string) nat) :
  snd (build_taxonomy ty kh (l1 ++ l2) idx cats ids) =
  snd (build_taxonomy ty kh l2 (idx + List.length l1)
         (fst (build_taxonomy ty kh l1 idx cats ids))
         (snd (build_taxonomy ty kh l1 idx cats ids))).
Proof.
  revert idx cats ids. induction l1 as [|l rest IH]; intros; simpl.
  - now rewrite Nat.add_0_r.
  - rewrite IH. now rewrite Nat.add_succ_r.
Qed.

(** Labels with other names leave the id of [name] alone. *)
Lemma build_taxonomy_ids_other (ty : string) (kh : bool)
  (labels : list ConfigLabel) (idx : nat) (cats : list Category)
  (ids : dict (option string) nat) (name : option string) :
  (forall l, In l labels -> cl_value l <> name) ->
  dict_get opt_string_eqb (snd (build_taxonomy ty kh labels idx cats ids))
    name = dict_get opt_string_eqb ids name.
Proof.
  revert idx cats ids. induction labels as [|l rest IH]; intros idx cats ids H;
    simpl; [reflexivity|].
  rewrite IH by (intros l' Hl'; apply H; now right).
  apply (dict_get_set_other _ opt_string_eqb_spec).
  intros E. apply (H l); [now left|now symmetry].
Qed.

Lemma build_taxonomy_last_wins (ty : string) (kh : bool)
  (l1 l2 : list ConfigLabel) (label : ConfigLabel) (idx : nat) :
  (forall l, In l l2 -> cl_value l <> cl_value label) ->
  dict_get opt_string_eqb
    (snd (build_taxonomy ty kh (l1 ++ label :: l2) idx [] []))
    (cl_value label) = Some (idx + List.length l1)%nat.
Proof.
  intros H. rewrite build_taxonomy_ids_app. simpl.
  rewrite build_taxonomy_ids_other by exact H.
  apply (dict_get_set_same _ opt_string_eqb_spec).
Qed.

Lemma init_fields (rect_labels poly_labels : list ConfigLabel) :
  rect_categories (init rect_labels poly_labels) =
    fst (build_taxonomy "rectangle" false rect_labels 1 [] []) /\
  rect_name_to_id (init rect_labels poly_labels) =
    snd (build_taxonomy "rectangle" false rect_labels 1 [] []) /\
  poly_categories (init rect_labels poly_labels) =
    fst (build_taxonomy "polygon" true poly_labels 1 [] []) /\
  poly_name_to_id (init rect_labels poly_labels) =
    snd (build_taxonomy "polygon" true poly_labels 1 [] []).
Proof.
  unfold init.
  destruct (build_taxonomy "rectangle" false rect_labels 1 [] []).
  destruct (build_taxonomy "polygon" true poly_labels 1 [] []).
  repeat split.
Qed.

Lemma category_ids_names (ty : string) (kh : bool)
  (labels : list ConfigLabel) (idx : nat) :
  map cat_id (map (fun p => category_at ty kh (fst p) (snd p))
                (combine (seq idx (List.length labels)) labels)) =
    seq idx (List.length labels) /\
  map cat_name (map (fun p => category_at ty kh (fst p) (snd p))
                  (combine (seq idx (List.length labels)) labels)) =
    map cl_value labels.
Proof.
  revert idx. induction labels as [|l rest IH]; intros idx; simpl.
  - split; reflexivity.
  - destruct (IH (S idx)) as [H1 H2]. now rewrite H1, H2.
Qed.

(** C8: in each taxonomy the ids are 1, 2, ... in the order of the
    configuration and every label keeps its entry in the category list,
    duplicates included; each taxonomy is built from its own labels only;
    and the name-to-id map gives a name the id of its last occurrence. *)
Theorem taxonomy_ids (rect_labels poly_labels : list ConfigLabel) :
  let self := init rect_labels poly_labels in
  (map cat_id (rect_categories self) = seq 1 (List.length rect_labels) /\
   map cat_name (rect_categories self) = map cl_value rect_labels) /\
  (map cat_id (poly_categories self) = seq 1 (List.length poly_labels) /\
   map cat_name (poly_categories self) = map cl_value poly_labels) /\
  (forall others,
      rect_categories (init rect_labels others) = rect_categories self /\
      rect_name_to_id (init rect_labels others) = rect_name_to_id self /\
      poly_categories (init others poly_labels) = poly_categories self /\
      poly_name_to_id (init others poly_labels) = poly_name_to_id self) /\
  (forall l1 label l2,
      rect_labels = l1 ++ label :: l2 ->
      (forall l, In l l2 -> cl_value l <> cl_value label) ->
      dict_get opt_string_eqb (rect_name_to_id self) (cl_value label) =
        Some (S (List.length l1)) /\
      List.length (rect_categories self) =
        (List.length l1 + 1 + List.length l2)%nat) /\
  (forall l1 label l2,
      poly_labels = l1 ++ label :: l2 ->
      (forall l, In l l2 -> cl_value l <> cl_value label) ->
      dict_get opt_string_eqb (poly_name_to_id self) (cl_value label) =
        Some (S (List.length l1)) /\
      List.length (poly_categories self) =
        (List.length l1 + 1 + List.length l2)%nat).
Proof.
  intros self. subst self.
  destruct (init_fields rect_labels poly_labels) as (Hrc & Hrm & Hpc & Hpm).
  rewrite Hrc, Hrm, Hpc, Hpm, !build_taxonomy_cats. cbn [app].
  split; [apply category_ids_names|].
  split; [apply category_ids_names|].
  split.
  - intros others.
    destruct (init_fields rect_labels others) as (Hrc' & Hrm' & _ & _).
    destruct (init_fields others poly_labels) as (_ & _ & Hpc' & Hpm').
    rewrite Hrc', Hrm', Hpc', Hpm', !build_taxonomy_cats. cbn [app].
    repeat split.
  - split; intros l1 label l2 -> Hlast.
    + split; [apply (build_taxonomy_last_wins _ _ l1 l2 label 1 Hlast)|].
      rewrite length_map, length_combine, length_seq, Nat.min_id, length_app.
      simpl. lia.
    + split; [apply (build_taxonomy_last_wins _ _ l1 l2 label 1 Hlast)|].
      rewrite length_map, length_combine, length_seq, Nat.min_id, length_app.
      simpl. lia.
Qed.

Lemma taxonomy_ids_witness :
  let dup := mkConfigLabel (Some "front") None None in
  let self := init [] [dup; mkConfigLabel (Some "back") None None; dup] in
  dict_get opt_string_eqb (poly_name_to_id self) (Some "front") = Some 3%nat /\
  List.length (poly_categories self) = 3%nat.
Proof.
  intros dup self.
  destruct (taxonomy_ids [] [dup; mkConfigLabel (Some "back") None None; dup])
    as (_ & _ & _ & _ & Hpoly).
  apply (Hpoly [dup; mkConfigLabel (Some "back") None None] dup []).
  - reflexivity.
  - intros l [].
Defined.

(** ** Annotation associator *)

Lemma string_eqb_spec (a b : string) : String.eqb a b = true <-> a = b.
Proof. apply String.eqb_eq. Qed.

(** A box label that is not malformed, handed to [associate]. *)
Lemma associate_box (item_idx : nat) (item : Task) (image_id : nat)
  (has_draft : bool) (author_id : Z) (s : State) (label : Label)
  (value : Value) :
  t_annotations item <> [] ->
  l_type label = "rectanglelabels" ->
  l_value label = Some value -> v_points value = None ->
  associate item_idx item image_id has_draft author_id s label =
  Ok (set_dict
        (dict_set String.eqb (annotations_dict s) (l_id label)
           match dict_get String.eqb (annotations_dict s) (l_id label) with
           | Some data =>
               mkAssoc (a_image_id data) (Some label) (a_keypoints data)
                 has_draft
           | None => mkAssoc image_id (Some label) [] has_draft
           end) s).
Proof.
  intros Hann Hty Hv Hp. unfold associate.
  destruct (t_annotations item); [congruence|].
  rewrite Hty. cbn [String.eqb Ascii.eqb Bool.eqb].
  rewrite Hv. cbn [getitem bind]. rewrite Hp.
  now destruct (dict_get String.eqb (annotations_dict s) (l_id label)).
Qed.

(** C9: a well-formed box label that reaches the associator (the task's
    dimensions are known, or the label reports them) never raises.  If its
    identifier already keys an object, that object gets the label as its
    box and keeps its keypoint sets, and no other key or position changes;
    otherwise a new object with that box and no keypoint sets is added at
    the end. *)
Theorem box_label_sets_box (item_idx : nat) (item : Task) (image_id : nat)
  (has_draft : bool) (author_id : Z) (s : State) (label : Label)
  (value : Value) :
  t_annotations item <> [] ->
  l_type label = "rectanglelabels" ->
  l_value label = Some value -> v_points value = None ->
  (truthy (height s) = true /\ truthy (width s) = true) \/
    reported_dims label <> None ->
  exists s',
    label_step item_idx item image_id has_draft author_id s label = Ok s' /\
    orphan_keypoints_list s' = orphan_keypoints_list s /\
    annotations_coco s' = annotations_coco s /\
    match dict_get String.eqb (annotations_dict s) (l_id label) with
    | Some data =>
        (exists data',
            dict_get String.eqb (annotations_dict s') (l_id label) =
              Some data' /\
            a_bbox data' = Some label /\
            a_keypoints data' = a_keypoints data) /\
        dict_keys (annotations_dict s') = dict_keys (annotations_dict s) /\
        (forall k, k <> l_id label ->
            dict_get String.eqb (annotations_dict s') k =
            dict_get String.eqb (annotations_dict s) k)
    | None =>
        annotations_dict s' =
        annotations_dict s ++
          [(l_id label, mkAssoc image_id (Some label) [] has_draft)]
    end.
Proof.
  intros Hann Hty Hv Hp Hdims.
  assert (Hstep : exists s0,
    label_step item_idx item image_id has_draft author_id s label =
      associate item_idx item image_id has_draft author_id s0 label /\
    annotations_dict s0 = annotations_dict s /\
    orphan_keypoints_list s0 = orphan_keypoints_list s /\
    annotations_coco s0 = annotations_coco s).
  { unfold label_step.
    destruct (negb (truthy (height s)) || negb (truthy (width s))) eqn:E.
    - destruct Hdims as [[Hh Hw]|Hrep];
        [rewrite Hh, Hw in E; discriminate|].
      destruct (reported_dims label) as [[w h]|]; [|congruence].
      eexists; split; [reflexivity|]. repeat split.
    - exists s. repeat split. }
  destruct Hstep as (s0 & -> & Hd & Ho & Ha).
  rewrite (associate_box _ _ _ _ _ s0 label value Hann Hty Hv Hp).
  eexists; split; [reflexivity|]. cbn [set_dict orphan_keypoints_list
    annotations_coco annotations_dict].
  rewrite Hd. split; [exact Ho|]. split; [exact Ha|].
  destruct (dict_get String.eqb (annotations_dict s) (l_id label))
    as [data|] eqn:Eget.
  - split; [|split].
    + eexists; split;
        [apply (dict_get_set_same _ string_eqb_spec)|split; reflexivity].
    + exact (dict_set_present_keys _ _ _ _ data Eget).
    + intros k Hk. now apply (dict_get_set_other _ string_eqb_spec).
  - now apply dict_set_absent.
Qed.

Lemma box_label_sets_box_witness :
  let kp := mkLabel "P1" "polygonlabels" (Some "B1") None None None in
  let box := mkLabel "B1" "rectanglelabels" None (Some 100) (Some 100)
    (Some (mkValue (Some 10) (Some 10) (Some 50) (Some 50) None None None
             (Some ["tm"]) None)) in
  let item := mkTask 7 "a.jpg" [] [mkAnnotation 3 [kp; box]] in
  let s := mkState [] [] [] (Some 100) (Some 100)
    [("B1", mkAssoc 0 None [kp] false)] [] in
  exists s',
    label_step 0 item 0 false 3 s box = Ok s' /\
    exists data',
      dict_get String.eqb (annotations_dict s') "B1" = Some data' /\
      a_bbox data' = Some box /\ a_keypoints data' = [kp].
Proof.
  intros kp box item s.
  destruct (box_label_sets_box 0 item 0 false 3 s box
    (mkValue (Some 10) (Some 10) (Some 50) (Some 50) None None None
       (Some ["tm"]) None))
    as (s' & Hstep & _ & _ & Hd).
  - discriminate.
  - reflexivity.
  - reflexivity.
  - reflexivity.
  - left. split; reflexivity.
  - exists s'. split; [exact Hstep|]. simpl in Hd. exact (proj1 Hd).
Defined.

(** ** Loops *)

Lemma bind_ok {A B : Type} (m : Res A) (k : A -> Res B) (b : B) :
  bind m k = Ok b -> exists a, m = Ok a /\ k a = Ok b.
Proof. destruct m as [a|e]; simpl; [eauto|discriminate]. Qed.

Ltac bind_inv H :=
  let a := fresh "a" in
  let Ha := fresh "Ha" in
  apply bind_ok in H; destruct H as (a & Ha & H).

(** A relation that every successful iteration establishes, and that is
    reflexive and transitive, holds across the whole loop. *)
Lemma for_each_rel {S A : Type} (R : S -> S -> Prop)
  (body : S -> A -> Res S) :
  (forall s, R s s) ->
  (forall s1 s2 s3, R s1 s2 -> R s2 s3 -> R s1 s3) ->
  (forall s a s', body s a = Ok s' -> R s s') ->
  forall l s s', for_each body l s = Ok s' -> R s s'.
Proof.
  intros Hrefl Htrans Hbody. induction l as [|a l IH]; intros s s' H; simpl in H.
  - injection H as <-. apply Hrefl.
  - bind_inv H. eapply Htrans; [eapply Hbody; eassumption|now apply IH].
Qed.

(** A state predicate that every successful iteration preserves. *)
Lemma for_each_pred {S A : Type} (I : S -> Prop) (body : S -> A -> Res S) :
  (forall s a s', I s -> body s a = Ok s' -> I s') ->
  forall l s s', I s -> for_each body l s = Ok s' -> I s'.
Proof.
  intros Hbody. induction l as [|a l IH]; intros s s' Hs H; simpl in H.
  - now injection H as <-.
  - bind_inv H. eapply IH; [eapply Hbody|]; eassumption.
Qed.

Lemma for_each_app {S A : Type} (body : S -> A -> Res S) (l1 l2 : list A)
  (s : S) :
  for_each body (l1 ++ l2) s = s' <- for_each body l1 s ;; for_each body l2 s'.
Proof.
  revert s. induction l1 as [|a l1 IH]; intros s; simpl; [reflexivity|].
  destruct (body s a); simpl; [apply IH|reflexivity].
Qed.

Lemma grows_by_refl (P : CocoAnn -> Prop) (o : Out) : grows_by P o o.
Proof. exists []. split; [now rewrite app_nil_r|constructor]. Qed.

Lemma grows_by_trans (P : CocoAnn -> Prop) (o1 o2 o3 : Out) :
  grows_by P o1 o2 -> grows_by P o2 o3 -> grows_by P o1 o3.
Proof.
  intros (n1 & E1 & F1) (n2 & E2 & F2). exists (n1 ++ n2). split.
  - now rewrite E2, E1, app_assoc.
  - apply Forall_app. now split.
Qed.

Lemma grows_by_warn (P : CocoAnn -> Prop) (o : Out) (d : diag) :
  grows_by P o (out_warn d o).
Proof. exists []. split; [simpl; now rewrite app_nil_r|constructor]. Qed.

Lemma grows_by_append (P : CocoAnn -> Prop) (o o1 : Out) (a : CocoAnn) :
  fst o1 = fst o -> P a -> grows_by P o (out_append a o1).
Proof.
  intros E Ha. exists [a]. split; [simpl; now rewrite E|].
  constructor; [exact Ha|constructor].
Qed.

Lemma grows_by_weaken (P Q : CocoAnn -> Prop) (o o' : Out) :
  (forall a, P a -> Q a) -> grows_by P o o' -> grows_by Q o o'.
Proof.
  intros H (new & E & F). exists new. split; [exact E|].
  eapply Forall_impl; eassumption.
Qed.

(** ** What the post-processing loops may append *)

Section PostFacts.
Variable self : LSConverter.
Variable item : Task.
Variable image_id : nat.
Variable has_draft : bool.
Variable author_id : Z.
Variable w h : option Q.

Lemma new_annotation_fields (o : Out) (category_id : nat) (bbox : BBox)
  (keypoints : list Q) (num_keypoints : nat) (bbox_label : list string) :
  let a := new_annotation image_id author_id o category_id bbox keypoints
             num_keypoints bbox_label in
  ann_image_id a = image_id /\ ann_bbox a = bbox /\
  ann_keypoints a = keypoints /\ ann_num_keypoints a = num_keypoints /\
  ann_id a = List.length (fst o).
Proof. destruct bbox as [[[x y] bw] bh]. simpl. repeat split. Qed.

Lemma emit_keypoint_grows (bbox_ann : Label) (bbox : BBox) (o o' : Out)
  (keypoint_ann : Label) :
  emit_keypoint self item image_id has_draft author_id w h bbox_ann bbox o
    keypoint_ann = Ok o' ->
  grows_by (parent_ok image_id) o o'.
Proof.
  unfold emit_keypoint. intros H. bind_inv H.
  destruct a as [keypoints num_keypoints].
  destruct (num_keypoints =? 4)%nat eqn:En; cbn [negb] in H.
  2:{ injection H as <-. apply grows_by_warn. }
  apply Nat.eqb_eq in En.
  destruct (all_in_bbox bbox (points_of_coords keypoints)) eqn:Ein;
    cbn [negb] in H.
  2:{ injection H as <-. apply grows_by_warn. }
  bind_inv H. bind_inv H. bind_inv H. injection H as <-.
  match goal with
  | |- grows_by _ _ (out_append (new_annotation _ _ ?o1 ?c _ _ _ ?bl) _) =>
      destruct (new_annotation_fields o1 c bbox keypoints num_keypoints bl)
        as (Hi & Hb & Hk & Hn & _);
      apply grows_by_append
  end.
  - repeat match goal with
           | |- context [if ?b then _ else _] => destruct b
           end; reflexivity.
  - unfold parent_ok, keypoints_in_bbox. rewrite Hi, Hb, Hk, Hn. auto.
Qed.

Lemma emit_object_grows (o o' : Out) (entry : string * Assoc) :
  emit_object self item image_id has_draft author_id w h o entry = Ok o' ->
  grows_by (parent_ok image_id) o o'.
Proof.
  unfold emit_object. destruct (a_bbox (snd entry)) as [bbox_ann|].
  - intros H. bind_inv H. revert H.
    apply (for_each_rel (grows_by (parent_ok image_id)));
      [apply grows_by_refl|apply grows_by_trans|].
    intros s kp s'. apply emit_keypoint_grows.
  - intros H. injection H as <-. apply grows_by_refl.
Qed.

(** The orphan path appends at most one record, of this task, whose box
    is the converted box of an entry that has one. *)
Lemma scan_boxes_grows (keypoint_ann : Label) (abs_points : list (Q * Q))
  (entries : dict string Assoc) (o o' : Out) :
  scan_boxes self image_id author_id w h keypoint_ann abs_points entries o
    = Ok (Some o') ->
  exists a, o' = out_append a o /\ ann_image_id a = image_id /\
    all_in_bbox (ann_bbox a) abs_points = true /\
    exists coords n,
      _convert_single_keypoint keypoint_ann w h = Ok (coords, n) /\
      ann_keypoints a = coords /\ ann_num_keypoints a = n.
Proof.
  induction entries as [|[key data] rest IH]; simpl; [discriminate|].
  destruct (a_bbox data) as [bbox_ann|]; [|exact IH].
  intros H. bind_inv H.
  destruct (all_in_bbox a abs_points) eqn:Ein; [|now apply IH].
  bind_inv H. bind_inv H. bind_inv H. destruct a2 as [keypoints n].
  bind_inv H. injection H as <-.
  eexists. split; [reflexivity|].
  match goal with
  | |- context [new_annotation _ _ ?o1 ?c ?b ?k ?m ?bl] =>
      destruct (new_annotation_fields o1 c b k m bl)
        as (Hi & Hb & Hk & Hn & _)
  end.
  rewrite Hi, Hb, Hk, Hn. repeat split; try assumption.
  exists keypoints, n. repeat split. assumption.
Qed.

Lemma resolve_orphan_grows (d : dict string Assoc) (o o' : Out)
  (orphan : Orphan) :
  resolve_orphan self item image_id has_draft author_id w h d o orphan
    = Ok o' ->
  grows_by (of_task image_id) o o'.
Proof.
  unfold resolve_orphan. intros H. bind_inv H. bind_inv H. bind_inv H.
  bind_inv H. destruct a2 as [o2|].
  - injection H as <-.
    destruct (scan_boxes_grows _ _ _ _ _ Ha2) as (new & -> & Hi & _).
    now apply grows_by_append.
  - injection H as <-. apply grows_by_warn.
Qed.

Lemma post_process_grows (d : dict string Assoc) (orphans : list Orphan)
  (o o' : Out) :
  post_process self item image_id has_draft author_id w h d orphans o
    = Ok o' ->
  grows_by (of_task image_id) o o'.
Proof.
  unfold post_process. intros H. bind_inv H.
  apply grows_by_trans with a.
  - apply grows_by_weaken with (parent_ok image_id); [intros x Hx; apply Hx|].
    revert Ha. apply (for_each_rel (grows_by (parent_ok image_id)));
      [apply grows_by_refl|apply grows_by_trans|].
    intros s entry s'. apply emit_object_grows.
  - revert H. apply (for_each_rel (grows_by (of_task image_id)));
      [apply grows_by_refl|apply grows_by_trans|].
    intros s orphan s'. apply resolve_orphan_grows.
Qed.
End PostFacts.

(** ** Images and annotations of a run *)

Section LabelLoop.
Variable item_idx : nat.
Variable item : Task.
Variable image_id : nat.
Variable has_draft : bool.
Variable author_id : Z.

(** [associate] writes to the dictionary, the orphan queue and the log
    only. *)
Lemma associate_frame (s s' : State) (label : Label) :
  associate item_idx item image_id has_draft author_id s label = Ok s' ->
  images_coco s' = images_coco s /\
  annotations_coco s' = annotations_coco s /\
  width s' = width s /\ height s' = height s.
Proof.
  unfold associate. destruct (t_annotations item).
  - intros H. injection H as <-. repeat split.
  - destruct (String.eqb (l_type label) "rectanglelabels").
    + intros H. bind_inv H. destruct (v_points a0).
      * injection H as <-. repeat split.
      * destruct (dict_get String.eqb (annotations_dict s) (l_id label));
          injection H as <-; repeat split.
    + destruct (String.eqb (l_type label) "polygonlabels").
      * intros H. bind_inv H. destruct (v_x a0).
        { injection H as <-. repeat split. }
        destruct (l_parentID label) as [[|c p]|].
        { injection H as <-. repeat split. }
        { destruct (dict_get String.eqb (annotations_dict s) (String c p));
            injection H as <-; repeat split. }
        { injection H as <-. repeat split. }
      * intros H. injection H as <-. repeat split.
Qed.

Variable imgs0 : list Image.
Variable anns0 : list CocoAnn.

Lemma label_step_inv (s : State) (label : Label) (s' : State) :
  label_inv image_id imgs0 anns0 s ->
  label_step item_idx item image_id has_draft author_id s label = Ok s' ->
  label_inv image_id imgs0 anns0 s'.
Proof.
  intros (Ha & (extra & Hi) & HJ). unfold label_step.
  destruct (negb (truthy (height s)) || negb (truthy (width s))) eqn:E.
  - destruct (reported_dims label) as [[w h]|].
    + intros H. apply associate_frame in H.
      destruct H as (Hi' & Ha' & _ & _).
      cbn [set_dims images_coco annotations_coco] in Hi', Ha'.
      split; [congruence|]. split.
      * exists (extra ++
          [mkImage image_id w h (image_name item)
             (label_studio_image_id item)]).
        rewrite Hi', Hi. now rewrite app_assoc.
      * intros _. rewrite Hi', map_app, in_app_iff. right. now left.
    + intros H. injection H as <-. split; [exact Ha|].
      split; [now exists extra|exact HJ].
  - intros H. apply associate_frame in H.
    destruct H as (Hi' & Ha' & _ & _).
    split; [congruence|]. split; [exists extra; congruence|].
    intros _. rewrite Hi'. apply HJ. left.
    apply orb_false_iff in E. destruct E as [E1 E2].
    apply negb_false_iff in E1, E2. now split.
Qed.
End LabelLoop.

Lemma convert_item_cover (self : LSConverter) (s s' : State) (item_idx : nat)
  (item : Task) :
  images_cover s -> convert_item self s item_idx item = Ok s' ->
  images_cover s'.
Proof.
  intros Hs H. unfold convert_item in H.
  bind_inv H. bind_inv H. bind_inv H. injection H as <-.
  rename a0 into s1, a1 into o.
  assert (Hinv : label_inv (List.length (images_coco s)) (images_coco s)
                   (annotations_coco s) s1).
  { revert Ha0. apply for_each_pred.
    - intros st lb st'. apply label_step_inv.
    - split; [reflexivity|]. split; [exists []; simpl; now rewrite app_nil_r|].
      simpl. intros [[Hf _]|[Hf|Hf]]; [discriminate|now elim Hf|now elim Hf]. }
  destruct Hinv as (Hanns & (extra & Himgs) & HJ).
  destruct (post_process_grows _ _ _ _ _ _ _ _ _ _ _ Ha1) as (new & Hnew & Hall).
  cbn [fst] in Hnew.
  unfold images_cover. cbn [annotations_coco images_coco].
  intros x Hx. rewrite Hnew, Hanns in Hx. apply in_app_iff in Hx.
  destruct Hx as [Hold|Hin].
  - rewrite Himgs, map_app, in_app_iff. left. now apply Hs.
  - rewrite Forall_forall in Hall. rewrite (Hall x Hin).
    apply HJ. right.
    destruct (annotations_dict s1) eqn:Ed; [|left; discriminate].
    destruct (orphan_keypoints_list s1) eqn:Eo; [|right; discriminate].
    exfalso. cbn in Ha1. injection Ha1 as <-. cbn [fst] in Hnew.
    rewrite <- (app_nil_r (annotations_coco s1)) in Hnew at 1.
    apply app_inv_head in Hnew. subst new. exact Hin.
Qed.

Lemma convert_items_cover (self : LSConverter) (ann_list : list Task)
  (s s' : State) (item_idx : nat) :
  images_cover s -> convert_items self s item_idx ann_list = Ok s' ->
  images_cover s'.
Proof.
  revert s item_idx. induction ann_list as [|item rest IH];
    intros s item_idx Hs H; simpl in H.
  - now injection H as <-.
  - bind_inv H. eapply IH; [|exact H].
    eapply convert_item_cover; eassumption.
Qed.

(** C10: in the output of a run, the image_id of every annotation is the
    id of an image entry of the same output. *)
Theorem annotation_image_emitted (self : LSConverter) (ann_list : list Task)
  (images : list Image) (annotations : list CocoAnn) (log : list diag) :
  convert_to_coco self ann_list = Ok (images, annotations, log) ->
  forall a, In a annotations ->
    exists im, In im images /\ img_id im = ann_image_id a.
Proof.
  unfold convert_to_coco. intros H a Hin. bind_inv H.
  injection H as <- <- <-.
  assert (Hc : images_cover a0).
  { eapply convert_items_cover; [|exact Ha]. intros x []. }
  apply Hc in Hin. apply in_map_iff in Hin.
  destruct Hin as (im & Hid & Him). now exists im.
Qed.

Lemma annotation_image_emitted_witness :
  exists images annotations log,
    convert_to_coco sample_self [sample_linked_task]
    = Ok (images, annotations, log) /\
    List.length annotations = 1%nat /\
    forall a, In a annotations ->
      exists im, In im images /\ img_id im = ann_image_id a.
Proof.
  do 3 eexists. split; [vm_compute; reflexivity|].
  split; [reflexivity|].
  apply (annotation_image_emitted sample_self [sample_linked_task]
           _ _ []).
  vm_compute. reflexivity.
Defined.

(** ** Placeholders *)

Section Placeholders.
Variable self : LSConverter.
Variable item : Task.
Variable image_id : nat.
Variable has_draft : bool.
Variable author_id : Z.
Variable w h : option Q.

Lemma emit_objects_skip_placeholders (d : dict string Assoc) (o : Out) :
  for_each (emit_object self item image_id has_draft author_id w h) d o =
  for_each (emit_object self item image_id has_draft author_id w h)
    (filter has_box d) o.
Proof.
  revert o. induction d as [|entry rest IH]; intros o; [reflexivity|].
  cbn [filter]. unfold has_box at 1.
  destruct (a_bbox (snd entry)) as [bbox_ann|] eqn:E.
  - cbn [for_each].
    destruct (emit_object self item image_id has_draft author_id w h o
                entry); cbn [bind]; [apply IH|reflexivity].
  - cbn [for_each]. unfold emit_object at 1. rewrite E. cbn [bind].
    apply IH.
Qed.

Lemma scan_boxes_skip_placeholders (keypoint_ann : Label)
  (abs_points : list (Q * Q)) (d : dict string Assoc) (o : Out) :
  scan_boxes self image_id author_id w h keypoint_ann abs_points d o =
  scan_boxes self image_id author_id w h keypoint_ann abs_points
    (filter has_box d) o.
Proof.
  induction d as [|[key data] rest IH]; [reflexivity|].
  cbn [filter]. unfold has_box at 1. cbn [snd scan_boxes].
  destruct (a_bbox data) as [bbox_ann|] eqn:E; [|exact IH].
  cbn [scan_boxes]. rewrite E.
  destruct (_convert_bbox bbox_ann w h) as [bbox|e]; cbn [bind];
    [|reflexivity].
  destruct (all_in_bbox bbox abs_points); [reflexivity|exact IH].
Qed.

Lemma for_each_ext {S A : Type} (f g : S -> A -> Res S) (l : list A)
  (s : S) :
  (forall s a, f s a = g s a) -> for_each f l s = for_each g l s.
Proof.
  intros H. revert s. induction l as [|a l IH]; intros s; simpl;
    [reflexivity|].
  rewrite H. destruct (g s a); simpl; [apply IH|reflexivity].
Qed.

Lemma placeholders_emit_nothing (d : dict string Assoc) (o : Out) :
  for_each (emit_object self item image_id has_draft author_id w h)
    (filter is_placeholder d) o = Ok o.
Proof.
  rewrite emit_objects_skip_placeholders.
  replace (filter has_box (filter is_placeholder d)) with
    (@nil (string * Assoc)); [reflexivity|].
  induction d as [|entry rest IH]; [reflexivity|].
  cbn [filter]. unfold is_placeholder at 1.
  destruct (has_box entry) eqn:E; cbn [negb]; [exact IH|].
  cbn [filter]. now rewrite E.
Qed.

Lemma placeholders_never_match (keypoint_ann : Label)
  (abs_points : list (Q * Q)) (d : dict string Assoc) (o : Out) :
  scan_boxes self image_id author_id w h keypoint_ann abs_points
    (filter is_placeholder d) o = Ok None.
Proof.
  induction d as [|[key data] rest IH]; [reflexivity|].
  cbn [filter]. unfold is_placeholder, has_box at 1. cbn [snd].
  destruct (a_bbox data) eqn:E; cbn [negb]; [exact IH|].
  cbn [scan_boxes]. rewrite E. exact IH.
Qed.
End Placeholders.

(** C5: the objects without a box contribute nothing to a task: the
    post-processing of a dictionary is the post-processing of its entries
    that have a box (same annotations, same log, same exception if any);
    the parent loop over placeholders alone leaves the output as it is,
    and the orphan scan over placeholders alone never matches. *)
Theorem placeholder_never_emitted (self : LSConverter) (item : Task)
  (image_id : nat) (has_draft : bool) (author_id : Z) (w h : option Q)
  (d : dict string Assoc) (orphans : list Orphan) (o : Out) :
  post_process self item image_id has_draft author_id w h d orphans o =
  post_process self item image_id has_draft author_id w h (filter has_box d)
    orphans o /\
  for_each (emit_object self item image_id has_draft author_id w h)
    (filter is_placeholder d) o = Ok o /\
  (forall keypoint_ann abs_points,
      scan_boxes self image_id author_id w h keypoint_ann abs_points d o =
      scan_boxes self image_id author_id w h keypoint_ann abs_points
        (filter has_box d) o /\
      scan_boxes self image_id author_id w h keypoint_ann abs_points
        (filter is_placeholder d) o = Ok None).
Proof.
  split; [|split].
  - unfold post_process. rewrite <- emit_objects_skip_placeholders.
    destruct (for_each _ d o) as [o1|e]; cbn [bind]; [|reflexivity].
    apply for_each_ext. intros s orphan. unfold resolve_orphan.
    destruct (getitem "value" (l_value (o_label orphan))) as [value|e];
      cbn [bind]; [|reflexivity].
    destruct (v_points value) as [points|]; cbn [bind]; [|reflexivity].
    destruct (to_abs w h points) as [abs_points|e]; cbn [bind];
      [|reflexivity].
    now rewrite <- scan_boxes_skip_placeholders.
  - apply placeholders_emit_nothing.
  - intros keypoint_ann abs_points. split.
    + apply scan_boxes_skip_placeholders.
    + apply placeholders_never_match.
Qed.

(** ** Orphan resolver *)

Lemma in_range_spec (x_min y_min x_max y_max : Q) (p : Q * Q) :
  in_range x_min y_min x_max y_max p = true <->
  x_min <= fst p /\ fst p <= x_max /\ y_min <= snd p /\ snd p <= y_max.
Proof.
  unfold in_range. rewrite !andb_true_iff, !Qle_bool_iff. tauto.
Qed.

Lemma all_in_bbox_spec (bbox : BBox) (points : list (Q * Q)) :
  all_in_bbox bbox points = true <-> Forall (inside bbox) points.
Proof.
  destruct bbox as [[[x y] bw] bh]. unfold all_in_bbox, inside.
  rewrite forallb_forall, Forall_forall.
  split; intros H p Hp; apply in_range_spec; now apply H.
Qed.

Lemma all_in_bbox_false (bbox : BBox) (points : list (Q * Q)) :
  ~ Forall (inside bbox) points -> all_in_bbox bbox points = false.
Proof.
  intros H. destruct (all_in_bbox bbox points) eqn:E; [|reflexivity].
  apply all_in_bbox_spec in E. contradiction.
Qed.

Section Resolver.
Variable self : LSConverter.
Variable item : Task.
Variable image_id : nat.
Variable has_draft : bool.
Variable author_id : Z.
Variable w h : option Q.
Variable keypoint_ann : Label.
Variable abs_points : list (Q * Q).

Lemma scan_boxes_rejected (pre rest : dict string Assoc) (o : Out) :
  Forall (rejects w h abs_points) pre ->
  scan_boxes self image_id author_id w h keypoint_ann abs_points
    (pre ++ rest) o =
  scan_boxes self image_id author_id w h keypoint_ann abs_points rest o.
Proof.
  induction pre as [|[key data] pre IH]; intros Hpre; [reflexivity|].
  inversion Hpre as [|e l He Hl]; subst.
  cbn [app scan_boxes].
  destruct (a_bbox data) as [b|] eqn:E; [|now apply IH].
  destruct (He b E) as (bb & Hbb & Hout).
  rewrite Hbb. cbn [bind]. rewrite (all_in_bbox_false _ _ Hout).
  now apply IH.
Qed.

Lemma scan_boxes_accepts (key : string) (data : Assoc)
  (post : dict string Assoc) (o : Out) (bbox_ann : Label) (bbox : BBox)
  (name : string) (category_id : nat) (coords : list Q) (n : nat)
  (bbox_label : list string) :
  a_bbox data = Some bbox_ann ->
  _convert_bbox bbox_ann w h = Ok bbox ->
  Forall (inside bbox) abs_points ->
  first_polygonlabel keypoint_ann = Ok name ->
  category_of self name = Ok category_id ->
  _convert_single_keypoint keypoint_ann w h = Ok (coords, n) ->
  rectanglelabels_of bbox_ann = Ok bbox_label ->
  scan_boxes self image_id author_id w h keypoint_ann abs_points
    ((key, data) :: post) o =
  Ok (Some (out_append
              (new_annotation image_id author_id o category_id bbox coords
                 n bbox_label) o)).
Proof.
  intros Hb Hc Hin Hn Hcat Hk Hl. cbn [scan_boxes].
  rewrite Hb, Hc. cbn [bind].
  apply all_in_bbox_spec in Hin. rewrite Hin, Hn. cbn [bind].
  rewrite Hcat. cbn [bind]. rewrite Hk. cbn [bind]. rewrite Hl.
  reflexivity.
Qed.
End Resolver.

(** The orphan loop scales the points by the task's own dimensions. *)
Lemma to_abs_pixels (W H : Q) (points : list (Q * Q)) :
  to_abs (Some W) (Some H) points = Ok (map (to_pixels W H) points).
Proof.
  induction points as [|p rest IH]; [reflexivity|].
  cbn [to_abs map]. rewrite IH. reflexivity.
Qed.

(** C6: the points of an orphan are taken to pixels of the task's W x H
    image, (x*W/100, y*H/100), and the orphan is bound to the first
    object, in dictionary (creation) order, that has a box whose inclusive
    pixel bounds hold every one of these pixel points: the objects after
    it are not looked at, so of two boxes that both hold the points the
    earlier one wins.  The output gains exactly one annotation, with that
    box.  When every object with a box rejects the pixel points, the
    output gains no annotation and the log gains the diagnostic of the
    unmatched orphan, which lists the pixel points. *)
Theorem orphan_first_match (self : LSConverter) (item : Task)
  (image_id : nat) (has_draft : bool) (author_id : Z) (W H : Q)
  (orphan : Orphan) (value : Value) (points : list (Q * Q)) (o : Out) :
  l_value (o_label orphan) = Some value ->
  v_points value = Some points ->
  (forall pre key data post bbox_ann bbox name category_id coords n
          bbox_label,
      Forall (rejects (Some W) (Some H) (map (to_pixels W H) points)) pre ->
      a_bbox data = Some bbox_ann ->
      _convert_bbox bbox_ann (Some W) (Some H) = Ok bbox ->
      Forall (inside bbox) (map (to_pixels W H) points) ->
      first_polygonlabel (o_label orphan) = Ok name ->
      category_of self name = Ok category_id ->
      _convert_single_keypoint (o_label orphan) (Some W) (Some H)
        = Ok (coords, n) ->
      rectanglelabels_of bbox_ann = Ok bbox_label ->
      exists a,
        resolve_orphan self item image_id has_draft author_id
          (Some W) (Some H) (pre ++ (key, data) :: post) o orphan
          = Ok (fst o ++ [a], snd o) /\
        ann_bbox a = bbox /\ ann_keypoints a = coords /\
        ann_image_id a = image_id /\ ann_id a = List.length (fst o) /\
        ann_category_id a = category_id /\ ann_bbox_label a = bbox_label) /\
  (forall d,
      Forall (rejects (Some W) (Some H) (map (to_pixels W H) points)) d ->
      resolve_orphan self item image_id has_draft author_id
        (Some W) (Some H) d o orphan =
      Ok (fst o,
          snd o ++ [Unmatched (t_id item) (l_id (o_label orphan)) author_id
                      (map (to_pixels W H) points) has_draft])).
Proof.
  intros Hv Hp. split.
  - intros pre key data post bbox_ann bbox name category_id coords n
      bbox_label Hpre Hb Hc Hin Hn Hcat Hk Hl.
    eexists. split.
    + unfold resolve_orphan. rewrite Hv. cbn [getitem bind].
      rewrite Hp. cbn [bind]. rewrite to_abs_pixels. cbn [bind].
      rewrite scan_boxes_rejected by exact Hpre.
      erewrite scan_boxes_accepts by eassumption.
      reflexivity.
    + destruct bbox as [[[x y] bw] bh]. repeat split.
  - intros d Hd. unfold resolve_orphan. rewrite Hv. cbn [getitem bind].
    rewrite Hp. cbn [bind]. rewrite to_abs_pixels. cbn [bind].
    rewrite <- (app_nil_r d).
    rewrite scan_boxes_rejected by exact Hd.
    reflexivity.
Qed.

(** On a 200 x 50 image: box B0 covers [15,35] x [15,35] in pixels, which
    holds the percent values of the points but not their pixel positions
    (40,10) ... (60,15); B1 and B2 both hold them, and B1 comes first. *)
Lemma orphan_first_match_witness :
  let orphan :=
    mkOrphan 0
      (sample_poly "P1" None "side" [(20, 20); (20, 30); (30, 30); (30, 20)])
      (Some 200) (Some 50) in
  let d :=
    [("B0", mkAssoc 0 (Some (sample_box "B0" (15 # 2) 30 10 40)) [] false);
     ("B1", mkAssoc 0 (Some (sample_box "B1" 0 0 100 100)) [] false);
     ("B2", mkAssoc 0 (Some (sample_box "B2" 10 10 50 50)) [] false)] in
  exists a,
    resolve_orphan sample_self sample_linked_task 0 false 3
      (Some 200) (Some 50) d ([], []) orphan = Ok ([a], []) /\
    ann_bbox a =
      (0 * 200 / 100, 0 * 50 / 100, 100 * 200 / 100, 100 * 50 / 100) /\
    all_in_bbox (15, 15, 20, 20) [(20, 20); (20, 30); (30, 30); (30, 20)]
      = true.
Proof.
  intros orphan d.
  edestruct (orphan_first_match sample_self sample_linked_task 0 false 3
               200 50 orphan) as [Hfirst _];
    [reflexivity|reflexivity|].
  edestruct (Hfirst
               [("B0", mkAssoc 0 (Some (sample_box "B0" (15 # 2) 30 10 40))
                         [] false)]
               "B1" (mkAssoc 0 (Some (sample_box "B1" 0 0 100 100)) [] false)
               [("B2", mkAssoc 0 (Some (sample_box "B2" 10 10 50 50)) []
                         false)])
    as (a & Hr & Hb & _).
  - constructor; [|constructor]. intros b Hb. injection Hb as <-.
    eexists. split; [reflexivity|]. intros HF.
    apply all_in_bbox_spec in HF. vm_compute in HF. discriminate HF.
  - reflexivity.
  - reflexivity.
  - apply all_in_bbox_spec. vm_compute. reflexivity.
  - reflexivity.
  - reflexivity.
  - reflexivity.
  - reflexivity.
  - exists a. split; [exact Hr|]. split; [exact Hb|].
    vm_compute. reflexivity.
Defined.

(** ** Arity of keypoint sets *)

(** The parent loop appends only keypoint sets of four points that lie in
    their box. *)
Lemma parent_loop_checked (self : LSConverter) (item : Task)
  (image_id : nat) (has_draft : bool) (author_id : Z) (w h : option Q)
  (d : dict string Assoc) (o o' : Out) :
  for_each (emit_object self item image_id has_draft author_id w h) d o
    = Ok o' ->
  grows_by (parent_ok image_id) o o'.
Proof.
  apply (for_each_rel (grows_by (parent_ok image_id)));
    [apply grows_by_refl|apply grows_by_trans|].
  intros s entry s'. apply emit_object_grows.
Qed.

(** C1 at its failing input: a three-point keypoint set with no parent
    identifier, lying inside a box, is emitted with num_keypoints = 3 and
    without any diagnostic; the same set linked to the box by parentID is
    rejected with the arity diagnostic. *)
Theorem orphan_arity_unchecked :
  (exists images a,
      convert_to_coco sample_self [orphan_triangle_task] =
        Ok (images, [a], []) /\
      ann_num_keypoints a = 3%nat /\
      List.length (points_of_coords (ann_keypoints a)) = 3%nat) /\
  (exists images,
      convert_to_coco sample_self [linked_triangle_task] =
        Ok (images, [], [NotFourKeypoints 3 3 7 "P1" false])).
Proof.
  split.
  - do 2 eexists. split; [vm_compute; reflexivity|]. split; reflexivity.
  - eexists. vm_compute. reflexivity.
Qed.

(** ** Tasks without annotations *)

(** [item['annotations'][0]] is evaluated before the label loop, hence
    before the guard on [item['annotations']] inside it. *)
Lemma convert_item_no_annotations (self : LSConverter) (s : State)
  (item_idx : nat) (item : Task) :
  t_annotations item = [] ->
  convert_item self s item_idx item = Raise IndexError.
Proof. intros H. unfold convert_item. now rewrite H. Qed.

Lemma convert_items_no_annotations (self : LSConverter) (before : list Task)
  (item : Task) (after : list Task) (s : State) (item_idx : nat) :
  t_annotations item = [] ->
  Forall (fun t => t_annotations t <> []) before ->
  exists e, convert_items self s item_idx (before ++ item :: after) = Raise e.
Proof.
  intros Hitem. revert s item_idx.
  induction before as [|t before IH]; intros s item_idx Hb; cbn [app convert_items].
  - rewrite convert_item_no_annotations by exact Hitem. now exists IndexError.
  - inversion Hb; subst.
    destruct (convert_item self s item_idx t) as [s'|e]; cbn [bind].
    + now apply IH.
    + now exists e.
Qed.

(** C3 at its failing input: a task whose [annotations] list is empty
    makes the run raise IndexError, wherever the task stands in the
    export and whatever was converted before it; a task whose only
    annotation has an empty result list is passed over without any
    diagnostic. *)
Theorem no_annotations_aborts_run :
  convert_to_coco sample_self [no_annotations_task] = Raise IndexError /\
  convert_to_coco sample_self [sample_linked_task; no_annotations_task] =
    Raise IndexError /\
  convert_to_coco sample_self [no_annotations_task; sample_linked_task] =
    Raise IndexError /\
  convert_to_coco sample_self [empty_result_task] = Ok ([], [], []).
Proof. repeat split; vm_compute; reflexivity. Qed.

(** ** Containment *)

Lemma to_abs_extend_coords (W H : Q) (points : list (Q * Q)) :
  to_abs (Some W) (Some H) points =
  Ok (points_of_coords (extend_coords points W H)).
Proof.
  induction points as [|p rest IH]; [reflexivity|].
  cbn [to_abs extend_coords points_of_coords]. rewrite IH. reflexivity.
Qed.

Lemma effective_dims_truthy (ann : Label) (w h : option Q) :
  truthy w = true -> truthy h = true ->
  exists W H, w = Some W /\ h = Some H /\ effective_dims ann w h = Ok (W, H).
Proof.
  intros Hw Hh. unfold effective_dims. rewrite Hw, Hh. cbn [negb orb].
  destruct w as [W|]; [|discriminate]. destruct h as [H|]; [|discriminate].
  now exists W, H.
Qed.

(** With dimensions that are known and non-zero, the orphan path tests the
    very points it emits. *)
Lemma resolve_orphan_contained (self : LSConverter) (item : Task)
  (image_id : nat) (has_draft : bool) (author_id : Z) (w h : option Q)
  (d : dict string Assoc) (o o' : Out) (orphan : Orphan) :
  truthy w = true -> truthy h = true ->
  resolve_orphan self item image_id has_draft author_id w h d o orphan
    = Ok o' ->
  grows_by (fun a => keypoints_in_bbox a = true) o o'.
Proof.
  intros Hw Hh. unfold resolve_orphan. intros H.
  bind_inv H. bind_inv H. bind_inv H. bind_inv H.
  rename a into value, a0 into points, a1 into abs_points.
  destruct a2 as [o2|].
  2:{ injection H as <-. apply grows_by_warn. }
  injection H as <-.
  destruct (scan_boxes_grows _ _ _ _ _ _ _ _ _ _ Ha2)
    as (new & -> & _ & Hin & coords & n & Hk & Hc & _).
  apply grows_by_append; [reflexivity|].
  unfold keypoints_in_bbox. rewrite Hc.
  unfold _convert_single_keypoint in Hk.
  destruct (effective_dims_truthy (o_label orphan) w h Hw Hh)
    as (W & H & -> & -> & Hd).
  rewrite Hd in Hk. cbn [bind] in Hk. rewrite Ha in Hk. cbn [bind] in Hk.
  destruct (v_points value) as [ps|]; [|discriminate].
  injection Ha0 as <-. cbn [getitem bind] in Hk. injection Hk as <- _.
  rewrite to_abs_extend_coords in Ha1. injection Ha1 as <-. exact Hin.
Qed.

Lemma post_process_contained (self : LSConverter) (item : Task)
  (image_id : nat) (has_draft : bool) (author_id : Z) (w h : option Q)
  (d : dict string Assoc) (orphans : list Orphan) (o o' : Out) :
  truthy w = true -> truthy h = true ->
  post_process self item image_id has_draft author_id w h d orphans o
    = Ok o' ->
  grows_by (fun a => keypoints_in_bbox a = true) o o'.
Proof.
  intros Hw Hh. unfold post_process. intros H. bind_inv H.
  apply grows_by_trans with a.
  - apply grows_by_weaken with (parent_ok image_id);
      [intros x Hx; apply Hx|].
    eapply parent_loop_checked. exact Ha.
  - revert H.
    apply (for_each_rel (grows_by (fun a => keypoints_in_bbox a = true)));
      [apply grows_by_refl|apply grows_by_trans|].
    intros s orphan s'. now apply resolve_orphan_contained.
Qed.

Lemma for_each_pred_in {S A : Type} (I : S -> Prop)
  (body : S -> A -> Res S) (l : list A) :
  (forall s a s', In a l -> I s -> body s a = Ok s' -> I s') ->
  forall s s', I s -> for_each body l s = Ok s' -> I s'.
Proof.
  induction l as [|a l IH]; intros Hbody s s' Hs H; simpl in H.
  - now injection H as <-.
  - apply bind_ok in H. destruct H as (s1 & Hstep & H).
    eapply IH; [|eapply Hbody; [now left|exact Hs|exact Hstep]|exact H].
    intros s2 b s3 Hb. apply Hbody. now right.
Qed.

Lemma label_step_settled (item_idx : nat) (item : Task) (image_id : nat)
  (has_draft : bool) (author_id : Z) (s s' : State) (label : Label) :
  nonzero_dims label -> dims_settled s ->
  label_step item_idx item image_id has_draft author_id s label = Ok s' ->
  dims_settled s'.
Proof.
  intros Hnz Hs. unfold label_step.
  destruct (negb (truthy (height s)) || negb (truthy (width s))) eqn:E.
  - destruct (reported_dims label) as [[w h]|] eqn:Er.
    + intros H. apply associate_frame in H. destruct H as (_ & _ & Hw & Hh).
      right. rewrite Hw, Hh. cbn [set_dims width height].
      destruct (Hnz w h Er) as [Hw0 Hh0].
      split; now apply truthy_nonzero.
    + intros H. injection H as <-. destruct Hs as [Hs|[Hw Hh]]; [now left|].
      rewrite Hw, Hh in E. discriminate.
  - intros H. apply associate_frame in H. destruct H as (_ & _ & Hw & Hh).
    right. rewrite Hw, Hh. apply orb_false_iff in E. destruct E as [E1 E2].
    apply negb_false_iff in E1, E2. now split.
Qed.

Lemma convert_item_contained (self : LSConverter) (s s' : State)
  (item_idx : nat) (item : Task) :
  (forall a label, In a (t_annotations item) -> In label (result a) ->
                   nonzero_dims label) ->
  all_contained s -> convert_item self s item_idx item = Ok s' ->
  all_contained s'.
Proof.
  intros Hnz Hs H. unfold convert_item in H.
  destruct (t_annotations item) as [|a0 rest] eqn:Et; [discriminate|].
  cbn [bind] in H. bind_inv H. bind_inv H. injection H as <-.
  rename a into s1, a1 into o.
  assert (Hset : dims_settled s1).
  { revert Ha. apply for_each_pred_in.
    - intros st lb st' Hin. apply label_step_settled.
      apply (Hnz a0); [now left|exact Hin].
    - left. split; reflexivity. }
  assert (Hanns : annotations_coco s1 = annotations_coco s).
  { assert (Hinv : label_inv (List.length (images_coco s)) (images_coco s)
                     (annotations_coco s) s1).
    { revert Ha. apply for_each_pred.
      - intros st lb st'. apply label_step_inv.
      - split; [reflexivity|].
        split; [exists []; simpl; now rewrite app_nil_r|].
        simpl. intros [[Hf _]|[Hf|Hf]];
          [discriminate|now elim Hf|now elim Hf]. }
    apply Hinv. }
  unfold all_contained in *. cbn [annotations_coco].
  destruct Hset as [[Hd Ho]|[Hw Hh]].
  - rewrite Hd, Ho in Ha0. cbn in Ha0. injection Ha0 as <-.
    cbn [fst]. now rewrite Hanns.
  - destruct (post_process_contained _ _ _ _ _ _ _ _ _ _ _ Hw Hh Ha0)
      as (new & Hnew & Hall).
    cbn [fst] in Hnew. rewrite Hnew, Hanns. apply Forall_app. now split.
Qed.

(** Where no label reports a zero dimension, every annotation of the
    output holds its keypoints within its box. *)
Lemma run_contained (self : LSConverter) (ann_list : list Task)
  (images : list Image) (annotations : list CocoAnn) (log : list diag) :
  export_nonzero_dims ann_list ->
  convert_to_coco self ann_list = Ok (images, annotations, log) ->
  Forall (fun a => keypoints_in_bbox a = true) annotations.
Proof.
  unfold convert_to_coco. intros Hnz H. bind_inv H. injection H as _ <- _.
  assert (Hgen : forall l s s' idx,
             (forall item, In item l -> In item ann_list) ->
             all_contained s -> convert_items self s idx l = Ok s' ->
             all_contained s').
  { induction l as [|item rest IH]; intros s s' idx Hsub Hs Hrun;
      simpl in Hrun.
    - now injection Hrun as <-.
    - bind_inv Hrun. eapply IH; [| |exact Hrun].
      + intros it Hit. apply Hsub. now right.
      + eapply convert_item_contained; [|exact Hs|exact Ha0].
        intros a1 label Ha1 Hl. apply (Hnz item a1 label); try assumption.
        apply Hsub. now left. }
  apply (Hgen ann_list _ a 0%nat (fun _ Hin => Hin)) in Ha; [exact Ha|].
  constructor.
Qed.

(** *** Tasks whose labels agree on the image size *)














(** The condition on the sizes cannot be dropped altogether.  When the
    labels of a task report 0 x 0 in their value and 100 x 100 at top
    level, the task's dimensions are zero, the orphan path tests the
    points scaled by them and emits the points scaled by the label's own
    100 x 100: the annotation carries box (0,0,50,50) and keypoints around
    (90,90). *)
Lemma orphan_keypoints_outside_box :
  exists images a log,
    convert_to_coco sample_self [zero_dims_task] = Ok (images, [a], log) /\
    keypoints_in_bbox a = false /\
    Qeq_bool (fst (fst (fst (ann_bbox a))) + snd (fst (ann_bbox a))) 50
      = true /\
    Qeq_bool (hd 0 (ann_keypoints a)) 90 = true /\
    log = [].
Proof.
  do 3 eexists. split; [vm_compute; reflexivity|].
  repeat split.
Qed.

(** * Further properties of the converter *)

(** ** Numbering and layout of the output annotations *)

Lemma appends_refl (P : CocoAnn -> Prop) (o : Out) : appends P o o.
Proof.
  exists []. split; [now rewrite app_nil_r|]. split; [constructor|reflexivity].
Qed.

Lemma appends_trans (P : CocoAnn -> Prop) (o1 o2 o3 : Out) :
  appends P o1 o2 -> appends P o2 o3 -> appends P o1 o3.
Proof.
  intros (n1 & E1 & F1 & S1) (n2 & E2 & F2 & S2). exists (n1 ++ n2).
  split; [now rewrite E2, E1, app_assoc|].
  split; [apply Forall_app; now split|].
  rewrite map_app, S1, S2, E1, !length_app, seq_app. reflexivity.
Qed.

Lemma appends_warn (P : CocoAnn -> Prop) (o : Out) (d : diag) :
  appends P o (out_warn d o).
Proof.
  exists []. split; [simpl; now rewrite app_nil_r|].
  split; [constructor|reflexivity].
Qed.

Lemma appends_one (P : CocoAnn -> Prop) (o o1 : Out) (a : CocoAnn) :
  fst o1 = fst o -> ann_id a = List.length (fst o) -> P a ->
  appends P o (out_append a o1).
Proof.
  intros E Hid Ha. exists [a]. split; [simpl; now rewrite E|].
  split; [constructor; [exact Ha|constructor]|]. simpl. now rewrite Hid.
Qed.

Lemma appends_weaken (P P' : CocoAnn -> Prop) (o o' : Out) :
  (forall a, P a -> P' a) -> appends P o o' -> appends P' o o'.
Proof.
  intros H (new & E & F & S). exists new. split; [exact E|].
  split; [eapply Forall_impl; eassumption|exact S].
Qed.

Lemma extend_coords_layout (points : list (Q * Q)) (W H : Q) :
  List.length (extend_coords points W H) = (3 * List.length points)%nat /\
  visibilities (extend_coords points W H) = repeat (2 : Q) (List.length points).
Proof.
  induction points as [|p rest [IH1 IH2]]; [split; reflexivity|].
  cbn [extend_coords visibilities List.length repeat]. rewrite IH1, IH2.
  split; [lia|reflexivity].
Qed.

Lemma convert_single_keypoint_layout (keypoint_ann : Label)
  (w h : option Q) (coords : list Q) (n : nat) :
  _convert_single_keypoint keypoint_ann w h = Ok (coords, n) ->
  List.length coords = (3 * n)%nat /\ visibilities coords = repeat (2 : Q) n.
Proof.
  unfold _convert_single_keypoint. intros H. bind_inv H.
  destruct a as [W Hh]. bind_inv H. bind_inv H.
  injection H as <- <-. apply extend_coords_layout.
Qed.

Lemma dict_get_In {K V : Type} (key_eqb : K -> K -> bool)
  (key_eqb_spec : forall a b, key_eqb a b = true <-> a = b)
  (d : dict K V) (k : K) (v : V) :
  dict_get key_eqb d k = Some v -> In (k, v) d.
Proof.
  induction d as [|[k' v'] r IH]; simpl; [discriminate|].
  destruct (key_eqb k' k) eqn:E.
  - intros H. injection H as <-. apply key_eqb_spec in E. subst. now left.
  - intros H. right. now apply IH.
Qed.

Lemma category_of_known (self : LSConverter) (name : string) (cid : nat) :
  category_of self name = Ok cid ->
  exists c, In c (_get_coco_categories self) /\ cc_id c = cid /\
            cc_name c = Some name.
Proof.
  unfold category_of.
  destruct (dict_get opt_string_eqb (poly_name_to_id self) (Some name))
    as [id|] eqn:E; [|discriminate].
  intros H. injection H as <-.
  apply (dict_get_In _ opt_string_eqb_spec) in E.
  eexists. split; [unfold _get_coco_categories; apply in_map; exact E|].
  split; reflexivity.
Qed.

Lemma new_annotation_emitted (self : LSConverter) (image_id : nat)
  (author_id : Z) (w h : option Q) (o : Out) (keypoint_ann : Label)
  (name : string) (category_id : nat) (bbox : BBox) (coords : list Q)
  (n : nat) (bbox_label : list string) :
  _convert_single_keypoint keypoint_ann w h = Ok (coords, n) ->
  category_of self name = Ok category_id ->
  emitted_ann self image_id author_id
    (new_annotation image_id author_id o category_id bbox coords n
       bbox_label).
Proof.
  intros Hk Hc. destruct bbox as [[[x y] bw] bh].
  destruct (convert_single_keypoint_layout _ _ _ _ _ Hk) as [Hl Hv].
  destruct (category_of_known _ _ _ Hc) as (c & Hin & Hid & _).
  unfold emitted_ann, coco_shape, category_known. cbn.
  repeat split; try assumption. now exists c.
Qed.

Section Numbering.
Variable self : LSConverter.
Variable item : Task.
Variable image_id : nat.
Variable has_draft : bool.
Variable author_id : Z.
Variable w h : option Q.

Lemma emit_keypoint_appends (bbox_ann : Label) (bbox : BBox) (o o' : Out)
  (keypoint_ann : Label) :
  emit_keypoint self item image_id has_draft author_id w h bbox_ann bbox o
    keypoint_ann = Ok o' ->
  appends (emitted_ann self image_id author_id) o o'.
Proof.
  unfold emit_keypoint. intros H. bind_inv H.
  destruct a as [keypoints num_keypoints].
  destruct (num_keypoints =? 4)%nat; cbn [negb] in H.
  2:{ injection H as <-. apply appends_warn. }
  destruct (all_in_bbox bbox (points_of_coords keypoints)); cbn [negb] in H.
  2:{ injection H as <-. apply appends_warn. }
  bind_inv H. bind_inv H. bind_inv H. injection H as <-.
  match goal with
  | |- appends _ _ (out_append (new_annotation _ _ ?o1 _ _ _ _ _) _) =>
      assert (E1 : fst o1 = fst o)
  end.
  { repeat match goal with
           | |- context [if ?b then _ else _] => destruct b
           end; reflexivity. }
  apply appends_one; [exact E1| |].
  - destruct bbox as [[[x y] bw] bh]. cbn. now rewrite E1.
  - eapply new_annotation_emitted; eassumption.
Qed.

Lemma emit_object_appends (o o' : Out) (entry : string * Assoc) :
  emit_object self item image_id has_draft author_id w h o entry = Ok o' ->
  appends (emitted_ann self image_id author_id) o o'.
Proof.
  unfold emit_object. destruct (a_bbox (snd entry)) as [bbox_ann|].
  - intros H. bind_inv H. revert H.
    apply (for_each_rel (appends (emitted_ann self image_id author_id)));
      [apply appends_refl|apply appends_trans|].
    intros s kp s'. apply emit_keypoint_appends.
  - intros H. injection H as <-. apply appends_refl.
Qed.

Lemma scan_boxes_appends (keypoint_ann : Label) (abs_points : list (Q * Q))
  (entries : dict string Assoc) (o o' : Out) :
  scan_boxes self image_id author_id w h keypoint_ann abs_points entries o
    = Ok (Some o') ->
  appends (emitted_ann self image_id author_id) o o'.
Proof.
  induction entries as [|[key data] rest IH]; simpl; [discriminate|].
  destruct (a_bbox data) as [bbox_ann|]; [|exact IH].
  intros H. bind_inv H.
  destruct (all_in_bbox a abs_points); [|now apply IH].
  bind_inv H. bind_inv H. bind_inv H. destruct a2 as [keypoints n].
  bind_inv H. injection H as <-.
  apply appends_one; [reflexivity| |].
  - destruct a as [[[x y] bw] bh]. reflexivity.
  - eapply new_annotation_emitted; eassumption.
Qed.

Lemma resolve_orphan_appends (d : dict string Assoc) (o o' : Out)
  (orphan : Orphan) :
  resolve_orphan self item image_id has_draft author_id w h d o orphan
    = Ok o' ->
  appends (emitted_ann self image_id author_id) o o'.
Proof.
  unfold resolve_orphan. intros H. bind_inv H. bind_inv H. bind_inv H.
  bind_inv H. destruct a2 as [o2|]; injection H as <-.
  - eapply scan_boxes_appends. exact Ha2.
  - apply appends_warn.
Qed.

Lemma post_process_appends (d : dict string Assoc) (orphans : list Orphan)
  (o o' : Out) :
  post_process self item image_id has_draft author_id w h d orphans o
    = Ok o' ->
  appends (emitted_ann self image_id author_id) o o'.
Proof.
  unfold post_process. intros H. bind_inv H.
  apply appends_trans with a.
  - revert Ha.
    apply (for_each_rel (appends (emitted_ann self image_id author_id)));
      [apply appends_refl|apply appends_trans|].
    intros s entry s'. apply emit_object_appends.
  - revert H.
    apply (for_each_rel (appends (emitted_ann self image_id author_id)));
      [apply appends_refl|apply appends_trans|].
    intros s orphan s'. apply resolve_orphan_appends.
Qed.
End Numbering.


Lemma label_loop_inv (item_idx : nat) (item : Task) (has_draft : bool)
  (author_id : Z) (labels : list Label) (s s1 : State) :
  for_each
    (label_step item_idx item (List.length (images_coco s)) has_draft
       author_id) labels (enter_item s) = Ok s1 ->
  label_inv (List.length (images_coco s)) (images_coco s)
    (annotations_coco s) s1.
Proof.
  apply for_each_pred.
  - intros st lb st'. apply label_step_inv.
  - split; [reflexivity|]. split; [exists []; simpl; now rewrite app_nil_r|].
    simpl. intros [[Hf _]|[Hf|Hf]]; [discriminate|now elim Hf|now elim Hf].
Qed.

(** What one task adds to the annotations, and how it numbers them. *)
Lemma convert_item_appends (self : LSConverter) (s s' : State)
  (item_idx : nat) (item : Task) :
  convert_item self s item_idx item = Ok s' ->
  exists author_id new,
    annotations_coco s' = annotations_coco s ++ new /\
    Forall (emitted_ann self (List.length (images_coco s)) author_id) new /\
    map ann_id new =
      seq (List.length (annotations_coco s)) (List.length new).
Proof.
  intros H. unfold convert_item in H.
  bind_inv H. bind_inv H. bind_inv H. injection H as <-.
  apply label_loop_inv in Ha0. destruct Ha0 as (Hanns & _ & _).
  apply post_process_appends in Ha1.
  destruct Ha1 as (new & Hnew & Hall & Hids). cbn [fst] in Hnew, Hids.
  exists (completed_by a), new. cbn [annotations_coco].
  rewrite Hnew, Hanns. rewrite Hanns in Hids. auto.
Qed.

Lemma convert_items_appends (self : LSConverter) (ann_list : list Task)
  (s s' : State) (item_idx : nat) :
  convert_items self s item_idx ann_list = Ok s' ->
  exists new,
    annotations_coco s' = annotations_coco s ++ new /\
    Forall (fun a => exists image_id author_id,
                emitted_ann self image_id author_id a) new /\
    map ann_id new =
      seq (List.length (annotations_coco s)) (List.length new).
Proof.
  revert s item_idx. induction ann_list as [|item rest IH];
    intros s item_idx H; simpl in H.
  - injection H as <-. exists []. split; [now rewrite app_nil_r|].
    split; [constructor|reflexivity].
  - bind_inv H. apply convert_item_appends in Ha.
    destruct Ha as (author_id & n1 & E1 & F1 & S1).
    apply IH in H. destruct H as (n2 & E2 & F2 & S2).
    exists (n1 ++ n2). split; [now rewrite E2, E1, app_assoc|]. split.
    + apply Forall_app. split; [|exact F2].
      eapply Forall_impl; [|exact F1]. intros x Hx. eauto.
    + rewrite map_app, S1, S2, E1, !length_app, seq_app. reflexivity.
Qed.

Lemma run_appends (self : LSConverter) (ann_list : list Task)
  (images : list Image) (annotations : list CocoAnn) (log : list diag) :
  convert_to_coco self ann_list = Ok (images, annotations, log) ->
  Forall (fun a => exists image_id author_id,
              emitted_ann self image_id author_id a) annotations /\
  map ann_id annotations = seq 0 (List.length annotations).
Proof.
  unfold convert_to_coco. intros H. bind_inv H. injection H as _ <- _.
  apply convert_items_appends in Ha. destruct Ha as (new & E & F & S).
  cbn in E, S. rewrite E. now split.
Qed.

(** X1: the annotations of a run are numbered 0, 1, 2, ... in the order
    of the output, across tasks and across both paths. *)
Theorem annotation_ids_sequential (self : LSConverter)
  (ann_list : list Task) (images : list Image) (annotations : list CocoAnn)
  (log : list diag) :
  convert_to_coco self ann_list = Ok (images, annotations, log) ->
  map ann_id annotations = seq 0 (List.length annotations) /\
  NoDup (map ann_id annotations).
Proof.
  intros H. apply run_appends in H. destruct H as [_ H].
  split; [exact H|]. rewrite H. apply seq_NoDup.
Qed.

Lemma annotation_ids_sequential_witness :
  exists images annotations log,
    convert_to_coco sample_self sample_export
      = Ok (images, annotations, log) /\
    map ann_id annotations = [0; 1]%nat.
Proof.
  do 3 eexists. split; [vm_compute; reflexivity|].
  refine (proj1 (annotation_ids_sequential sample_self sample_export
                   _ _ [] _)).
  vm_compute. reflexivity.
Defined.

Lemma annotations_have_coco_shape_aux (self : LSConverter)
  (ann_list : list Task) (images : list Image) (annotations : list CocoAnn)
  (log : list diag) :
  convert_to_coco self ann_list = Ok (images, annotations, log) ->
  forall a, In a annotations ->
    List.length (ann_keypoints a) = (3 * ann_num_keypoints a)%nat.
Proof.
  intros H a Hin. apply run_appends in H. destruct H as [H _].
  rewrite Forall_forall in H.
  destruct (H a Hin) as (image_id & author_id & _ & _ & Hs & _). apply Hs.
Qed.

(** X2: every annotation of a run carries three values per keypoint, the
    third being the visibility flag 2, its area is the product of the
    width and height of its box, and iscrowd is 0. *)
Theorem annotations_have_coco_shape (self : LSConverter)
  (ann_list : list Task) (images : list Image) (annotations : list CocoAnn)
  (log : list diag) :
  convert_to_coco self ann_list = Ok (images, annotations, log) ->
  forall a, In a annotations ->
    List.length (ann_keypoints a) = (3 * ann_num_keypoints a)%nat /\
    visibilities (ann_keypoints a) = repeat (2 : Q) (ann_num_keypoints a) /\
    ann_area a = snd (fst (ann_bbox a)) * snd (ann_bbox a) /\
    ann_iscrowd a = 0%nat.
Proof.
  intros H a Hin. apply run_appends in H. destruct H as [H _].
  rewrite Forall_forall in H.
  destruct (H a Hin) as (image_id & author_id & _ & _ & Hs & _). exact Hs.
Qed.

Lemma annotations_have_coco_shape_witness :
  exists images a1 a2 log,
    convert_to_coco sample_self sample_export
      = Ok (images, [a1; a2], log) /\
    List.length (ann_keypoints a2) = (3 * ann_num_keypoints a2)%nat.
Proof.
  do 4 eexists. split; [vm_compute; reflexivity|].
  eapply (annotations_have_coco_shape sample_self sample_export _ _ []).
  - vm_compute. reflexivity.
  - right. left. reflexivity.
Defined.

(** X3: the category id of every annotation of a run is the id of an
    entry of the category list that [_get_coco_categories] puts in the
    same output. *)
Theorem annotation_category_emitted (self : LSConverter)
  (ann_list : list Task) (images : list Image) (annotations : list CocoAnn)
  (log : list diag) :
  convert_to_coco self ann_list = Ok (images, annotations, log) ->
  forall a, In a annotations ->
    exists c, In c (_get_coco_categories self) /\
              cc_id c = ann_category_id a.
Proof.
  intros H a Hin. apply run_appends in H. destruct H as [H _].
  rewrite Forall_forall in H.
  destruct (H a Hin) as (image_id & author_id & _ & _ & _ & Hc). exact Hc.
Qed.

Lemma annotation_category_emitted_witness :
  exists images a1 a2 log,
    convert_to_coco sample_self sample_export
      = Ok (images, [a1; a2], log) /\
    exists c, In c (_get_coco_categories sample_self) /\
              cc_id c = ann_category_id a2.
Proof.
  do 4 eexists. split; [vm_compute; reflexivity|].
  eapply (annotation_category_emitted sample_self sample_export _ _ []).
  - vm_compute. reflexivity.
  - right. left. reflexivity.
Defined.


(** ** The category list of the output *)

Section DictKeys.
Context {K V : Type} (key_eqb : K -> K -> bool).
Hypothesis key_eqb_spec : forall a b, key_eqb a b = true <-> a = b.

Lemma dict_set_keys_In (d : dict K V) (k k' : K) (v : V) :
  In k' (dict_keys (dict_set key_eqb d k v)) <->
  k' = k \/ In k' (dict_keys d).
Proof.
  unfold dict_keys. induction d as [|[k0 v0] r IH]; simpl.
  - split; [intros [H|[]]; left; now symmetry|intros [H|[]]; left; now symmetry].
  - destruct (key_eqb k0 k) eqn:E; simpl.
    + apply key_eqb_spec in E. subst k0.
      split; [intros [H|H]; [left; now symmetry|now right; right]|].
      intros [H|[H|H]]; [left; now symmetry|now left|now right].
    + rewrite IH. split; intros H; intuition auto.
Qed.

Lemma dict_set_keys_NoDup (d : dict K V) (k : K) (v : V) :
  NoDup (dict_keys d) -> NoDup (dict_keys (dict_set key_eqb d k v)).
Proof.
  induction d as [|[k0 v0] r IH]; simpl; intros H.
  - constructor; [intros []|constructor].
  - inversion H as [|x l Hnotin Hnd]; subst.
    destruct (key_eqb k0 k) eqn:E; simpl.
    + now constructor.
    + constructor; [|now apply IH].
      intros Hin. apply dict_set_keys_In in Hin. destruct Hin as [->|Hin].
      * rewrite (proj2 (key_eqb_spec k k) eq_refl) in E. discriminate.
      * now apply Hnotin.
Qed.

Lemma dict_set_values_In (d : dict K V) (k k' : K) (v v' : V) :
  In (k', v') (dict_set key_eqb d k v) -> (k' = k /\ v' = v) \/ In (k', v') d.
Proof.
  induction d as [|[k0 v0] r IH]; simpl.
  - intros [H|[]]. injection H as <- <-. now left.
  - destruct (key_eqb k0 k) eqn:E; simpl.
    + apply key_eqb_spec in E. subst k0.
      intros [H|H]; [injection H as <- <-; now left|now right; right].
    + intros [H|H]; [now right; left|].
      destruct (IH H) as [Heq|Hin]; [now left|now right; right].
Qed.

Lemma In_dict_get (d : dict K V) (k : K) (v : V) :
  NoDup (dict_keys d) -> In (k, v) d -> dict_get key_eqb d k = Some v.
Proof.
  induction d as [|[k0 v0] r IH]; simpl; intros Hnd Hin; [contradiction|].
  inversion Hnd as [|x l Hnotin Hnd']; subst.
  destruct Hin as [H|H].
  - injection H as -> ->. now rewrite (proj2 (key_eqb_spec k k) eq_refl).
  - destruct (key_eqb k0 k) eqn:E.
    + apply key_eqb_spec in E. subst k0. exfalso. apply Hnotin.
      unfold dict_keys. change k with (fst (k, v)). now apply in_map.
    + now apply IH.
Qed.
End DictKeys.

(** Keys and values of the name-to-id map of one taxonomy. *)
Lemma build_taxonomy_ids_inv (ty : string) (kh : bool)
  (labels : list ConfigLabel) (idx : nat) (cats : list Category)
  (ids : dict (option string) nat) :
  NoDup (dict_keys ids) ->
  let ids' := snd (build_taxonomy ty kh labels idx cats ids) in
  NoDup (dict_keys ids') /\
  (forall name, In name (dict_keys ids') <->
                In name (dict_keys ids) \/ In name (map cl_value labels)) /\
  (forall name id, In (name, id) ids' ->
                   In (name, id) ids \/
                   (idx <= id < idx + List.length labels)%nat).
Proof.
  revert idx cats ids. induction labels as [|l rest IH];
    intros idx cats ids Hnd; cbn [build_taxonomy].
  - cbn. split; [exact Hnd|]. split; [intros name; tauto|intros; now left].
  - destruct (IH (S idx)
                (cats ++ [mkCategory idx (cl_value l) (cl_background l)
                            (if kh then cl_hotkey l else None) ty])
                (dict_set opt_string_eqb ids (cl_value l) idx))
      as (H1 & H2 & H3).
    { now apply (dict_set_keys_NoDup _ opt_string_eqb_spec). }
    cbv zeta. split; [exact H1|]. split.
    + intros name. rewrite H2.
      rewrite (dict_set_keys_In _ opt_string_eqb_spec). cbn [map In].
      split; intros H; intuition (subst; auto).
    + intros name id Hin. destruct (H3 name id Hin) as [Hset|Hb].
      * apply (dict_set_values_In _ opt_string_eqb_spec) in Hset.
        destruct Hset as [[_ ->]|Hold]; [right; cbn; lia|now left].
      * right. cbn [List.length]. lia.
Qed.

(** X4: the category list of the output has one entry per distinct
    polygon label name of the configuration, under pairwise distinct
    names; every entry carries the id the name-to-id map gives its name
    (a number from 1 to the number of polygon labels), the four keypoint
    names kpt0..kpt3 and the quadrilateral skeleton; a name that occurs
    several times is listed once, with the id of its last occurrence. *)
Theorem coco_categories_distinct (rect_labels poly_labels : list ConfigLabel) :
  let self := init rect_labels poly_labels in
  let cats := _get_coco_categories self in
  NoDup (map cc_name cats) /\
  (forall name, In name (map cc_name cats) <->
                In name (map cl_value poly_labels)) /\
  (List.length cats <= List.length poly_labels)%nat /\
  (forall c, In c cats ->
     dict_get opt_string_eqb (poly_name_to_id self) (cc_name c) =
       Some (cc_id c) /\
     (1 <= cc_id c <= List.length poly_labels)%nat /\
     cc_keypoints c = ["kpt0"; "kpt1"; "kpt2"; "kpt3"] /\
     cc_skeleton c = [[0; 1]; [1; 2]; [2; 3]; [3; 0]]%nat) /\
  (forall l1 label l2,
     poly_labels = l1 ++ label :: l2 ->
     (forall l, In l l2 -> cl_value l <> cl_value label) ->
     exists c, In c cats /\ cc_name c = cl_value label /\
               cc_id c = S (List.length l1)).
Proof.
  intros self cats. subst self cats.
  destruct (init_fields rect_labels poly_labels) as (_ & _ & _ & Hpm).
  unfold _get_coco_categories. rewrite Hpm.
  destruct (build_taxonomy_ids_inv "polygon" true poly_labels 1 [] []
              (NoDup_nil _)) as (Hnd & Hkeys & Hvals).
  cbv zeta in Hnd, Hkeys, Hvals.
  set (pm := snd (build_taxonomy "polygon" true poly_labels 1 [] [])) in *.
  assert (Hnames : map cc_name
            (map (fun item : option string * nat =>
                    mkCocoCategory (snd item) (fst item) "tm" keypoint_names
                      [[0; 1]; [1; 2]; [2; 3]; [3; 0]]%nat) pm)
          = dict_keys pm).
  { unfold dict_keys. rewrite map_map. reflexivity. }
  split; [now rewrite Hnames|].
  split; [intros name; rewrite Hnames, Hkeys; cbn; tauto|].
  split.
  { rewrite length_map.
    rewrite <- (length_map cl_value poly_labels).
    rewrite <- (length_map fst pm). apply NoDup_incl_length; [exact Hnd|].
    intros name Hin. apply Hkeys in Hin. destruct Hin as [[]|Hin]. exact Hin. }
  split.
  - intros c Hc. apply in_map_iff in Hc. destruct Hc as ([name id] & <- & Hin).
    cbn [cc_name cc_id cc_keypoints cc_skeleton fst snd].
    split; [now apply (In_dict_get _ opt_string_eqb_spec)|].
    split; [|split; reflexivity].
    destruct (Hvals name id Hin) as [[]|Hb]. lia.
  - intros l1 label l2 -> Hlast.
    assert (Hget := build_taxonomy_last_wins "polygon" true l1 l2 label 1
                      Hlast).
    fold pm in Hget.
    apply (dict_get_In _ opt_string_eqb_spec) in Hget.
    eexists. split; [apply in_map; exact Hget|]. split; reflexivity.
Qed.

Lemma coco_categories_distinct_witness :
  let dup := mkConfigLabel (Some "front") None None in
  let cats :=
    _get_coco_categories
      (init [] [dup; mkConfigLabel (Some "back") None None; dup]) in
  NoDup (map cc_name cats) /\
  exists c, In c cats /\ cc_name c = Some "front" /\ cc_id c = 3%nat.
Proof.
  intros dup cats.
  destruct (coco_categories_distinct []
              [dup; mkConfigLabel (Some "back") None None; dup])
    as (Hnd & _ & _ & _ & Hlast).
  split; [exact Hnd|].
  apply (Hlast [dup; mkConfigLabel (Some "back") None None] dup []).
  - reflexivity.
  - intros l [].
Defined.


(** ** Dimensions and image entries *)

Lemma label_loop_no_dims (item_idx : nat) (item : Task) (image_id : nat)
  (has_draft : bool) (author_id : Z) (labels : list Label) (s : State) :
  (forall label, In label labels -> reported_dims label = None) ->
  height s = None ->
  for_each (label_step item_idx item image_id has_draft author_id) labels s =
  Ok (mkState (images_coco s) (annotations_coco s)
        (warnings s ++ map (fun _ => DimsNotFound (t_image item)) labels)
        (width s) (height s) (annotations_dict s)
        (orphan_keypoints_list s)).
Proof.
  revert s. induction labels as [|label rest IH]; intros s Hnone Hh.
  - cbn. rewrite app_nil_r. now destruct s.
  - cbn [for_each]. unfold label_step at 1. rewrite Hh. cbn [truthy negb orb].
    rewrite (Hnone label) by now left. cbn [bind].
    rewrite IH; [|intros l Hl; apply Hnone; now right|exact Hh].
    cbn. unfold image_name. rewrite <- app_assoc, ?Hh. reflexivity.
Qed.

Lemma log_gains_repeat (d : diag) (log : list diag) {A : Type}
  (l : list A) :
  l <> [] -> log_gains d log (log ++ map (fun _ => d) l).
Proof.
  intros Hl x. rewrite in_app_iff, in_map_iff. split.
  - intros [H|(y & Hy & _)]; [now left|right; now symmetry].
  - intros [H | ->]; [now left|right].
    destruct l as [|y l']; [congruence|].
    exists y. split; [reflexivity|now left].
Qed.

(** X5: when no label of a task's first annotation reports both
    dimensions (in its value or at top level), the task adds no image and
    no annotation and ends without dimensions, objects or orphans, and the
    run goes on.  The only diagnostic it logs is the missing-dimension
    warning for its image: none for an empty result list, and otherwise
    that warning is in the log afterwards and nothing else is new. *)
Theorem task_without_dimensions (self : LSConverter) (s : State)
  (item_idx : nat) (item : Task) (a : Annotation) (rest : list Annotation) :
  t_annotations item = a :: rest ->
  (forall label, In label (result a) -> reported_dims label = None) ->
  exists s',
    convert_item self s item_idx item = Ok s' /\
    images_coco s' = images_coco s /\
    annotations_coco s' = annotations_coco s /\
    width s' = None /\ height s' = None /\
    annotations_dict s' = [] /\ orphan_keypoints_list s' = [] /\
    (result a = [] -> warnings s' = warnings s) /\
    (result a <> [] ->
     log_gains (DimsNotFound (t_image item)) (warnings s) (warnings s')).
Proof.
  intros Ha Hnone. unfold convert_item. rewrite Ha. cbn [bind].
  rewrite label_loop_no_dims by (exact Hnone || reflexivity).
  cbn. eexists. split; [reflexivity|]. cbn.
  do 6 (split; [reflexivity|]). split.
  - intros ->. cbn. now rewrite app_nil_r.
  - intros Hne. now apply log_gains_repeat.
Qed.

(** Two labels that each carry one dimension only, hence produce the same
    warning text. *)
Lemma task_without_dimensions_witness :
  let bare := mkLabel "B1" "rectanglelabels" None None (Some 100)
    (Some (mkValue (Some 10) (Some 10) (Some 50) (Some 50) None (Some 100)
             None (Some ["tm"]) None)) in
  exists s',
    convert_item sample_self (mkState [] [] [] None None [] []) 0
      (sample_task [bare; bare]) = Ok s' /\
    images_coco s' = [] /\ annotations_coco s' = [] /\
    log_gains (DimsNotFound "a.jpg") [] (warnings s').
Proof.
  intros bare.
  destruct (task_without_dimensions sample_self
              (mkState [] [] [] None None [] []) 0
              (sample_task [bare; bare]) (mkAnnotation 3 [bare; bare]) [])
    as (s' & H1 & H2 & H3 & _ & _ & _ & _ & _ & H4).
  - reflexivity.
  - intros label [<-|[<-|[]]]; reflexivity.
  - exists s'. repeat split; try assumption; apply H4; try discriminate;
      assumption.
Defined.

Lemma label_step_one_image (item_idx : nat) (item : Task)
  (has_draft : bool) (author_id : Z) (imgs0 : list Image) (s s' : State)
  (label : Label) :
  nonzero_dims label -> one_image (List.length imgs0) imgs0 s ->
  label_step item_idx item (List.length imgs0) has_draft author_id s label
    = Ok s' ->
  one_image (List.length imgs0) imgs0 s'.
Proof.
  intros Hnz Hs. unfold label_step.
  destruct (negb (truthy (height s)) || negb (truthy (width s))) eqn:E.
  - destruct Hs as [[Hi _]|(im & _ & _ & Hh & Hw)];
      [|rewrite Hh, Hw in E; discriminate].
    destruct (reported_dims label) as [[w h]|] eqn:Er.
    + intros H. apply associate_frame in H.
      destruct H as (Hi' & _ & Hw' & Hh').
      cbn [set_dims images_coco width height] in Hi', Hw', Hh'.
      right. eexists. split; [rewrite Hi', Hi; reflexivity|].
      split; [reflexivity|]. rewrite Hw', Hh'.
      destruct (Hnz w h Er). split; now apply truthy_nonzero.
    + intros H. injection H as <-. left. cbn. split; [exact Hi|].
      apply orb_true_iff in E. rewrite !negb_true_iff in E. exact E.
  - intros H. apply associate_frame in H. destruct H as (Hi' & _ & Hw' & Hh').
    apply orb_false_iff in E. rewrite !negb_false_iff in E.
    destruct E as [Eh Ew].
    destruct Hs as [[_ [Hf|Hf]]|(im & Hi & Hid & _ & _)]; try congruence.
    right. exists im. rewrite Hi', Hw', Hh'. auto.
Qed.

Lemma convert_item_one_image (self : LSConverter) (s s' : State)
  (item_idx : nat) (item : Task) :
  (forall a label, In a (t_annotations item) -> In label (result a) ->
                   nonzero_dims label) ->
  convert_item self s item_idx item = Ok s' ->
  images_coco s' = images_coco s \/
  exists im, images_coco s' = images_coco s ++ [im] /\
             img_id im = List.length (images_coco s).
Proof.
  intros Hnz H. unfold convert_item in H.
  destruct (t_annotations item) as [|a0 rest] eqn:Et; [discriminate|].
  cbn [bind] in H. bind_inv H. bind_inv H. injection H as <-.
  cbn [images_coco].
  assert (Hone : one_image (List.length (images_coco s)) (images_coco s) a).
  { revert Ha. apply for_each_pred_in.
    - intros st lb st' Hin. apply label_step_one_image.
      apply (Hnz a0); [now left|exact Hin].
    - left. split; [reflexivity|now left]. }
  destruct Hone as [[Hi _]|(im & Hi & Hid & _)]; [now left|].
  right. now exists im.
Qed.

(** X6: in an export where no label reports a zero dimension, every task
    adds at most one image entry, and the image ids of the output are
    0, 1, 2, ... without repetition. *)
Theorem image_ids_sequential (self : LSConverter) (ann_list : list Task)
  (images : list Image) (annotations : list CocoAnn) (log : list diag) :
  export_nonzero_dims ann_list ->
  convert_to_coco self ann_list = Ok (images, annotations, log) ->
  map img_id images = seq 0 (List.length images) /\
  NoDup (map img_id images) /\
  (List.length images <= List.length ann_list)%nat.
Proof.
  unfold convert_to_coco. intros Hnz H. bind_inv H. injection H as <- _ _.
  assert (Hgen : forall l s s' idx,
             (forall item, In item l -> In item ann_list) ->
             map img_id (images_coco s) = seq 0 (List.length (images_coco s)) ->
             convert_items self s idx l = Ok s' ->
             map img_id (images_coco s') =
               seq 0 (List.length (images_coco s')) /\
             (List.length (images_coco s') <=
              List.length (images_coco s) + List.length l)%nat).
  { induction l as [|item rest IH]; intros s s' idx Hsub Hs Hrun;
      simpl in Hrun.
    - injection Hrun as <-. split; [exact Hs|lia].
    - bind_inv Hrun.
      assert (Hstep : map img_id (images_coco a0) =
                        seq 0 (List.length (images_coco a0)) /\
                      (List.length (images_coco a0) <=
                       List.length (images_coco s) + 1)%nat).
      { destruct (convert_item_one_image self s a0 idx item) as [E|(im & E & Hid)].
        - intros a1 label Ha1 Hl. apply (Hnz item a1 label); try assumption.
          apply Hsub. now left.
        - exact Ha0.
        - rewrite E. split; [exact Hs|lia].
        - rewrite E, map_app, length_app, seq_app, Hs. cbn. rewrite Hid.
          split; [reflexivity|lia]. }
      destruct Hstep as [Hs1 Hl1].
      destruct (IH a0 s' (S idx)) as [Hs2 Hl2]; try assumption.
      + intros it Hit. apply Hsub. now right.
      + split; [exact Hs2|]. cbn [List.length]. lia. }
  apply (Hgen ann_list _ a 0%nat (fun _ Hin => Hin)) in Ha;
    [|reflexivity]. destruct Ha as [Hs Hl].
  cbn in Hl. split; [exact Hs|]. split; [|exact Hl].
  rewrite Hs. apply seq_NoDup.
Qed.

Lemma sample_export_nonzero : export_nonzero_dims sample_export.
Proof.
  intros item a label Hitem Ha Hl w h Hr.
  assert (Hwh : w = 100 /\ h = 100).
  { destruct Hitem as [<-|[<-|[]]]; destruct Ha as [<-|[]];
      destruct Hl as [<-|[<-|[]]]; cbn in Hr; injection Hr as <- <-;
      now split. }
  destruct Hwh as [-> ->]. split; intros H; discriminate H.
Qed.

Lemma image_ids_sequential_witness :
  exists images annotations log,
    convert_to_coco sample_self sample_export
      = Ok (images, annotations, log) /\
    map img_id images = [0; 1]%nat.
Proof.
  do 3 eexists. split; [vm_compute; reflexivity|].
  refine (proj1 (image_ids_sequential sample_self sample_export _ _ []
                   sample_export_nonzero _)).
  vm_compute. reflexivity.
Defined.


(** ** Association of polygon labels *)

Lemma label_step_known (item_idx : nat) (item : Task) (image_id : nat)
  (has_draft : bool) (author_id : Z) (s : State) (label : Label) :
  truthy (height s) = true -> truthy (width s) = true ->
  label_step item_idx item image_id has_draft author_id s label =
  associate item_idx item image_id has_draft author_id s label.
Proof. intros Hh Hw. unfold label_step. now rewrite Hh, Hw. Qed.

(** The state [associate] is run on by [label_step]. *)
Lemma label_step_associate (item_idx : nat) (item : Task) (image_id : nat)
  (has_draft : bool) (author_id : Z) (s : State) (label : Label) :
  (truthy (height s) = true /\ truthy (width s) = true) \/
    reported_dims label <> None ->
  exists s0,
    label_step item_idx item image_id has_draft author_id s label =
      associate item_idx item image_id has_draft author_id s0 label /\
    annotations_dict s0 = annotations_dict s /\
    orphan_keypoints_list s0 = orphan_keypoints_list s /\
    annotations_coco s0 = annotations_coco s /\
    warnings s0 = warnings s.
Proof.
  intros Hdims. unfold label_step.
  destruct (negb (truthy (height s)) || negb (truthy (width s))) eqn:E.
  - destruct Hdims as [[Hh Hw]|Hrep]; [rewrite Hh, Hw in E; discriminate|].
    destruct (reported_dims label) as [[w h]|]; [|congruence].
    eexists; split; [reflexivity|]. repeat split.
  - exists s. repeat split.
Qed.

(** A polygon label that is not malformed and names a parent. *)
Lemma associate_linked (item_idx : nat) (item : Task) (image_id : nat)
  (has_draft : bool) (author_id : Z) (s : State) (label : Label)
  (value : Value) (c : Ascii.ascii) (p : string) :
  t_annotations item <> [] ->
  l_type label = "polygonlabels" ->
  l_value label = Some value -> v_x value = None ->
  l_parentID label = Some (String c p) ->
  associate item_idx item image_id has_draft author_id s label =
  Ok (set_dict
        (dict_set String.eqb (annotations_dict s) (String c p)
           match dict_get String.eqb (annotations_dict s) (String c p) with
           | Some data =>
               mkAssoc (a_image_id data) (a_bbox data)
                 (a_keypoints data ++ [label]) (a_has_draft data)
           | None => mkAssoc image_id None [label] has_draft
           end) s).
Proof.
  intros Hann Hty Hv Hx Hp. unfold associate.
  destruct (t_annotations item); [congruence|].
  rewrite Hty. cbn [String.eqb Ascii.eqb Bool.eqb].
  rewrite Hv. cbn [getitem bind]. rewrite Hx, Hp.
  now destruct (dict_get String.eqb (annotations_dict s) (String c p)).
Qed.

(** X7: a well-formed polygon label that reaches the associator never
    raises.  With a non-empty parentID it is appended to the keypoint sets
    of the object keyed by the parent, whose box, key and position stay as
    they are, or, when there is no such object, a placeholder without box
    holding just this set is added at the end; the orphan queue is left
    alone.  With no parentID, or an empty one, the dictionary is left
    alone and the label is appended to the orphan queue. *)
Theorem polygon_label_association (item_idx : nat) (item : Task)
  (image_id : nat) (has_draft : bool) (author_id : Z) (s : State)
  (label : Label) (value : Value) :
  t_annotations item <> [] ->
  l_type label = "polygonlabels" ->
  l_value label = Some value -> v_x value = None ->
  (truthy (height s) = true /\ truthy (width s) = true) \/
    reported_dims label <> None ->
  exists s',
    label_step item_idx item image_id has_draft author_id s label = Ok s' /\
    annotations_coco s' = annotations_coco s /\
    warnings s' = warnings s /\
    match l_parentID label with
    | Some (String c p) =>
        orphan_keypoints_list s' = orphan_keypoints_list s /\
        match dict_get String.eqb (annotations_dict s) (String c p) with
        | Some data =>
            dict_get String.eqb (annotations_dict s') (String c p) =
              Some (mkAssoc (a_image_id data) (a_bbox data)
                      (a_keypoints data ++ [label]) (a_has_draft data)) /\
            dict_keys (annotations_dict s') = dict_keys (annotations_dict s) /\
            (forall k, k <> String c p ->
                dict_get String.eqb (annotations_dict s') k =
                dict_get String.eqb (annotations_dict s) k)
        | None =>
            annotations_dict s' =
            annotations_dict s ++
              [(String c p, mkAssoc image_id None [label] has_draft)]
        end
    | _ =>
        annotations_dict s' = annotations_dict s /\
        exists orphan,
          orphan_keypoints_list s' = orphan_keypoints_list s ++ [orphan] /\
          o_label orphan = label /\ o_image_id orphan = image_id
    end.
Proof.
  intros Hann Hty Hv Hx Hdims.
  destruct (label_step_associate item_idx item image_id has_draft author_id
              s label Hdims) as (s0 & -> & Hd & Ho & Ha & Hw).
  destruct (l_parentID label) as [[|c p]|] eqn:Hp.
  - unfold associate. destruct (t_annotations item); [congruence|].
    rewrite Hty. cbn [String.eqb Ascii.eqb Bool.eqb].
    rewrite Hv. cbn [getitem bind]. rewrite Hx, Hp.
    eexists. split; [reflexivity|]. cbn. rewrite Ho.
    repeat split; try assumption. eexists. repeat split.
  - rewrite (associate_linked _ _ _ _ _ s0 label value c p Hann Hty Hv Hx Hp).
    eexists. split; [reflexivity|].
    cbn [set_dict annotations_coco warnings orphan_keypoints_list
           annotations_dict]. rewrite Hd.
    split; [exact Ha|]. split; [exact Hw|]. split; [exact Ho|].
    destruct (dict_get String.eqb (annotations_dict s) (String c p))
      as [data|] eqn:Eget.
    + split; [apply (dict_get_set_same _ string_eqb_spec)|].
      split; [exact (dict_set_present_keys _ _ _ _ data Eget)|].
      intros k Hk. now apply (dict_get_set_other _ string_eqb_spec).
    + now apply dict_set_absent.
  - unfold associate. destruct (t_annotations item); [congruence|].
    rewrite Hty. cbn [String.eqb Ascii.eqb Bool.eqb].
    rewrite Hv. cbn [getitem bind]. rewrite Hx, Hp.
    eexists. split; [reflexivity|]. cbn. rewrite Ho.
    repeat split; try assumption. eexists. repeat split.
Qed.

Lemma polygon_label_association_witness :
  let kp := sample_poly "P1" (Some "B1") "side"
              [(20, 20); (20, 30); (30, 30); (30, 20)] in
  let s := mkState [] [] [] (Some 100) (Some 100) [] [] in
  exists s',
    label_step 0 sample_linked_task 0 false 3 s kp = Ok s' /\
    annotations_dict s' = [("B1", mkAssoc 0 None [kp] false)] /\
    orphan_keypoints_list s' = [].
Proof.
  intros kp s.
  destruct (polygon_label_association 0 sample_linked_task 0 false 3 s kp
    (mkValue None None None None
       (Some [(20, 20); (20, 30); (30, 30); (30, 20)]) None None None
       (Some ["side"])))
    as (s' & Hstep & _ & _ & Ho & Hd).
  - discriminate.
  - reflexivity.
  - reflexivity.
  - reflexivity.
  - left. split; reflexivity.
  - exists s'. split; [exact Hstep|]. split; [exact Hd|exact Ho].
Defined.

Lemma skipped_with_warn (d : diag) (s : State) : skipped_with d s (warn d s).
Proof.
  unfold skipped_with. cbn. repeat split; try reflexivity.
  - intros [H|[H|[]]]%in_app_iff; [now left|right; now symmetry].
  - intros [H | ->]; apply in_app_iff; [now left|right; now left].
Qed.

(** X8: once the dimensions of the task are known, a box label that
    carries a point list and a polygon label that carries an x are passed
    over: no object, orphan, image or annotation is added and the
    dimensions stay, the matching diagnostic is in the log afterwards and
    nothing else is new in it.  A label of any other type is passed over
    in the same way, with one entry written through the logger. *)
Theorem rejected_label_only_warns (item_idx : nat) (item : Task)
  (image_id : nat) (has_draft : bool) (author_id : Z) (s : State)
  (label : Label) :
  t_annotations item <> [] ->
  truthy (height s) = true -> truthy (width s) = true ->
  ((l_type label = "rectanglelabels" /\
    exists value points,
      l_value label = Some value /\ v_points value = Some points) ->
   exists s',
     label_step item_idx item image_id has_draft author_id s label = Ok s' /\
     skipped_with (RectHasPoints author_id (t_id item) has_draft) s s') /\
  ((l_type label = "polygonlabels" /\
    exists value x, l_value label = Some value /\ v_x value = Some x) ->
   exists s',
     label_step item_idx item image_id has_draft author_id s label = Ok s' /\
     skipped_with (PolyHasX author_id (t_id item) has_draft) s s') /\
  (l_type label <> "rectanglelabels" /\ l_type label <> "polygonlabels" ->
   label_step item_idx item image_id has_draft author_id s label =
   Ok (warn UnknownType s)).
Proof.
  intros Hann Hh Hw. rewrite label_step_known by assumption.
  unfold associate. destruct (t_annotations item); [congruence|].
  split; [|split].
  - intros (Hty & value & points & Hv & Hp). rewrite Hty.
    cbn [String.eqb Ascii.eqb Bool.eqb]. rewrite Hv. cbn [getitem bind].
    rewrite Hp. eexists. split; [reflexivity|]. apply skipped_with_warn.
  - intros (Hty & value & x & Hv & Hx). rewrite Hty.
    cbn [String.eqb Ascii.eqb Bool.eqb]. rewrite Hv. cbn [getitem bind].
    rewrite Hx. eexists. split; [reflexivity|]. apply skipped_with_warn.
  - intros [Hr Hp].
    apply String.eqb_neq in Hr, Hp. now rewrite Hr, Hp.
Qed.

(** A second box label with a point list in a task whose log already
    holds the warning of the first, and a label of an unknown type. *)
Lemma rejected_label_only_warns_witness :
  let s := mkState [] [] [RectHasPoints 3 7 false]
             (Some 100) (Some 100) [] [] in
  let bad := mkLabel "B9" "rectanglelabels" None (Some 100) (Some 100)
    (Some (mkValue (Some 10) (Some 10) (Some 50) (Some 50)
             (Some [(20, 20)]) None None (Some ["tm"]) None)) in
  (exists s',
      label_step 0 sample_linked_task 0 false 3 s bad = Ok s' /\
      skipped_with (RectHasPoints 3 7 false) s s') /\
  label_step 0 sample_linked_task 0 false 3 s
    (mkLabel "K1" "keypointlabels" None None None None)
  = Ok (warn UnknownType s).
Proof.
  intros s bad. split.
  - destruct (rejected_label_only_warns 0 sample_linked_task 0 false 3 s bad)
      as (Hrect & _ & _); [discriminate|reflexivity|reflexivity|].
    apply Hrect. split; [reflexivity|].
    do 2 eexists. split; reflexivity.
  - destruct (rejected_label_only_warns 0 sample_linked_task 0 false 3 s
                (mkLabel "K1" "keypointlabels" None None None None))
      as (_ & _ & Hother); [discriminate|reflexivity|reflexivity|].
    apply Hother. split; discriminate.
Defined.


Lemma dict_set_set {K V : Type} (key_eqb : K -> K -> bool)
  (key_eqb_spec : forall a b, key_eqb a b = true <-> a = b)
  (d : dict K V) (k : K) (v1 v2 : V) :
  dict_set key_eqb (dict_set key_eqb d k v1) k v2 = dict_set key_eqb d k v2.
Proof.
  induction d as [|[k0 v0] r IH]; simpl.
  - now rewrite (proj2 (key_eqb_spec k k) eq_refl).
  - destruct (key_eqb k0 k) eqn:E; simpl; rewrite E; [reflexivity|].
    now rewrite IH.
Qed.

(** X9: a box label and a polygon label that names it as parent can come
    in either order: with the dimensions of the task known, processing
    the box and then its keypoint set, or the keypoint set (which leaves a
    placeholder) and then the box, gives the same state, in which the
    object keyed by the box identifier has the box and ends with that
    keypoint set. *)
Theorem box_and_child_commute (item_idx : nat) (item : Task)
  (image_id : nat) (has_draft : bool) (author_id : Z) (s : State)
  (box poly : Label) (vb vp : Value) :
  t_annotations item <> [] ->
  truthy (height s) = true -> truthy (width s) = true ->
  l_type box = "rectanglelabels" ->
  l_value box = Some vb -> v_points vb = None ->
  l_type poly = "polygonlabels" ->
  l_value poly = Some vp -> v_x vp = None ->
  l_parentID poly = Some (l_id box) -> l_id box <> "" ->
  for_each (label_step item_idx item image_id has_draft author_id)
    [box; poly] s =
  for_each (label_step item_idx item image_id has_draft author_id)
    [poly; box] s /\
  exists s' data before,
    for_each (label_step item_idx item image_id has_draft author_id)
      [box; poly] s = Ok s' /\
    dict_get String.eqb (annotations_dict s') (l_id box) = Some data /\
    a_bbox data = Some box /\ a_keypoints data = before ++ [poly].
Proof.
  intros Hann Hh Hw Htb Hvb Hpb Htp Hvp Hxp Hpar Hne.
  destruct (l_id box) as [|c p] eqn:Hid; [congruence|].
  cbn [for_each].
  rewrite (label_step_known _ _ _ _ _ s box Hh Hw).
  rewrite (label_step_known _ _ _ _ _ s poly Hh Hw).
  rewrite (associate_box _ _ _ _ _ s box vb Hann Htb Hvb Hpb).
  rewrite (associate_linked _ _ _ _ _ s poly vp c p Hann Htp Hvp Hxp Hpar).
  cbn [bind].
  rewrite !label_step_known by assumption.
  rewrite (associate_box _ _ _ _ _ _ box vb Hann Htb Hvb Hpb).
  rewrite (associate_linked _ _ _ _ _ _ poly vp c p Hann Htp Hvp Hxp Hpar).
  rewrite Hid. cbn [set_dict annotations_dict images_coco annotations_coco
                      warnings width height orphan_keypoints_list].
  rewrite !(dict_get_set_same _ string_eqb_spec).
  rewrite !(dict_set_set _ string_eqb_spec).
  cbn [bind for_each].
  destruct (dict_get String.eqb (annotations_dict s) (String c p))
    as [data|] eqn:Eget; cbn [a_image_id a_bbox a_keypoints a_has_draft app].
  - split; [reflexivity|].
    eexists. eexists. exists (a_keypoints data).
    split; [reflexivity|]. cbn [set_dict annotations_dict].
    rewrite (dict_get_set_same _ string_eqb_spec). repeat split.
  - split; [reflexivity|].
    eexists. eexists. exists [].
    split; [reflexivity|]. cbn [set_dict annotations_dict].
    rewrite (dict_get_set_same _ string_eqb_spec). repeat split.
Qed.

Lemma box_and_child_commute_witness :
  let box := sample_box "B1" 10 10 50 50 in
  let kp := sample_poly "P1" (Some "B1") "side"
              [(20, 20); (20, 30); (30, 30); (30, 20)] in
  let s := mkState [] [] [] (Some 100) (Some 100) [] [] in
  for_each (label_step 0 sample_linked_task 0 false 3) [box; kp] s =
  for_each (label_step 0 sample_linked_task 0 false 3) [kp; box] s.
Proof.
  intros box kp s.
  apply (box_and_child_commute 0 sample_linked_task 0 false 3 s box kp
           (mkValue (Some 10) (Some 10) (Some 50) (Some 50) None None None
              (Some ["tm"]) None)
           (mkValue None None None None
              (Some [(20, 20); (20, 30); (30, 30); (30, 20)]) None None None
              (Some ["side"])));
    try reflexivity; discriminate.
Defined.


(** ** The converters and the unused helpers *)

Lemma effective_dims_fallback (ann : Label) (w h : option Q) :
  truthy w = false \/ truthy h = false ->
  effective_dims ann w h =
  effective_dims ann (l_original_width ann) (l_original_height ann).
Proof.
  intros Hf. unfold effective_dims.
  assert (E : negb (truthy w) || negb (truthy h) = true).
  { destruct Hf as [-> | ->]; [reflexivity|apply orb_true_r]. }
  rewrite E.
  destruct (negb (truthy (l_original_width ann)) ||
            negb (truthy (l_original_height ann))) eqn:E'; [reflexivity|].
  apply orb_false_iff in E'. rewrite !negb_false_iff in E'.
  destruct E' as [Ew Eh].
  destruct (l_original_width ann); [|discriminate].
  destruct (l_original_height ann); [|discriminate]. reflexivity.
Qed.

(** X10: when the width or the height handed to a converter is missing
    or zero, both converters work with the label's own top-level
    original_width and original_height instead, and behave exactly as if
    they had been handed those (raising KeyError where the label has
    none). *)
Theorem converters_fall_back (ann : Label) (w h : option Q) :
  truthy w = false \/ truthy h = false ->
  _convert_bbox ann w h =
    _convert_bbox ann (l_original_width ann) (l_original_height ann) /\
  _convert_single_keypoint ann w h =
    _convert_single_keypoint ann (l_original_width ann)
      (l_original_height ann) /\
  (l_original_width ann = None ->
   _convert_bbox ann w h = Raise (KeyError "original_width") /\
   _convert_single_keypoint ann w h = Raise (KeyError "original_width")).
Proof.
  intros Hf. unfold _convert_bbox, _convert_single_keypoint.
  rewrite (effective_dims_fallback ann w h Hf).
  split; [reflexivity|]. split; [reflexivity|].
  intros Hnone. unfold effective_dims. rewrite Hnone. cbn. split; reflexivity.
Qed.

Lemma converters_fall_back_witness :
  _convert_bbox (sample_box "B1" 10 10 50 50) (Some 0) (Some 480) =
  _convert_bbox (sample_box "B1" 10 10 50 50) (Some 100) (Some 100).
Proof.
  apply (converters_fall_back (sample_box "B1" 10 10 50 50) (Some 0)
           (Some 480)).
  left. reflexivity.
Defined.

Lemma emit_objects_raise (self : LSConverter) (item : Task)
  (image_id : nat) (has_draft : bool) (author_id : Z) (w h : option Q)
  (d : dict string Assoc) (o : Out) (key : string) (data : Assoc)
  (b : Label) (e : exn) :
  In (key, data) d -> a_bbox data = Some b ->
  _convert_bbox b w h = Raise e ->
  exists e',
    for_each (emit_object self item image_id has_draft author_id w h) d o =
    Raise e'.
Proof.
  intros Hin Hb Hc. revert o. induction d as [|entry rest IH]; intros o;
    [contradiction|].
  cbn [for_each]. destruct Hin as [->|Hin].
  - unfold emit_object at 1. cbn [snd]. rewrite Hb, Hc. cbn [bind].
    now exists e.
  - destruct (emit_object self item image_id has_draft author_id w h o entry)
      as [o1|e1]; cbn [bind]; [now apply IH|now exists e1].
Qed.

(** X11: a box label that cannot be converted (a coordinate is missing
    from its value, or the dimensions and the label's own are missing)
    makes the post-processing of its task raise, hence stops the run:
    the box is not skipped, even when no keypoint set refers to it. *)
Theorem unconvertible_box_aborts (self : LSConverter) (item : Task)
  (image_id : nat) (has_draft : bool) (author_id : Z) (w h : option Q)
  (d : dict string Assoc) (orphans : list Orphan) (o : Out) (key : string)
  (data : Assoc) (b : Label) (e : exn) :
  In (key, data) d -> a_bbox data = Some b ->
  _convert_bbox b w h = Raise e ->
  exists e',
    post_process self item image_id has_draft author_id w h d orphans o =
    Raise e'.
Proof.
  intros Hin Hb Hc. unfold post_process.
  destruct (emit_objects_raise self item image_id has_draft author_id w h d o
              key data b e Hin Hb Hc) as (e' & ->).
  now exists e'.
Qed.

Lemma unconvertible_box_aborts_witness :
  let bad := mkLabel "B9" "rectanglelabels" None (Some 100) (Some 100)
    (Some (mkValue None (Some 10) (Some 50) (Some 50) None None None
             (Some ["tm"]) None)) in
  exists e',
    post_process sample_self sample_linked_task 0 false 3 (Some 100)
      (Some 100)
      [("B1", mkAssoc 0 (Some (sample_box "B1" 10 10 50 50)) [] false);
       ("B9", mkAssoc 0 (Some bad) [] false)] [] ([], []) = Raise e'.
Proof.
  intros bad.
  apply (unconvertible_box_aborts sample_self sample_linked_task 0 false 3
           (Some 100) (Some 100) _ [] ([], []) "B9"
           (mkAssoc 0 (Some bad) [] false) bad Breakpoint).
  - right. left. reflexivity.
  - reflexivity.
  - reflexivity.
Defined.

(** X12: [_check_points_in_bbox] is true exactly when every point, taken
    to pixels, lies within the inclusive bounds of the box; it computes
    the test that the orphan loop writes inline on its converted points. *)
Theorem check_points_in_bbox_spec (points : list (Q * Q)) (bbox : BBox)
  (W H : Q) :
  _check_points_in_bbox points bbox W H =
    all_in_bbox bbox (map (to_pixels W H) points) /\
  to_abs (Some W) (Some H) points = Ok (map (to_pixels W H) points) /\
  (_check_points_in_bbox points bbox W H = true <->
   Forall (fun p => inside bbox (to_pixels W H p)) points).
Proof.
  assert (H1 : _check_points_in_bbox points bbox W H =
               all_in_bbox bbox (map (to_pixels W H) points)).
  { destruct bbox as [[[x y] bw] bh]. unfold all_in_bbox.
    induction points as [|p rest IH]; [reflexivity|].
    cbn [_check_points_in_bbox map forallb]. unfold in_range at 1.
    cbn [to_pixels fst snd].
    destruct (Qle_bool x (fst p * W / 100) &&
              Qle_bool (fst p * W / 100) (x + bw) &&
              Qle_bool y (snd p * H / 100) &&
              Qle_bool (snd p * H / 100) (y + bh)); cbn [negb andb];
      [exact IH|reflexivity]. }
  split; [exact H1|]. split.
  - clear H1. induction points as [|p rest IH]; [reflexivity|].
    cbn [to_abs map]. rewrite IH. cbn [bind]. reflexivity.
  - rewrite H1, all_in_bbox_spec, Forall_map. reflexivity.
Qed.

Lemma scale_into_spec (coords : list Q) (points : list (Q * Q)) (W H : Q) :
  scale_into coords points (Some W) (Some H) =
  Ok (coords ++ extend_coords points W H).
Proof.
  revert coords. induction points as [|p rest IH]; intros coords.
  - cbn. now rewrite app_nil_r.
  - cbn [scale_into extend_coords]. rewrite IH, <- app_assoc. reflexivity.
Qed.

Lemma convert_single_keypoint_given (ann : Label) (W H : Q)
  (r : list Q * nat) :
  ~ W == 0 -> ~ H == 0 ->
  _convert_single_keypoint ann (Some W) (Some H) = Ok r ->
  exists value points,
    l_value ann = Some value /\ v_points value = Some points /\
    r = (extend_coords points W H, List.length points).
Proof.
  intros HW HH. unfold _convert_single_keypoint.
  rewrite (effective_dims_given _ _ _ HW HH). cbn [bind].
  destruct (l_value ann) as [value|]; [|discriminate]. cbn [getitem bind].
  destruct (v_points value) as [points|] eqn:Ep; [|discriminate].
  cbn [bind]. intros H0. injection H0 as <-. now exists value, points.
Qed.

(** X13: on labels that [_convert_single_keypoint] converts one by one,
    [_convert_keypoints] returns their coordinate lists joined in order,
    three values per point, together with the number of labels (not the
    number of points). *)
Theorem convert_keypoints_flattens (keypoint_anns : list Label) (W H : Q)
  (singles : list (list Q * nat)) :
  ~ W == 0 -> ~ H == 0 ->
  Forall2 (fun ann r => _convert_single_keypoint ann (Some W) (Some H) = Ok r)
    keypoint_anns singles ->
  _convert_keypoints keypoint_anns (Some W) (Some H) =
    Ok (List.concat (map fst singles), List.length keypoint_anns) /\
  List.length (List.concat (map fst singles)) =
    (3 * list_sum (map snd singles))%nat.
Proof.
  intros HW HH Hall. unfold _convert_keypoints.
  assert (Hloop : forall acc,
    for_each
      (fun keypoints ann =>
         value <- getitem "value" (l_value ann) ;;
         points <- getitem "points" (v_points value) ;;
         scale_into keypoints points (Some W) (Some H))
      keypoint_anns acc = Ok (acc ++ List.concat (map fst singles)) /\
    List.length (List.concat (map fst singles)) =
      (3 * list_sum (map snd singles))%nat).
  { induction Hall as [|ann r anns rs Hr Hrest IH]; intros acc.
    - cbn. now rewrite app_nil_r.
    - destruct (convert_single_keypoint_given ann W H r HW HH Hr)
        as (value & points & Hv & Hp & ->).
      cbn [for_each map List.concat fst snd list_sum].
      rewrite Hv. cbn [getitem bind]. rewrite Hp. cbn [getitem bind].
      rewrite scale_into_spec. cbn [bind].
      destruct (IH (acc ++ extend_coords points W H)) as [IH1 IH2].
      rewrite IH1, <- app_assoc. split; [reflexivity|].
      rewrite length_app, IH2.
      rewrite (proj1 (extend_coords_layout points W H)).
      unfold list_sum. cbn [fold_right]. lia. }
  destruct (Hloop []) as [-> Hlen]. cbn [bind app]. now split.
Qed.

Lemma convert_keypoints_flattens_witness :
  let kp1 := sample_poly "P1" None "side" [(20, 20); (20, 30)] in
  let kp2 := sample_poly "P2" None "side" [(30, 30)] in
  exists coords,
    _convert_keypoints [kp1; kp2] (Some 100) (Some 100) = Ok (coords, 2%nat) /\
    List.length coords = 9%nat.
Proof.
  intros kp1 kp2.
  assert (HW : ~ 100 == 0) by (intros H; discriminate H).
  destruct (convert_keypoints_flattens [kp1; kp2] 100 100
              [(extend_coords [(20, 20); (20, 30)] 100 100, 2%nat);
               (extend_coords [(30, 30)] 100 100, 1%nat)] HW HW)
    as [Hc Hl].
  - constructor; [reflexivity|]. constructor; [reflexivity|constructor].
  - eexists. split; [exact Hc|exact Hl].
Defined.


(** ** What the parent path emits *)

(** X14: a keypoint set of four points within its parent box, whose
    label name is in the polygon taxonomy and whose box has its label
    list, is always emitted, as one annotation with that box, those
    keypoints and the next free id; the winding-order check can only add
    one warning, never refuse the set, and is not run at all for category
    ids other than 1 and 3. *)
Theorem linked_keypoints_emitted (self : LSConverter) (item : Task)
  (image_id : nat) (has_draft : bool) (author_id : Z) (w h : option Q)
  (bbox_ann : Label) (bbox : BBox) (o : Out) (keypoint_ann : Label)
  (coords : list Q) (name : string) (category_id : nat)
  (bbox_label : list string) :
  _convert_single_keypoint keypoint_ann w h = Ok (coords, 4%nat) ->
  Forall (inside bbox) (points_of_coords coords) ->
  first_polygonlabel keypoint_ann = Ok name ->
  category_of self name = Ok category_id ->
  rectanglelabels_of bbox_ann = Ok bbox_label ->
  exists a log',
    emit_keypoint self item image_id has_draft author_id w h bbox_ann bbox o
      keypoint_ann = Ok (fst o ++ [a], log') /\
    ann_id a = List.length (fst o) /\ ann_image_id a = image_id /\
    ann_category_id a = category_id /\ ann_bbox a = bbox /\
    ann_keypoints a = coords /\ ann_num_keypoints a = 4%nat /\
    ann_bbox_label a = bbox_label /\ ann_author_id a = author_id /\
    (log' = snd o \/ exists d, log' = snd o ++ [d]) /\
    (category_id <> 1%nat -> category_id <> 3%nat -> log' = snd o).
Proof.
  intros Hk Hin Hn Hc Hl. unfold emit_keypoint.
  rewrite Hk. cbn [bind Nat.eqb negb].
  apply all_in_bbox_spec in Hin. rewrite Hin. cbn [negb].
  rewrite Hn. cbn [bind]. rewrite Hc. cbn [bind].
  destruct bbox as [[[x y] bw] bh].
  destruct (category_id =? 1)%nat eqn:E1.
  - destruct (negb (_check_polygon_order (points_of_coords coords) false));
      rewrite Hl; cbn [bind]; eexists; eexists;
      (split; [reflexivity|]); cbn;
      repeat split; eauto; intros H1; apply Nat.eqb_eq in E1; congruence.
  - destruct (category_id =? 3)%nat eqn:E3.
    + destruct (negb (_check_polygon_order (points_of_coords coords) true));
        rewrite Hl; cbn [bind]; eexists; eexists;
        (split; [reflexivity|]); cbn;
        repeat split; eauto; intros H1 H3; apply Nat.eqb_eq in E3;
        congruence.
    + rewrite Hl. cbn [bind]. eexists. eexists.
      split; [reflexivity|]. cbn. repeat split; eauto.
Qed.

Lemma linked_keypoints_emitted_witness :
  let kp := sample_poly "P1" (Some "B1") "front"
              [(20, 20); (30, 20); (30, 30); (20, 30)] in
  exists a log',
    emit_keypoint sample_self sample_linked_task 0 false 3 (Some 100)
      (Some 100) (sample_box "B1" 10 10 50 50)
      (10 * 100 / 100, 10 * 100 / 100, 50 * 100 / 100, 50 * 100 / 100)
      ([], []) kp = Ok ([a], log') /\
    ann_num_keypoints a = 4%nat.
Proof.
  intros kp.
  edestruct (linked_keypoints_emitted sample_self sample_linked_task 0 false
               3 (Some 100) (Some 100) (sample_box "B1" 10 10 50 50)
               (10 * 100 / 100, 10 * 100 / 100, 50 * 100 / 100,
                50 * 100 / 100) ([], []) kp)
    as (a & log' & He & _ & _ & _ & _ & _ & Hn & _).
  - reflexivity.
  - apply all_in_bbox_spec. vm_compute. reflexivity.
  - reflexivity.
  - reflexivity.
  - reflexivity.
  - exists a, log'. split; [exact He|exact Hn].
Defined.

(** ** Exports without orphans, exports without zero dimensions *)

Lemma associate_linked_no_orphan (item_idx : nat) (item : Task)
  (image_id : nat) (has_draft : bool) (author_id : Z) (s s' : State)
  (label : Label) :
  (l_type label = "polygonlabels" ->
   exists c p, l_parentID label = Some (String c p)) ->
  associate item_idx item image_id has_draft author_id s label = Ok s' ->
  orphan_keypoints_list s' = orphan_keypoints_list s.
Proof.
  intros Hlinked. unfold associate. destruct (t_annotations item).
  - intros H. injection H as <-. reflexivity.
  - destruct (String.eqb (l_type label) "rectanglelabels").
    + intros H. bind_inv H. destruct (v_points a0).
      * injection H as <-. reflexivity.
      * destruct (dict_get String.eqb (annotations_dict s) (l_id label));
          injection H as <-; reflexivity.
    + destruct (String.eqb (l_type label) "polygonlabels") eqn:E.
      * apply String.eqb_eq in E. destruct (Hlinked E) as (c & p & Hp).
        rewrite Hp. intros H. bind_inv H. destruct (v_x a0).
        { injection H as <-. reflexivity. }
        destruct (dict_get String.eqb (annotations_dict s) (String c p));
          injection H as <-; reflexivity.
      * intros H. injection H as <-. reflexivity.
Qed.

Lemma label_step_linked_no_orphan (item_idx : nat) (item : Task)
  (image_id : nat) (has_draft : bool) (author_id : Z) (s s' : State)
  (label : Label) :
  (l_type label = "polygonlabels" ->
   exists c p, l_parentID label = Some (String c p)) ->
  orphan_keypoints_list s = [] ->
  label_step item_idx item image_id has_draft author_id s label = Ok s' ->
  orphan_keypoints_list s' = [].
Proof.
  intros Hlinked Hs. unfold label_step.
  destruct (negb (truthy (height s)) || negb (truthy (width s))).
  - destruct (reported_dims label) as [[w h]|].
    + intros H. apply associate_linked_no_orphan in H; [|exact Hlinked].
      now rewrite H.
    + intros H. now injection H as <-.
  - intros H. apply associate_linked_no_orphan in H; [|exact Hlinked].
    now rewrite H.
Qed.

Lemma convert_item_linked (self : LSConverter) (s s' : State)
  (item_idx : nat) (item : Task) :
  (forall a label, In a (t_annotations item) -> In label (result a) ->
     l_type label = "polygonlabels" ->
     exists c p, l_parentID label = Some (String c p)) ->
  convert_item self s item_idx item = Ok s' ->
  exists new,
    annotations_coco s' = annotations_coco s ++ new /\
    Forall (parent_ok (List.length (images_coco s))) new.
Proof.
  intros Hlinked H. unfold convert_item in H.
  destruct (t_annotations item) as [|a0 rest] eqn:Et; [discriminate|].
  cbn [bind] in H. bind_inv H. bind_inv H. injection H as <-.
  cbn [annotations_coco].
  assert (Hno : orphan_keypoints_list a = []).
  { revert Ha.
    apply (for_each_pred_in (fun st => orphan_keypoints_list st = []));
      [|reflexivity].
    intros st lb st' Hin. apply label_step_linked_no_orphan.
    apply (Hlinked a0); [now left|exact Hin]. }
  apply label_loop_inv in Ha. destruct Ha as (Hanns & _ & _).
  rewrite Hno in Ha0. unfold post_process in Ha0. bind_inv Ha0.
  cbn [for_each] in Ha0. injection Ha0 as <-.
  apply parent_loop_checked in Ha. destruct Ha as (new & Hnew & Hall).
  cbn [fst] in Hnew. exists new. rewrite Hnew, Hanns. now split.
Qed.

(** X15: in an export where every polygon label names a parent, every
    annotation of the output has exactly four keypoints, all within the
    inclusive bounds of its box, whatever the dimensions are. *)
Theorem linked_export_checked (self : LSConverter) (ann_list : list Task)
  (images : list Image) (annotations : list CocoAnn) (log : list diag) :
  export_all_linked ann_list ->
  convert_to_coco self ann_list = Ok (images, annotations, log) ->
  forall a, In a annotations ->
    ann_num_keypoints a = 4%nat /\
    List.length (ann_keypoints a) = 12%nat /\
    Forall (inside (ann_bbox a)) (points_of_coords (ann_keypoints a)).
Proof.
  intros Hlinked Hrun.
  assert (Hshape := annotations_have_coco_shape_aux self ann_list images
                      annotations log Hrun).
  unfold convert_to_coco in Hrun. bind_inv Hrun. injection Hrun as _ <- _.
  assert (Hgen : forall l s s' idx,
             (forall item, In item l -> In item ann_list) ->
             Forall (fun x => ann_num_keypoints x = 4%nat /\
                              keypoints_in_bbox x = true)
               (annotations_coco s) ->
             convert_items self s idx l = Ok s' ->
             Forall (fun x => ann_num_keypoints x = 4%nat /\
                              keypoints_in_bbox x = true)
               (annotations_coco s')).
  { induction l as [|item rest IH]; intros s s' idx Hsub Hs H; simpl in H.
    - now injection H as <-.
    - bind_inv H. eapply IH; [| |exact H].
      + intros it Hit. apply Hsub. now right.
      + destruct (convert_item_linked self s a0 idx item) as (new & -> & Hn).
        * intros a2 label Ha2 Hl. apply (Hlinked item a2 label); try assumption.
          apply Hsub. now left.
        * exact Ha0.
        * apply Forall_app. split; [exact Hs|].
          eapply Forall_impl; [|exact Hn]. intros x Hx. split; apply Hx. }
  apply (Hgen ann_list _ a 0%nat (fun _ Hin => Hin)) in Ha; [|constructor].
  intros x Hx. rewrite Forall_forall in Ha. destruct (Ha x Hx) as [Hn Hc].
  split; [exact Hn|]. split.
  - rewrite (Hshape x Hx), Hn. reflexivity.
  - now apply all_in_bbox_spec.
Qed.


Lemma linked_export_checked_witness :
  exists images a log,
    convert_to_coco sample_self [sample_linked_task]
      = Ok (images, [a], log) /\
    (ann_num_keypoints a = 4%nat /\
     List.length (ann_keypoints a) = 12%nat /\
     Forall (inside (ann_bbox a)) (points_of_coords (ann_keypoints a))).
Proof.
  do 3 eexists. split; [vm_compute; reflexivity|].
  assert (Hlinked : export_all_linked [sample_linked_task]).
  { intros item a label [<-|[]] [<-|[]] [<-|[<-|[]]] Hty;
      [discriminate Hty|]. eexists. eexists. reflexivity. }
  eapply (linked_export_checked sample_self [sample_linked_task] _ _ []
            Hlinked).
  - vm_compute. reflexivity.
  - left. reflexivity.
Defined.

(** X16: in an export where no label reports a zero dimension, every
    keypoint of every annotation of the output lies within the inclusive
    bounds of the annotation's box, on the parent path and on the orphan
    path alike. *)
Theorem nonzero_export_contained (self : LSConverter)
  (ann_list : list Task) (images : list Image) (annotations : list CocoAnn)
  (log : list diag) :
  export_nonzero_dims ann_list ->
  convert_to_coco self ann_list = Ok (images, annotations, log) ->
  forall a, In a annotations ->
    Forall (inside (ann_bbox a)) (points_of_coords (ann_keypoints a)).
Proof.
  intros Hnz Hrun a Hin.
  assert (H := run_contained self ann_list images annotations log Hnz Hrun).
  rewrite Forall_forall in H. apply all_in_bbox_spec. now apply H.
Qed.

Lemma nonzero_export_contained_witness :
  exists images a1 a2 log,
    convert_to_coco sample_self sample_export
      = Ok (images, [a1; a2], log) /\
    Forall (inside (ann_bbox a2)) (points_of_coords (ann_keypoints a2)).
Proof.
  do 4 eexists. split; [vm_compute; reflexivity|].
  eapply (nonzero_export_contained sample_self sample_export _ _ []
            sample_export_nonzero).
  - vm_compute. reflexivity.
  - right. left. reflexivity.
Defined.


(** * Properties of the reverse direction *)

Module Coco2LabelStudioFacts.
Import Coco2LabelStudio.

Lemma and_then_got {A B : Type} (m : Try A) (k : A -> Try B) (b : B) :
  and_then m k = Got b -> exists a, m = Got a /\ k a = Got b.
Proof. destruct m as [a|e]; simpl; [eauto|discriminate]. Qed.

Lemma nonzero_eq_bool (q : Q) : ~ q == 0 -> Qeq_bool q 0 = false.
Proof.
  intros H. destruct (Qeq_bool q 0) eqn:E; [|reflexivity].
  apply Qeq_bool_iff in E. contradiction.
Qed.

Lemma percent_sized (v d : Q) (key : string) :
  ~ d == 0 -> percent v key (Some (Some d)) = Got (v / d * 100).
Proof. intros H. unfold percent. cbn. now rewrite (nonzero_eq_bool d H). Qed.

Lemma percent_back (v d : Q) : ~ d == 0 -> v / d * 100 * d / 100 == v.
Proof. intros H. field. exact H. Qed.

(** X20: a box of a COCO annotation, written out as a rectangle label for
    an image of non-zero width and height, is read back by the forward
    converter as the same box: the label reports the image's dimensions
    in its value, and [_convert_bbox] under these dimensions returns the
    original (x, y, w, h), as rationals. *)
Theorem bbox_round_trip (ann : CocoInput) (x y w h W H : Q) (id : Z)
  (file_name : string) :
  ~ W == 0 -> ~ H == 0 ->
  exists r b,
    bbox_result ann (x, y, w, h) (sized id file_name W H) = Got r /\
    l_type (r_label r) = "rectanglelabels" /\
    l_id (r_label r) = tagged_id "bbox_" (ci_id ann) /\
    reported_dims (r_label r) = Some (W, H) /\
    _convert_bbox (r_label r) (Some W) (Some H) = Ok b /\
    same_bbox b (x, y, w, h).
Proof.
  intros HW HH. unfold bbox_result, sized. cbn [ii_width ii_height].
  rewrite !percent_sized by assumption. cbn [and_then dimension].
  eexists. eexists. split; [reflexivity|].
  cbn [r_label l_type l_id]. split; [reflexivity|]. split; [reflexivity|].
  split; [reflexivity|].
  unfold _convert_bbox. rewrite (effective_dims_given _ _ _ HW HH).
  cbn [bind l_value getitem v_x v_y v_width v_height].
  split; [reflexivity|]. unfold same_bbox.
  repeat split; now apply percent_back.
Qed.

Lemma bbox_round_trip_witness :
  exists r b,
    bbox_result (mkCocoInput 5 1 2 (Some (64, 48, 320, 240)) None)
      (64, 48, 320, 240) (sized 1 "a.jpg" 640 480) = Got r /\
    _convert_bbox (r_label r) (Some 640) (Some 480) = Ok b /\
    same_bbox b (64, 48, 320, 240).
Proof.
  assert (HW : ~ 640 == 0) by (intros H; discriminate H).
  assert (HH : ~ 480 == 0) by (intros H; discriminate H).
  destruct (bbox_round_trip
              (mkCocoInput 5 1 2 (Some (64, 48, 320, 240)) None)
              64 48 320 240 640 480 1 "a.jpg" HW HH)
    as (r & b & Hr & _ & _ & _ & Hb & Hs).
  exists r, b. repeat split; assumption.
Defined.

(** Induction over a keypoint list three values at a time. *)
Lemma triples_ind (P : list Q -> Prop) :
  P [] -> (forall x, P [x]) -> (forall x y, P [x; y]) ->
  (forall x y v rest, P rest -> P (x :: y :: v :: rest)) ->
  forall l, P l.
Proof.
  intros H0 H1 H2 H3 l.
  assert (Hall : forall n l, (List.length l <= n)%nat -> P l).
  { induction n as [|n IH]; intros [|x [|y [|v rest]]] Hl; auto.
    - cbn in Hl. lia.
    - apply H3. apply IH. cbn in Hl. lia. }
  now apply (Hall (List.length l)).
Qed.

Lemma visible_points_sized (keypoints : list Q) (W H : Q) (id : Z)
  (file_name : string) :
  ~ W == 0 -> ~ H == 0 -> whole_triples keypoints ->
  visible_points keypoints (sized id file_name W H) =
  Got (map (fun p => (fst p / W * 100, snd p / H * 100))
         (visible_xy keypoints)).
Proof.
  intros HW HH. induction keypoints as [|x|x y|x y v rest IH] using triples_ind;
    intros Hwhole; try contradiction; [reflexivity|].
  cbn [visible_points visible_xy]. cbn [whole_triples] in Hwhole.
  destruct (Qlt_bool 0 v); [|now apply IH].
  unfold sized at 1 2. cbn [ii_width ii_height].
  rewrite !percent_sized by assumption. cbn [and_then].
  rewrite IH by exact Hwhole. reflexivity.
Qed.

Lemma extend_coords_back (points : list (Q * Q)) (W H : Q) :
  ~ W == 0 -> ~ H == 0 ->
  Forall2 same_point
    (points_of_coords
       (extend_coords
          (map (fun p => (fst p / W * 100, snd p / H * 100)) points) W H))
    points.
Proof.
  intros HW HH. induction points as [|p rest IH]; [constructor|].
  cbn [map extend_coords points_of_coords fst snd].
  constructor; [|exact IH].
  split; cbn [fst snd]; now apply percent_back.
Qed.

(** X21: the keypoints of a COCO annotation, written out as a polygon
    label for an image of non-zero width and height, are read back by the
    forward converter as the visible ones among them, in order and with
    the same coordinates (as rationals); points with visibility 0 or less
    are lost, and the count read back is the number of visible points. *)
Theorem keypoints_round_trip (ann : CocoInput) (keypoints : list Q)
  (W H : Q) (id : Z) (file_name : string) :
  ~ W == 0 -> ~ H == 0 -> whole_triples keypoints ->
  exists points r coords,
    visible_points keypoints (sized id file_name W H) = Got points /\
    poly_result ann points (sized id file_name W H) = Got r /\
    l_type (r_label r) = "polygonlabels" /\
    l_parentID (r_label r) = None /\
    reported_dims (r_label r) = Some (W, H) /\
    _convert_single_keypoint (r_label r) (Some W) (Some H) =
      Ok (coords, List.length (visible_xy keypoints)) /\
    Forall2 same_point (points_of_coords coords) (visible_xy keypoints).
Proof.
  intros HW HH Hwhole.
  eexists. eexists. eexists.
  split; [now apply visible_points_sized|].
  unfold poly_result, sized. cbn [ii_width ii_height dimension and_then].
  split; [reflexivity|]. cbn [r_label l_type l_parentID].
  split; [reflexivity|]. split; [reflexivity|]. split; [reflexivity|].
  unfold _convert_single_keypoint.
  rewrite (effective_dims_given _ _ _ HW HH).
  cbn [bind l_value getitem v_points]. rewrite length_map.
  split; [reflexivity|]. now apply extend_coords_back.
Qed.

Lemma keypoints_round_trip_witness :
  exists points r coords,
    visible_points [64; 48; 2; 0; 0; 0; 320; 240; 1] (sized 1 "a.jpg" 640 480)
      = Got points /\
    poly_result (mkCocoInput 5 1 2 None None) points (sized 1 "a.jpg" 640 480)
      = Got r /\
    _convert_single_keypoint (r_label r) (Some 640) (Some 480) =
      Ok (coords, 2%nat) /\
    Forall2 same_point (points_of_coords coords) [(64, 48); (320, 240)].
Proof.
  assert (HW : ~ 640 == 0) by (intros H; discriminate H).
  assert (HH : ~ 480 == 0) by (intros H; discriminate H).
  destruct (keypoints_round_trip (mkCocoInput 5 1 2 None None)
              [64; 48; 2; 0; 0; 0; 320; 240; 1] 640 480 1 "a.jpg" HW HH)
    as (points & r & coords & Hp & Hr & _ & _ & _ & Hc & Hs).
  - cbn. exact I.
  - exists points, r, coords. repeat split; assumption.
Defined.

Lemma whole_triples_length (keypoints : list Q) :
  whole_triples keypoints <-> (List.length keypoints mod 3 = 0)%nat.
Proof.
  induction keypoints as [|x|x y|x y v rest IH] using triples_ind;
    cbn [whole_triples].
  - split; reflexivity.
  - split; [contradiction|discriminate].
  - split; [contradiction|discriminate].
  - rewrite IH. cbn [List.length].
    replace (S (S (S (List.length rest)))) with (List.length rest + 1 * 3)%nat
      by lia.
    now rewrite Nat.Div0.mod_add.
Qed.

Lemma visible_points_none (keypoints : list Q) (img_info : ImgInfo) :
  whole_triples keypoints -> visible_xy keypoints = [] ->
  visible_points keypoints img_info = Got [].
Proof.
  induction keypoints as [|x|x y|x y v rest IH] using triples_ind;
    intros Hwhole Hnone; try contradiction; [reflexivity|].
  cbn [visible_points visible_xy whole_triples] in *.
  destruct (Qlt_bool 0 v); [discriminate|now apply IH].
Qed.

Lemma visible_points_broken (keypoints : list Q) (W H : Q) (id : Z)
  (file_name : string) :
  ~ W == 0 -> ~ H == 0 -> ~ whole_triples keypoints ->
  visible_points keypoints (sized id file_name W H) = Thrown ValueErr.
Proof.
  intros HW HH. induction keypoints as [|x|x y|x y v rest IH] using triples_ind;
    intros Hbroken; try reflexivity.
  - exfalso. apply Hbroken. exact I.
  - cbn [visible_points]. cbn [whole_triples] in Hbroken.
    destruct (Qlt_bool 0 v); [|now apply IH].
    unfold sized at 1 2. cbn [ii_width ii_height].
    rewrite !percent_sized by assumption. cbn [and_then].
    now rewrite IH.
Qed.

(** X22: an annotation without box whose keypoints are all invisible
    (visibility 0 or less) leaves the task as it is, whatever the image
    entry holds, even no dimensions at all; and for an image of non-zero
    width and height, a keypoint list whose length is not a multiple of 3
    makes the conversion raise ValueError. *)
Theorem keypoints_edge_cases (ann : CocoInput) (keypoints : list Q)
  (task : LSTask) :
  ci_keypoints ann = Some keypoints ->
  (ci_bbox ann = None ->
   (List.length keypoints mod 3 = 0)%nat -> visible_xy keypoints = [] ->
   forall img_info, process_annotation img_info task ann = Got task) /\
  ((List.length keypoints mod 3 <> 0)%nat ->
   ci_bbox ann = None ->
   forall W H id file_name, ~ W == 0 -> ~ H == 0 ->
     process_annotation (sized id file_name W H) task ann = Thrown ValueErr).
Proof.
  intros Hk. split.
  - intros Hb Hlen Hnone img_info. unfold process_annotation.
    rewrite Hb, Hk. cbn [and_then].
    rewrite visible_points_none;
      [reflexivity|now apply whole_triples_length|exact Hnone].
  - intros Hlen Hb W H id file_name HW HH. unfold process_annotation.
    rewrite Hb, Hk. cbn [and_then].
    rewrite visible_points_broken; try assumption; [reflexivity|].
    intros Hw. apply whole_triples_length in Hw. contradiction.
Qed.

Lemma keypoints_edge_cases_witness :
  process_annotation (mkImgInfo 1 "a.jpg" None None)
    (mkLSTask "a.jpg" None None [])
    (mkCocoInput 5 1 2 None (Some [64; 48; 0; 320; 240; 0])) =
  Got (mkLSTask "a.jpg" None None []).
Proof.
  destruct (keypoints_edge_cases
              (mkCocoInput 5 1 2 None (Some [64; 48; 0; 320; 240; 0]))
              [64; 48; 0; 320; 240; 0] (mkLSTask "a.jpg" None None [])
              eq_refl) as [Hnone _].
  apply Hnone; reflexivity.
Defined.

(** X23: for an annotation that has a box, on a task that has its
    annotation entry, the conversion raises KeyError('width') when the
    image entry has no width, TypeError when the width is null, and
    ZeroDivisionError when it is zero; nothing is appended. *)
Theorem box_needs_width (task : LSTask) (a : LSAnnotation)
  (others : list LSAnnotation) (ann : CocoInput) (bbox : BBox)
  (rest : list CocoInput) (img_info : ImgInfo) :
  tk_annotations task = a :: others ->
  ci_bbox ann = Some bbox ->
  (ii_width img_info = None ->
   process_annotations task (ann :: rest) img_info =
     Thrown (KeyErr "width")) /\
  (ii_width img_info = Some None ->
   process_annotations task (ann :: rest) img_info = Thrown TypeErr) /\
  (forall q, ii_width img_info = Some (Some q) -> q == 0 ->
   process_annotations task (ann :: rest) img_info =
     Thrown ZeroDivisionErr).
Proof.
  intros Ht Hb. cbn [process_annotations]. unfold process_annotation.
  rewrite Hb. unfold first_annotation. rewrite Ht. cbn [and_then].
  unfold bbox_result. destruct bbox as [[[x y] w] h].
  split; [|split].
  - intros ->. reflexivity.
  - intros ->. reflexivity.
  - intros q -> Hq. apply Qeq_bool_iff in Hq.
    unfold percent at 1. cbn [dimension and_then]. now rewrite Hq.
Qed.

Lemma box_needs_width_witness :
  process_annotations
    (mkLSTask "a.jpg" (Some 0) (Some 480)
       [mkLSAnnotation [] 1 false false "t" "t" "t" "t"])
    [mkCocoInput 5 1 2 (Some (64, 48, 320, 240)) None]
    (sized 1 "a.jpg" 0 480) = Thrown ZeroDivisionErr.
Proof.
  destruct (box_needs_width
              (mkLSTask "a.jpg" (Some 0) (Some 480)
                 [mkLSAnnotation [] 1 false false "t" "t" "t" "t"])
              (mkLSAnnotation [] 1 false false "t" "t" "t" "t") []
              (mkCocoInput 5 1 2 (Some (64, 48, 320, 240)) None)
              (64, 48, 320, 240) [] (sized 1 "a.jpg" 0 480)
              eq_refl eq_refl) as (_ & _ & Hz).
  apply (Hz 0); reflexivity.
Defined.

Lemma append_inj (p s1 s2 : string) :
  (p ++ s1)%string = (p ++ s2)%string -> s1 = s2.
Proof.
  induction p as [|c p IH]; cbn; [auto|].
  intros H. injection H as H. now apply IH.
Qed.

Lemma tagged_id_inj (prefix : string) (a b : Z) :
  tagged_id prefix a = tagged_id prefix b -> a = b.
Proof.
  unfold tagged_id. intros H. apply append_inj in H.
  apply DecimalZ.to_int_inj.
  assert (E := DecimalString.NilEmpty.isi (Z.to_int a)).
  rewrite H, DecimalString.NilEmpty.isi in E. now injection E.
Qed.

Lemma tagged_id_kinds (a b : Z) :
  tagged_id "bbox_" a <> tagged_id "poly_" b.
Proof. unfold tagged_id. cbn. discriminate. Qed.

Lemma result_ids_append (task : LSTask) (a : LSAnnotation) (r : LSResult) :
  first_annotation task = Got a ->
  result_ids (append_result task r) = result_ids task ++ [l_id (r_label r)].
Proof.
  unfold first_annotation, result_ids, results_of, append_result.
  destruct (tk_annotations task) as [|a0 rest]; [discriminate|].
  intros _. cbn. now rewrite map_app.
Qed.

(** The ids one annotation adds to the result list. *)
Lemma process_annotation_ids (img_info : ImgInfo) (task task' : LSTask)
  (ann : CocoInput) :
  process_annotation img_info task ann = Got task' ->
  exists with_box with_poly : bool,
    result_ids task' =
    result_ids task ++
      (if with_box then [tagged_id "bbox_" (ci_id ann)] else []) ++
      (if with_poly then [tagged_id "poly_" (ci_id ann)] else []).
Proof.
  unfold process_annotation. intros H.
  apply and_then_got in H. destruct H as (task1 & H1 & H).
  assert (E1 : exists with_box : bool,
    result_ids task1 =
    result_ids task ++
      (if with_box then [tagged_id "bbox_" (ci_id ann)] else [])).
  { destruct (ci_bbox ann) as [bbox|].
    - apply and_then_got in H1. destruct H1 as (a & Ha & H1).
      apply and_then_got in H1. destruct H1 as (r & Hr & H1).
      injection H1 as <-. exists true.
      rewrite (result_ids_append _ a r Ha). f_equal.
      unfold bbox_result in Hr. destruct bbox as [[[x y] w] h].
      repeat (apply and_then_got in Hr; destruct Hr as (? & _ & Hr)).
      now injection Hr as <-.
    - injection H1 as <-. exists false. now rewrite app_nil_r. }
  destruct E1 as (with_box & E1). exists with_box.
  destruct (ci_keypoints ann) as [keypoints|].
  - apply and_then_got in H. destruct H as (points & _ & H).
    destruct points as [|p points].
    + injection H as <-. exists false. now rewrite E1, app_nil_r.
    + apply and_then_got in H. destruct H as (a & Ha & H).
      apply and_then_got in H. destruct H as (r & Hr & H).
      injection H as <-. exists true.
      rewrite (result_ids_append _ a r Ha), E1, <- app_assoc. do 2 f_equal.
      unfold poly_result in Hr.
      repeat (apply and_then_got in Hr; destruct Hr as (? & _ & Hr)).
      now injection Hr as <-.
  - injection H as <-. exists false. now rewrite E1, app_nil_r.
Qed.

Lemma process_annotations_ids (img_info : ImgInfo)
  (annotations : list CocoInput) (task task' : LSTask) :
  NoDup (map ci_id annotations) ->
  process_annotations task annotations img_info = Got task' ->
  exists new,
    result_ids task' = result_ids task ++ new /\ NoDup new /\
    forall s, In s new ->
      exists ann, In ann annotations /\
        (s = tagged_id "bbox_" (ci_id ann) \/
         s = tagged_id "poly_" (ci_id ann)).
Proof.
  revert task. induction annotations as [|ann rest IH]; intros task Hnd H.
  - injection H as <-. exists []. rewrite app_nil_r.
    split; [reflexivity|]. split; [constructor|intros s []].
  - cbn [process_annotations] in H.
    apply and_then_got in H. destruct H as (task1 & H1 & H).
    cbn [map] in Hnd. inversion Hnd as [|x l Hnotin Hnd']; subst.
    destruct (IH task1 Hnd' H) as (new & E & Hnew & Hfrom).
    destruct (process_annotation_ids _ _ _ _ H1)
      as (with_box & with_poly & E1).
    set (mine := (if with_box then [tagged_id "bbox_" (ci_id ann)] else []) ++
                 (if with_poly then [tagged_id "poly_" (ci_id ann)] else []))
      in *.
    assert (Hmine : forall s, In s mine ->
              s = tagged_id "bbox_" (ci_id ann) \/
              s = tagged_id "poly_" (ci_id ann)).
    { intros s Hs. subst mine. apply in_app_iff in Hs.
      destruct with_box, with_poly; destruct Hs as [Hs|Hs];
        try contradiction; destruct Hs as [<-|[]]; auto. }
    exists (mine ++ new). split; [now rewrite E, E1, app_assoc|]. split.
    + apply NoDup_app; [| exact Hnew |].
      * subst mine. destruct with_box, with_poly; cbn [app].
        -- constructor; [|constructor; [intros []|constructor]].
           intros [Heq|[]]. symmetry in Heq.
           exact (tagged_id_kinds _ _ Heq).
        -- constructor; [intros []|constructor].
        -- constructor; [intros []|constructor].
        -- constructor.
      * intros s Hs Hs'. destruct (Hfrom s Hs') as (other & Hin & Hother).
        assert (Hne : ci_id other <> ci_id ann).
        { intros Heq. apply Hnotin. rewrite <- Heq. now apply in_map. }
        destruct (Hmine s Hs) as [-> | ->]; destruct Hother as [Ho|Ho].
        -- apply tagged_id_inj in Ho. congruence.
        -- exact (tagged_id_kinds _ _ Ho).
        -- symmetry in Ho. exact (tagged_id_kinds _ _ Ho).
        -- apply tagged_id_inj in Ho. congruence.
    + intros s Hs. apply in_app_iff in Hs. destruct Hs as [Hs|Hs].
      * exists ann. split; [now left|now apply Hmine].
      * destruct (Hfrom s Hs) as (other & Hin & Hother).
        exists other. split; [now right|exact Hother].
Qed.

(** X24: on a task whose result list is empty, annotations with pairwise
    distinct ids give labels with pairwise distinct ids, each of the form
    bbox_<id> or poly_<id> for the id of one of the annotations. *)
Theorem result_ids_distinct (img_info : ImgInfo)
  (annotations : list CocoInput) (task task' : LSTask) :
  results_of task = [] ->
  NoDup (map ci_id annotations) ->
  process_annotations task annotations img_info = Got task' ->
  NoDup (result_ids task') /\
  forall s, In s (result_ids task') ->
    exists ann, In ann annotations /\
      (s = tagged_id "bbox_" (ci_id ann) \/
       s = tagged_id "poly_" (ci_id ann)).
Proof.
  intros Hempty Hnd H.
  destruct (process_annotations_ids _ _ _ _ Hnd H) as (new & E & Hnew & Hfrom).
  unfold result_ids at 2 in E. rewrite Hempty in E. cbn in E.
  rewrite E. now split.
Qed.

Lemma result_ids_distinct_witness :
  exists task',
    process_annotations
      (mkLSTask "a.jpg" (Some 640) (Some 480)
         [mkLSAnnotation [] 1 false false "t" "t" "t" "t"])
      [mkCocoInput 5 1 2 (Some (64, 48, 320, 240)) (Some [64; 48; 2]);
       mkCocoInput 6 1 1 (Some (0, 0, 64, 48)) None]
      (sized 1 "a.jpg" 640 480) = Got task' /\
    NoDup (result_ids task').
Proof.
  eexists. split; [vm_compute; reflexivity|].
  refine (proj1 (result_ids_distinct (sized 1 "a.jpg" 640 480)
                   [mkCocoInput 5 1 2 (Some (64, 48, 320, 240))
                      (Some [64; 48; 2]);
                    mkCocoInput 6 1 1 (Some (0, 0, 64, 48)) None]
                   (mkLSTask "a.jpg" (Some 640) (Some 480)
                      [mkLSAnnotation [] 1 false false "t" "t" "t" "t"])
                   _ eq_refl _ _)).
  - repeat constructor; cbn; intuition discriminate.
  - vm_compute. reflexivity.
Defined.

Section World.
Variable path_name : string -> string.
Variable path_join : string -> string -> string.
Variable now : nat -> string.
Variable path_exists : string -> bool.
Variable get_image_size : string -> Try (Q * Q).

Lemma preprocess_image_spec (image_dir : string) (before after : ImgInfo) :
  preprocess_image path_name path_join path_exists get_image_size image_dir
    before = Got after ->
  preprocessed path_name path_join path_exists get_image_size image_dir
    before after.
Proof.
  unfold preprocess_image, preprocessed, has_size.
  destruct (ii_width before) as [[W|]|] eqn:Ew;
    destruct (ii_height before) as [[H|]|] eqn:Eh;
    try (intros H0; injection H0 as <-; left; split; [eauto|reflexivity]);
    (destruct (path_exists (path_join image_dir
                              (path_name (ii_file_name before)))) eqn:Ex;
     [intros H0; apply and_then_got in H0;
      destruct H0 as ([w h] & Hg & H0); injection H0 as <-;
      right; right;
      split; [intros (W' & H' & HW' & HH'); discriminate|];
      split; [reflexivity|]; exists w, h; split; [exact Hg|reflexivity]
     |intros H0; injection H0 as <-; right; left;
      split; [intros (W' & H' & HW' & HH'); discriminate|];
      split; reflexivity]).
Qed.

(** X25: [preprocess_image_sizes] keeps the image ids and their order;
    an entry with both dimensions is returned as it is; an entry lacking
    one whose file exists gets the probed width as its width and as its
    height (the probed height is not used); an entry lacking one whose
    file does not exist is returned as it is, without dimensions. *)
Theorem preprocess_image_sizes_spec (images images' : dict Z ImgInfo)
  (image_dir : string) :
  preprocess_image_sizes path_name path_join path_exists get_image_size
    images image_dir = Got images' ->
  map fst images' = map fst images /\
  Forall2 (preprocessed path_name path_join path_exists get_image_size
             image_dir) (map snd images) (map snd images').
Proof.
  revert images'. induction images as [|[img_id img_info] rest IH];
    intros images' H.
  - injection H as <-. split; [reflexivity|constructor].
  - cbn [preprocess_image_sizes] in H.
    apply and_then_got in H. destruct H as (info' & Hi & H).
    apply and_then_got in H. destruct H as (rest' & Hr & H).
    injection H as <-. destruct (IH rest' Hr) as [Hk Hv].
    cbn [map fst snd]. rewrite Hk. split; [reflexivity|].
    constructor; [now apply preprocess_image_spec|exact Hv].
Qed.

Lemma preprocess_keeps_lookup (images images' : dict Z ImgInfo)
  (image_dir : string) (img_id : Z) :
  preprocess_image_sizes path_name path_join path_exists get_image_size
    images image_dir = Got images' ->
  (dict_get Z.eqb images' img_id = None <->
   dict_get Z.eqb images img_id = None).
Proof.
  revert images'. induction images as [|[k img_info] rest IH];
    intros images' H.
  - injection H as <-. reflexivity.
  - cbn [preprocess_image_sizes] in H.
    apply and_then_got in H. destruct H as (info' & Hi & H).
    apply and_then_got in H. destruct H as (rest' & Hr & H).
    injection H as <-. cbn [dict_get].
    destruct (Z.eqb k img_id); [split; discriminate|now apply IH].
Qed.

Lemma tasks_by_images_length (entries : dict Z ImgInfo) (image_dir : string)
  (groups : dict Z (list CocoInput)) (tick : nat) (tasks tasks' : list LSTask) :
  tasks_by_images path_name path_join now entries image_dir groups tick tasks
    = Got tasks' ->
  List.length tasks' = (List.length tasks + List.length entries)%nat.
Proof.
  revert tick tasks. induction entries as [|[img_id img_info] rest IH];
    intros tick tasks H.
  - injection H as <-. cbn. lia.
  - cbn [tasks_by_images] in H.
    apply and_then_got in H. destruct H as (task & _ & H).
    apply IH in H. rewrite H, length_app. cbn. lia.
Qed.

Lemma tasks_by_annotations_length (images : dict Z ImgInfo)
  (image_dir : string) (groups : dict Z (list CocoInput)) (tick : nat)
  (tasks : list LSTask) (missing : list Z) (tasks' : list LSTask)
  (missing' : list Z) :
  tasks_by_annotations path_name path_join now images image_dir groups tick
    tasks missing = Got (tasks', missing') ->
  (List.length tasks' + List.length missing' =
   List.length tasks + List.length missing + List.length groups)%nat /\
  (forall img_id, In img_id missing' ->
     In img_id missing \/ dict_get Z.eqb images img_id = None).
Proof.
  revert tick tasks missing. induction groups as [|[img_id anns] rest IH];
    intros tick tasks missing H.
  - injection H as <- <-. split; [cbn; lia|auto].
  - cbn [tasks_by_annotations] in H.
    destruct (dict_get Z.eqb images img_id) as [img_info|] eqn:E.
    + apply and_then_got in H. destruct H as (task & _ & H).
      apply IH in H. destruct H as [Hl Hm]. split; [|exact Hm].
      rewrite Hl, length_app. cbn. lia.
    + apply IH in H. destruct H as [Hl Hm]. split.
      * rewrite Hl, length_app. cbn. lia.
      * intros k Hk. destruct (Hm k Hk) as [Hin|Hnone]; [|now right].
        apply in_app_iff in Hin. destruct Hin as [Hin|[<-|[]]];
          [now left|now right].
Qed.
End World.

Lemma Z_eqb_spec (a b : Z) : Z.eqb a b = true <-> a = b.
Proof. apply Z.eqb_eq. Qed.

Lemma dict_get_none_keys {V : Type} (d : dict Z V) (k : Z) :
  dict_get Z.eqb d k = None <-> ~ In k (dict_keys d).
Proof.
  unfold dict_keys. induction d as [|[k' v] r IH]; cbn.
  - tauto.
  - destruct (Z.eqb k' k) eqn:E.
    + apply Z.eqb_eq in E. subst. split; [discriminate|]. intros H.
      exfalso. apply H. now left.
    + apply Z.eqb_neq in E. rewrite IH. tauto.
Qed.

Lemma images_by_id_keys (images : list ImgInfo) (k : Z) :
  In k (dict_keys (images_by_id images)) <-> In k (map ii_id images).
Proof.
  unfold images_by_id.
  assert (Hgen : forall d,
    In k (dict_keys
            (fold_left (fun d img => dict_set Z.eqb d (ii_id img) img)
               images d)) <->
    In k (dict_keys d) \/ In k (map ii_id images)).
  { induction images as [|img rest IH]; intros d; cbn [fold_left map In].
    - tauto.
    - rewrite IH, (dict_set_keys_In _ Z_eqb_spec). intuition. }
  rewrite Hgen. cbn. tauto.
Qed.

(** The groups of [group_annotations], started from a dictionary. *)
Lemma group_fold_get (annotations : list CocoInput)
  (d : dict Z (list CocoInput)) (img_id : Z) :
  dict_get Z.eqb
    (fold_left
       (fun d ann =>
          dict_set Z.eqb d (ci_image_id ann)
            (match dict_get Z.eqb d (ci_image_id ann) with
             | Some anns => anns ++ [ann]
             | None => [ann]
             end)) annotations d) img_id =
  match filter (fun a => Z.eqb (ci_image_id a) img_id) annotations with
  | [] => dict_get Z.eqb d img_id
  | mine =>
      Some (match dict_get Z.eqb d img_id with
            | Some anns => anns ++ mine
            | None => mine
            end)
  end.
Proof.
  revert d. induction annotations as [|ann rest IH]; intros d;
    [reflexivity|].
  cbn [fold_left filter]. rewrite IH.
  destruct (Z.eqb (ci_image_id ann) img_id) eqn:E.
  - apply Z.eqb_eq in E. subst img_id.
    rewrite (dict_get_set_same _ Z_eqb_spec).
    destruct (filter (fun a => Z.eqb (ci_image_id a) (ci_image_id ann)) rest);
      destruct (dict_get Z.eqb d (ci_image_id ann));
      cbv zeta; rewrite <- ?app_assoc; reflexivity.
  - apply Z.eqb_neq in E.
    rewrite (dict_get_set_other _ Z_eqb_spec) by congruence. reflexivity.
Qed.

Lemma group_fold_keys (annotations : list CocoInput)
  (d : dict Z (list CocoInput)) :
  NoDup (dict_keys d) ->
  NoDup (dict_keys
           (fold_left
              (fun d ann =>
                 dict_set Z.eqb d (ci_image_id ann)
                   (match dict_get Z.eqb d (ci_image_id ann) with
                    | Some anns => anns ++ [ann]
                    | None => [ann]
                    end)) annotations d)).
Proof.
  revert d. induction annotations as [|ann rest IH]; intros d Hd;
    [exact Hd|].
  cbn [fold_left]. apply IH. now apply (dict_set_keys_NoDup _ Z_eqb_spec).
Qed.

(** X26: the grouping of the annotations by image id has one group per
    image id that occurs, under pairwise distinct keys, and the group of
    an image id is the list of the annotations with that image id, in
    their order in the COCO file; an image id without annotation has no
    group. *)
Theorem group_annotations_spec (annotations : list CocoInput) :
  NoDup (dict_keys (group_annotations annotations)) /\
  forall img_id,
    dict_get Z.eqb (group_annotations annotations) img_id =
    match filter (fun a => Z.eqb (ci_image_id a) img_id) annotations with
    | [] => None
    | mine => Some mine
    end.
Proof.
  unfold group_annotations. split.
  - apply group_fold_keys. constructor.
  - intros img_id. rewrite group_fold_get. cbn [dict_get].
    now destruct (filter _ annotations).
Qed.

(** X27: when the conversion returns, traversing by images gives one
    task per distinct image id of the COCO file and warns about none;
    traversing by annotations gives one task or one warning per distinct
    image id among the annotations, a warning only for an id that no image
    entry has; any other traversal name never returns tasks. *)
Theorem traversal_counts (path_name : string -> string)
  (path_join : string -> string -> string) (now : nat -> string)
  (path_exists : string -> bool) (get_image_size : string -> Try (Q * Q))
  (coco_images : list ImgInfo) (coco_annotations : list CocoInput)
  (image_dir : string) :
  let run :=
    coco_to_labelstudio path_name path_join now path_exists get_image_size
      coco_images coco_annotations image_dir in
  (forall tasks missing, run "images" = Got (tasks, missing) ->
     List.length tasks = List.length (images_by_id coco_images) /\
     missing = []) /\
  (forall tasks missing, run "annotations" = Got (tasks, missing) ->
     (List.length tasks + List.length missing =
      List.length (group_annotations coco_annotations))%nat /\
     forall img_id, In img_id missing ->
       ~ In img_id (map ii_id coco_images)) /\
  (forall traverse_by tasks missing,
     traverse_by <> "annotations" -> traverse_by <> "images" ->
     run traverse_by <> Got (tasks, missing)).
Proof.
  intros run. subst run. unfold coco_to_labelstudio. split; [|split].
  - intros tasks missing H.
    apply and_then_got in H. destruct H as (images & Hp & H).
    cbn [String.eqb Ascii.eqb Bool.eqb] in H.
    apply and_then_got in H. destruct H as (ts & Ht & H).
    injection H as <- <-. split; [|reflexivity].
    apply tasks_by_images_length in Ht. rewrite Ht. cbn [List.length plus].
    apply preprocess_image_sizes_spec in Hp. destruct Hp as [Hk _].
    rewrite <- (length_map fst images), Hk, length_map. reflexivity.
  - intros tasks missing H.
    apply and_then_got in H. destruct H as (images & Hp & H).
    cbn [String.eqb Ascii.eqb Bool.eqb] in H.
    apply tasks_by_annotations_length in H. destruct H as [Hl Hm].
    split; [rewrite Hl; cbn; lia|].
    intros img_id Hin. destruct (Hm img_id Hin) as [[]|Hnone].
    apply (preprocess_keeps_lookup _ _ _ _ _ _ _ img_id Hp) in Hnone.
    apply dict_get_none_keys in Hnone.
    now rewrite images_by_id_keys in Hnone.
  - intros traverse_by tasks missing Ha Hi H.
    apply and_then_got in H. destruct H as (images & _ & H).
    apply String.eqb_neq in Ha, Hi. rewrite Ha, Hi in H. discriminate.
Qed.

Lemma traversal_counts_witness :
  let images := [sized 1 "a.jpg" 640 480; sized 2 "b.jpg" 640 480] in
  let annotations :=
    [mkCocoInput 5 1 2 (Some (64, 48, 320, 240)) None;
     mkCocoInput 6 9 1 (Some (0, 0, 64, 48)) None;
     mkCocoInput 7 1 1 None (Some [64; 48; 2])] in
  exists tasks missing,
    coco_to_labelstudio sample_path_name sample_path_join sample_now
      sample_path_exists sample_get_image_size images annotations "imgs"
      "annotations" = Got (tasks, missing) /\
    (List.length tasks + List.length missing =
     List.length (group_annotations annotations))%nat /\
    missing = [9%Z].
Proof.
  intros images annotations.
  do 2 eexists. split; [vm_compute; reflexivity|]. split; [|reflexivity].
  destruct (traversal_counts sample_path_name sample_path_join sample_now
              sample_path_exists sample_get_image_size images annotations
              "imgs") as (_ & Hann & _).
  refine (proj1 (Hann _ _ _)). vm_compute. reflexivity.
Defined.

Lemma preprocess_image_sizes_spec_witness :
  exists images',
    preprocess_image_sizes sample_path_name sample_path_join
      sample_path_exists sample_get_image_size
      [(1%Z, mkImgInfo 1 "a.jpg" None None);
       (2%Z, sized 2 "b.jpg" 800 600)] "imgs" = Got images' /\
    map fst images' = [1%Z; 2%Z] /\
    map snd images' = [sized 1 "a.jpg" 640 640; sized 2 "b.jpg" 800 600].
Proof.
  eexists. split; [vm_compute; reflexivity|]. split; [|reflexivity].
  refine (proj1 (preprocess_image_sizes_spec sample_path_name
                   sample_path_join sample_path_exists sample_get_image_size
                   [(1%Z, mkImgInfo 1 "a.jpg" None None);
                    (2%Z, sized 2 "b.jpg" 800 600)] _ "imgs" _)).
  vm_compute. reflexivity.
Defined.

End Coco2LabelStudioFacts.
